(** * terraform-provider-circonus: configuration, API and state mappers

    A shallow embedding of the translation layer of the provider
    ([circonus/check.go], [circonus/resource_circonus_check_http.go],
    [circonus/resource_circonus_graph.go] and the rule-set resource) and the
    properties of its validation rules and of its two mapping directions.

    Layout:
    - [Go]: the parts of the Go runtime and standard library the mappers call
      (unsigned wrap-around, decimal text, [strings.TrimSpace],
      [time.ParseDuration], [Duration.Seconds], float conversions);
    - [Check]: [circonusCheck], its [ParseConfig], [Validate], the HTTP
      check-type mappers and [checkDelete];
    - [Graph]: [circonusGraph], datapoint and metric-cluster mapping;
    - [RuleSet]: [circonusRuleSet], its [ParseConfig], [Validate] and the
      then-clause of [ruleSetRead];
    - [CheckSpec], [GraphSpec], [RuleSetSpec]: the predicates and the example
      configurations the theorems are stated with;
    - [Range], [CheckExt], [GraphExt], [RuleSetExt]: further loops and
      switches of the same files (the broker loop of [checkRead], the
      criteria switch and the [over] block of [ruleSetRead]) and the
      predicates of their properties;
    - [GoFacts], [CheckFacts], [GraphFacts], [RuleSetFacts], [Lifecycle]: the
      proofs;
    - [GoSeconds], [GoStrings], [CheckDurations], [CheckAttributes],
      [CheckHTTP], [GraphReadBack], [RuleSetReadBack]: round trips and
      outcomes of the mappers. *)

From Stdlib Require Import ZArith QArith Qround Qabs String Ascii List Lia Bool Sorted.
From stdpp Require Import base gmap strings list.

Local Open Scope string_scope.
Local Open Scope Z_scope.

(** ** Results of fallible functions

    A Go function returning [error] or [(T, error)] becomes a function into
    [result E T]; [let* x := c in k] is the usual early return on a non-nil
    error. *)

Inductive result (E A : Type) : Type :=
| Ok (a : A)
| Err (e : E).
Arguments Ok {E A} a.
Arguments Err {E A} e.

Definition rbind {E A B} (c : result E A) (k : A -> result E B) : result E B :=
  match c with
  | Ok a => k a
  | Err e => Err e
  end.

Notation "'let*' x ':=' c 'in' k" := (rbind c (fun x => k))
  (at level 10, x name, c at level 100, k at level 200).

Definition isErr {E A} (r : result E A) : bool :=
  match r with Ok _ => false | Err _ => true end.

Definition isOk {E A} (r : result E A) : bool := negb (isErr r).

(** ** The Go runtime and standard library, as far as the mappers use them *)

Module Go.

(** *** Machine integers *)

(** [uint] is 64 bits wide on the provider's targets; a conversion to [uint]
    or an arithmetic result is reduced modulo [2^64]. *)
Definition uint (z : Z) : Z := z mod 2 ^ 64.

(** [uint8(x)] keeps the low byte. *)
Definition uint8 (z : Z) : Z := z mod 2 ^ 8.

Definition maxInt64 : Z := 2 ^ 63 - 1.
Definition minInt64 : Z := - 2 ^ 63.

(** [int(x)] of a [uint] reads the same 64 bits as a signed number. *)
Definition int (z : Z) : Z :=
  let u := z mod 2 ^ 64 in
  if u <=? maxInt64 then u else u - 2 ^ 64.

(** *** Decimal text *)

Definition isDigit (c : ascii) : bool :=
  let n := N_of_ascii c in ((48 <=? n) && (n <=? 57))%N.

Definition digitVal (c : ascii) : Z := Z.of_N (N_of_ascii c) - 48.

Definition digitChar (d : Z) : ascii := ascii_of_N (Z.to_N (48 + d)).

Fixpoint allDigits (s : string) : bool :=
  match s with
  | EmptyString => true
  | String c r => isDigit c && allDigits r
  end.

(** The number a string of digits denotes, most significant digit first,
    continuing from the digits already read ([x]). *)
Fixpoint decimalFrom (x : Z) (s : string) : Z :=
  match s with
  | EmptyString => x
  | String c r => decimalFrom (10 * x + digitVal c) r
  end.

Definition decimalValue (s : string) : Z := decimalFrom 0 s.

(** Digits of a non-negative [n], prepended to [acc]. *)
Fixpoint fmtDigits (fuel : nat) (n : Z) (acc : string) : string :=
  match fuel with
  | O => acc
  | S f =>
      let acc' := String (digitChar (n mod 10)) acc in
      if n <? 10 then acc' else fmtDigits f (n / 10) acc'
  end.

(** [fmt.Sprintf("%d", n)] and [strconv.Itoa]: a number has at most
    [log2 n + 1] decimal digits, which bounds the loop. *)
Definition FormatInt (n : Z) : string :=
  if n <? 0
  then String "-" (fmtDigits (S (Z.to_nat (Z.log2 (- n)))) (- n) "")
  else fmtDigits (S (Z.to_nat (Z.log2 n))) n "".

(** A leading sign: whether it is a minus, and the text after it. *)
Definition stripSign (s : string) : bool * string :=
  match s with
  | String "-" r => (true, r)
  | String "+" r => (false, r)
  | _ => (false, s)
  end.

(** [strconv.ParseInt(s, 10, 64)] and, on 64-bit targets, [strconv.Atoi]: an
    optional sign, at least one digit, nothing else, and the value must fit
    an [int64]. *)
Definition Atoi (s : string) : option Z :=
  let '(neg, body) := stripSign s in
  match body with
  | EmptyString => None
  | _ =>
      if allDigits body then
        let v := if neg : bool then - decimalValue body else decimalValue body in
        if (minInt64 <=? v) && (v <=? maxInt64) then Some v else None
      else None
  end.

(** [strconv.ParseUint(s, 10, 64)]: the value and whether it is valid; a
    caller that drops the error sees [0] after a syntax error and the largest
    [uint64] after a range error. *)
Definition ParseUint (s : string) : Z * bool :=
  match s with
  | EmptyString => (0, false)
  | _ =>
      if allDigits s then
        if decimalValue s <? 2 ^ 64 then (decimalValue s, true)
        else (2 ^ 64 - 1, false)
      else (0, false)
  end.

(** *** [strings.TrimSpace]

    The white-space runes of Unicode, as the UTF-8 byte sequences they occupy
    in a Go string. *)
Definition byte (n : N) : ascii := ascii_of_N n.

Definition bytes (l : list N) : string := string_of_list_ascii (map byte l).

Definition spaceRunes : list string :=
  map bytes
    [ [9]; [10]; [11]; [12]; [13]; [32];
      [194; 133]; [194; 160];
      [225; 154; 128];
      [226; 128; 128]; [226; 128; 129]; [226; 128; 130]; [226; 128; 131];
      [226; 128; 132]; [226; 128; 133]; [226; 128; 134]; [226; 128; 135];
      [226; 128; 136]; [226; 128; 137]; [226; 128; 138];
      [226; 128; 168]; [226; 128; 169]; [226; 128; 175];
      [226; 129; 159];
      [227; 128; 128] ]%N.

(** [stripPrefix p s] is the rest of [s] after the prefix [p], if [s] starts
    with [p]. *)
Fixpoint stripPrefix (p s : string) : option string :=
  match p, s with
  | EmptyString, _ => Some s
  | String a p', String b s' => if Ascii.eqb a b then stripPrefix p' s' else None
  | String _ _, EmptyString => None
  end.

Fixpoint stripAny (ps : list string) (s : string) : option string :=
  match ps with
  | [] => None
  | p :: ps' =>
      match stripPrefix p s with
      | Some r => Some r
      | None => stripAny ps' s
      end
  end.

Fixpoint trimLeftWith (ps : list string) (fuel : nat) (s : string) : string :=
  match fuel with
  | O => s
  | S f =>
      match stripAny ps s with
      | Some r => trimLeftWith ps f r
      | None => s
      end
  end.

Definition revString (s : string) : string :=
  string_of_list_ascii (rev (list_ascii_of_string s)).

Definition TrimSpace (s : string) : string :=
  let l := trimLeftWith spaceRunes (String.length s) s in
  let r := revString l in
  revString (trimLeftWith (map revString spaceRunes) (String.length r) r).

(** *** Floating point

    A finite IEEE-754 value is represented by the rational it denotes.
    [round_ne p q] is the value with [p] significant bits nearest to [q], ties
    going to the even significand; the exponent range is not modelled (every
    value below stays far from overflow and from the subnormal range). *)

(** [floorLog2 n d] is the [e] with [2^e <= n/d < 2^(e+1)]. *)
Definition floorLog2 (n d : positive) : Z :=
  let e0 := Z.log2 (Zpos n) - Z.log2 (Zpos d) in
  let reached :=
    if 0 <=? e0 then Zpos d * 2 ^ e0 <=? Zpos n
    else Zpos d <=? Zpos n * 2 ^ (- e0) in
  if reached then e0 else e0 - 1.

Definition round_pos (p : Z) (n d : positive) : Q :=
  let s := floorLog2 n d - (p - 1) in
  let num := Zpos n * 2 ^ Z.max 0 (- s) in
  let den := Zpos d * 2 ^ Z.max 0 s in
  let m := num / den in
  let r := num mod den in
  let m' :=
    if 2 * r <? den then m
    else if den <? 2 * r then m + 1
    else if Z.even m then m else m + 1 in
  Qred ((m' * 2 ^ Z.max 0 s) # Z.to_pos (2 ^ Z.max 0 (- s))).

Definition round_ne (p : Z) (q : Q) : Q :=
  match Qnum q with
  | Z0 => 0%Q
  | Zpos n => round_pos p n (Qden q)
  | Zneg n => Qopp (round_pos p n (Qden q))
  end.

(** Conversions [float64(x)] and [float32(x)]. *)
Definition float64 (q : Q) : Q := round_ne 53 q.
Definition float32 (q : Q) : Q := round_ne 24 q.

Definition fadd64 (a b : Q) : Q := float64 (a + b).
Definition fmul64 (a b : Q) : Q := float64 (a * b).
Definition fdiv64 (a b : Q) : Q := float64 (a / b).

(** Conversion of a float to an integer drops the fraction. *)
Definition Qtrunc (q : Q) : Z :=
  if Qnum q <? 0 then Qceiling q else Qfloor q.

(** [uint(f)]: for [0 <= f < 2^64] the integer part of [f]; outside that
    range Go leaves the result to the implementation, here the wrapped
    integer part. *)
Definition uintOfFloat (q : Q) : Z := uint (Qtrunc q).

(** *** [time.Duration] *)

(** A [Duration] is an [int64] count of nanoseconds. *)
Definition Duration : Type := Z.

Definition Nanosecond : Z := 1.
Definition Microsecond : Z := 1000 * Nanosecond.
Definition Millisecond : Z := 1000 * Microsecond.
Definition Second : Z := 1000 * Millisecond.
Definition Minute : Z := 60 * Second.
Definition Hour : Z := 60 * Minute.

(** [d.Seconds()]: [float64(d / Second) + float64(d % Second) / 1e9]. *)
Definition Seconds (d : Duration) : Q :=
  fadd64 (float64 (inject_Z (Z.quot d Second)))
         (fdiv64 (float64 (inject_Z (Z.rem d Second))) (inject_Z Second)).

(** [d.Minutes()]: [float64(d / Minute) + float64(d % Minute) / (60 * 1e9)]. *)
Definition Minutes (d : Duration) : Q :=
  fadd64 (float64 (inject_Z (Z.quot d Minute)))
         (fdiv64 (float64 (inject_Z (Z.rem d Minute))) (inject_Z Minute)).

(** [time.ParseDuration]'s table of units; the two spellings of the micro
    sign are given by their UTF-8 bytes. *)
Definition unitMap (u : string) : option Z :=
  if String.eqb u "ns" then Some Nanosecond
  else if String.eqb u "us" then Some Microsecond
  else if String.eqb u (bytes [194; 181; 115]%N) then Some Microsecond
  else if String.eqb u (bytes [206; 188; 115]%N) then Some Microsecond
  else if String.eqb u "ms" then Some Millisecond
  else if String.eqb u "s" then Some Second
  else if String.eqb u "m" then Some Minute
  else if String.eqb u "h" then Some Hour
  else None.

(** [leadingInt]: the leading digits of [s] as a number, and the rest of
    [s]; [None] when the number exceeds [2^63]. *)
Fixpoint leadingInt (x : Z) (s : string) : option (Z * string) :=
  match s with
  | String c r =>
      if isDigit c then
        if 2 ^ 63 / 10 <? x then None
        else
          let x' := 10 * x + digitVal c in
          if 2 ^ 63 <? x' then None else leadingInt x' r
      else Some (x, s)
  | EmptyString => Some (x, s)
  end.

(** [leadingFraction]: the digits after the decimal point as a number [x]
    and a power of ten [scale]; digits that no longer fit are skipped. *)
Fixpoint leadingFraction (x : Z) (scale : Q) (overflow : bool) (s : string)
  : Z * Q * string :=
  match s with
  | String c r =>
      if isDigit c then
        if overflow then leadingFraction x scale true r
        else if (2 ^ 63 - 1) / 10 <? x then leadingFraction x scale true r
        else
          let y := 10 * x + digitVal c in
          if 2 ^ 63 <? y then leadingFraction x scale true r
          else leadingFraction y (fmul64 scale 10) false r
      else (x, scale, s)
  | EmptyString => (x, scale, s)
  end.

(** The unit of a component: everything up to the next digit or point. *)
Fixpoint spanUnit (s : string) : string * string :=
  match s with
  | String c r =>
      if isDigit c || Ascii.eqb c "." then (EmptyString, s)
      else let '(u, rest) := spanUnit r in (String c u, rest)
  | EmptyString => (EmptyString, EmptyString)
  end.

Definition lenEq (a b : string) : bool :=
  Nat.eqb (String.length a) (String.length b).

(** One component after its leading digits [v]: the fraction, the unit and
    the scaling to nanoseconds; the result is the component's value and the
    rest of the text. [pre] tells whether any digit came before the point. *)
Definition parseComponent (v : Z) (pre : bool) (s1 : string)
  : option (Z * string) :=
  let '(f, scale, s2, post) :=
    match s1 with
    | String "." r =>
        let '(f, scale, s2) := leadingFraction 0 1 false r in
        (f, scale, s2, negb (lenEq r s2))
    | _ => (0, 1%Q, s1, false)
    end in
  if negb pre && negb post then None
  else
    let '(u, s3) := spanUnit s2 in
    match u with
    | EmptyString => None
    | _ =>
        match unitMap u with
        | None => None
        | Some unit =>
            if 2 ^ 63 / unit <? v then None
            else
              let v1 := v * unit in
              let v2 :=
                if 0 <? f
                then uint (v1 + uintOfFloat
                       (fmul64 (float64 (inject_Z f))
                               (fdiv64 (float64 (inject_Z unit)) scale)))
                else v1 in
              if (0 <? f) && (2 ^ 63 <? v2) then None
              else Some (v2, s3)
        end
    end.

(** The loop of [time.ParseDuration] over the components of a duration
    (digits, an optional point and more digits, then a unit); [d] is the sum
    so far, a [uint64]. Every round consumes at least one character, so
    [fuel] above the length of [s] is never exhausted. *)
Fixpoint parseComponents (fuel : nat) (d : Z) (s : string) : option Z :=
  match fuel with
  | O => None
  | S fuel' =>
      match s with
      | EmptyString => Some d
      | String c0 _ =>
          if negb (Ascii.eqb c0 "." || isDigit c0) then None
          else
            match leadingInt 0 s with
            | None => None
            | Some (v, s1) =>
                match parseComponent v (negb (lenEq s s1)) s1 with
                | None => None
                | Some (v2, s3) =>
                    let d' := uint (d + v2) in
                    if 2 ^ 63 <? d' then None
                    else parseComponents fuel' d' s3
                end
            end
      end
  end.

(** [time.ParseDuration]: [None] stands for its error. *)
Definition ParseDuration (s : string) : option Duration :=
  let '(neg, s1) := stripSign s in
  if String.eqb s1 "0" then Some 0
  else
    match s1 with
    | EmptyString => None
    | _ =>
        match parseComponents (S (String.length s1)) 0 s1 with
        | None => None
        | Some d =>
            if neg : bool then Some (- d)
            else if 2 ^ 63 - 1 <? d then None
            else Some d
        end
    end.

(** [fmtFrac]: the last [prec] decimal digits of [v] as a fraction (".5",
    ".000001"), without trailing zeros and without the point when they are
    all zero, and [v / 10^prec]. *)
Fixpoint fmtFracLoop (prec : nat) (v : Z) (print : bool) (acc : string)
  : string * Z * bool :=
  match prec with
  | O => (acc, v, print)
  | S prec' =>
      let digit := v mod 10 in
      let print' := print || negb (digit =? 0) in
      fmtFracLoop prec' (v / 10) print'
        (if print' then String (digitChar digit) acc else acc)
  end.

Definition fmtFrac (v : Z) (prec : nat) : string * Z :=
  let '(acc, v', print) := fmtFracLoop prec v false EmptyString in
  (if print : bool then String "." acc else acc, v').

(** [d.String()]: "72h3m0.5s", "1.5ms", "0s". *)
Definition DurationString (d : Duration) : string :=
  let u := Z.abs d in
  let body :=
    if u <? Second then
      if u =? 0 then "0s"
      else if u <? Microsecond then FormatInt u ++ "ns"
      else if u <? Millisecond then
        let '(frac, w) := fmtFrac u 3 in
        FormatInt w ++ frac ++ bytes [194; 181; 115]%N
      else
        let '(frac, w) := fmtFrac u 6 in
        FormatInt w ++ frac ++ "ms"
    else
      let '(frac, secs) := fmtFrac u 9 in
      let s := FormatInt (secs mod 60) ++ frac ++ "s" in
      let mins := secs / 60 in
      if 0 <? mins then
        let m := FormatInt (mins mod 60) ++ "m" ++ s in
        let hours := mins / 60 in
        if 0 <? hours then FormatInt hours ++ "h" ++ m else m
      else s in
  if (d <? 0) && negb (u =? 0) then String "-" body else body.

(** Nearest integer, ties to even. *)
Definition roundHalfEven (q : Q) : Z :=
  let f := Qfloor q in
  let r := (q - inject_Z f)%Q in
  match (r ?= 1 # 2)%Q with
  | Lt => f
  | Gt => f + 1
  | Eq => if Z.even f then f else f + 1
  end.

Fixpoint zeroPadTo (width fuel : nat) (s : string) : string :=
  match fuel with
  | O => s
  | S f =>
      if Nat.ltb (String.length s) width then zeroPadTo width f (String "0" s)
      else s
  end.

Definition zeroPad (width : nat) (s : string) : string := zeroPadTo width width s.

(** [fmt.Sprintf("%f", x)]: six digits after the point, correctly rounded. *)
Definition FormatFloat6 (q : Q) : string :=
  let n := roundHalfEven (Qabs q * inject_Z (10 ^ 6)) in
  let body := FormatInt (n / 10 ^ 6) ++ "." ++ zeroPad 6 (FormatInt (n mod 10 ^ 6)) in
  if Qnum q <? 0 then String "-" body else body.

End Go.

(** ** The plugin SDK's attribute accessor

    [d.GetOk(key)] returns the value of an attribute and whether it has been
    set to a value other than the zero value of its type: [false], [0], the
    empty string and the empty list all count as not set. *)

Definition GetOkBool (v : bool) : option bool :=
  if v then Some v else None.

Definition GetOkInt (v : Z) : option Z :=
  if v =? 0 then None else Some v.

Definition GetOkString (v : string) : option string :=
  if String.eqb v "" then None else Some v.

Definition GetOkList {A} (v : list A) : option (list A) :=
  match v with
  | [] => None
  | _ => Some v
  end.

(** Diagnostics returned by the context-aware CRUD functions. *)
Inductive Diagnostic : Type :=
| Warning (summary detail : string).

(** ** Checks: [circonus/check.go] and [circonus/resource_circonus_check_http.go] *)

Module Check.

(** Keys of the vendor API's free-form check configuration and the defaults
    of [api.NewCheckBundle], from the vendor client's [config] package. *)
Module config.
Definition AuthMethod : string := "auth_method".
Definition AuthPassword : string := "auth_password".
Definition AuthUser : string := "auth_user".
Definition Body : string := "body".
Definition CAChain : string := "ca_chain".
Definition CertFile : string := "certificate_file".
Definition Ciphers : string := "ciphers".
Definition Code : string := "code".
Definition Extract : string := "extract".
Definition Granularity : string := "granularity".
Definition HeaderPrefix : string := "header_".
Definition HTTPVersion : string := "http_version".
Definition KeyFile : string := "key_file".
Definition Method : string := "method".
Definition Payload : string := "payload".
Definition Port : string := "port".
Definition ReadLimit : string := "read_limit".
Definition Redirects : string := "redirects".
Definition ReverseSecretKey : string := "reverse:secret_key".
Definition SubmissionURL : string := "submission_url".
Definition URL : string := "url".

Definition DefaultCheckBundleMetricLimit : Z := -1.
Definition DefaultCheckBundleStatus : string := "active".
Definition DefaultCheckBundlePeriod : Z := 60.
Definition DefaultCheckBundleTimeout : Q := 10.
End config.

Definition checkStatusActive : string := "active".
Definition checkStatusDisabled : string := "disabled".

Definition apiCheckTypeHTTP : string := "http".
Definition apiCheckTypeCloudWatchAttr : string := "cloudwatch".
Definition apiCheckTypeConsulAttr : string := "consul".

(** The check types [parseCheckTypeConfig] has a handler for. *)
Definition apiCheckTypes : list string :=
  [ "caql"; "cloudwatch"; "consul"; "dns"; "external"; "http"; "httptrap";
    "ping_icmp"; "jmx"; "memcached"; "json"; "mysql"; "ntp"; "postgres";
    "promtext"; "redis"; "smtp"; "snmp"; "statsd"; "tcp" ].

(** *** The vendor API's check bundle *)

Record CheckBundleMetric : Type := {
  MetricName : string;
  MetricType : string;
  MetricStatus : string
}.

(** [api.CheckBundle]: [Period] is a [uint], [Timeout] a [float32], [Notes] a
    [*string], [Config] a [map[config.Key]string] and a metric filter a
    [[]string]. *)
Record CheckBundle : Type := {
  CID : string;
  Brokers : list string;
  Checks : list string;
  CheckUUIDs : list string;
  Config : gmap string string;
  Created : Z;
  DisplayName : string;
  LastModified : Z;
  LastModifedBy : string;
  Metrics : list CheckBundleMetric;
  MetricFilters : list (list string);
  MetricLimit : Z;
  Notes : option string;
  Period : Z;
  ReverseConnectURLs : list string;
  Status : string;
  Tags : list string;
  Target : string;
  Timeout : Q;
  Type_ : string
}.

(** [api.NewCheckBundle()]: an empty configuration map and the vendor's
    defaults for limit, period, timeout and status. *)
Definition NewCheckBundle : CheckBundle := {|
  CID := ""; Brokers := []; Checks := []; CheckUUIDs := [];
  Config := ∅;
  Created := 0; DisplayName := ""; LastModified := 0; LastModifedBy := "";
  Metrics := []; MetricFilters := [];
  MetricLimit := config.DefaultCheckBundleMetricLimit;
  Notes := None;
  Period := config.DefaultCheckBundlePeriod;
  ReverseConnectURLs := [];
  Status := config.DefaultCheckBundleStatus;
  Tags := []; Target := "";
  Timeout := config.DefaultCheckBundleTimeout;
  Type_ := ""
|}.

Definition newCheck : CheckBundle := NewCheckBundle.

Definition withConfig (cfg : gmap string string) (c : CheckBundle) : CheckBundle :=
  {| CID := CID c; Brokers := Brokers c; Checks := Checks c;
     CheckUUIDs := CheckUUIDs c; Config := cfg; Created := Created c;
     DisplayName := DisplayName c; LastModified := LastModified c;
     LastModifedBy := LastModifedBy c; Metrics := Metrics c;
     MetricFilters := MetricFilters c; MetricLimit := MetricLimit c;
     Notes := Notes c; Period := Period c;
     ReverseConnectURLs := ReverseConnectURLs c; Status := Status c;
     Tags := Tags c; Target := Target c; Timeout := Timeout c;
     Type_ := Type_ c |}.

Definition withTarget (t : string) (c : CheckBundle) : CheckBundle :=
  {| CID := CID c; Brokers := Brokers c; Checks := Checks c;
     CheckUUIDs := CheckUUIDs c; Config := Config c; Created := Created c;
     DisplayName := DisplayName c; LastModified := LastModified c;
     LastModifedBy := LastModifedBy c; Metrics := Metrics c;
     MetricFilters := MetricFilters c; MetricLimit := MetricLimit c;
     Notes := Notes c; Period := Period c;
     ReverseConnectURLs := ReverseConnectURLs c; Status := Status c;
     Tags := Tags c; Target := t; Timeout := Timeout c;
     Type_ := Type_ c |}.

Definition withType (t : string) (c : CheckBundle) : CheckBundle :=
  {| CID := CID c; Brokers := Brokers c; Checks := Checks c;
     CheckUUIDs := CheckUUIDs c; Config := Config c; Created := Created c;
     DisplayName := DisplayName c; LastModified := LastModified c;
     LastModifedBy := LastModifedBy c; Metrics := Metrics c;
     MetricFilters := MetricFilters c; MetricLimit := MetricLimit c;
     Notes := Notes c; Period := Period c;
     ReverseConnectURLs := ReverseConnectURLs c; Status := Status c;
     Tags := Tags c; Target := Target c; Timeout := Timeout c;
     Type_ := t |}.

Definition withCID (cid : string) (c : CheckBundle) : CheckBundle :=
  {| CID := cid; Brokers := Brokers c; Checks := Checks c;
     CheckUUIDs := CheckUUIDs c; Config := Config c; Created := Created c;
     DisplayName := DisplayName c; LastModified := LastModified c;
     LastModifedBy := LastModifedBy c; Metrics := Metrics c;
     MetricFilters := MetricFilters c; MetricLimit := MetricLimit c;
     Notes := Notes c; Period := Period c;
     ReverseConnectURLs := ReverseConnectURLs c; Status := Status c;
     Tags := Tags c; Target := Target c; Timeout := Timeout c;
     Type_ := Type_ c |}.

(** *** Errors *)

Inductive error : Type :=
| ErrMetricsAndMetricFilters
    (* Metrics and MetricFilters both have entries, you can only have one or the other *)
| ErrNoMetricsNoMetricFilters
    (* You must supply one or more 'metric' blocks *or* one or more 'metric_filter' blocks *)
| ErrTimeoutExceedsPeriod (timeout : Q) (period : Z)
    (* Timeout (%f) can not exceed period (%d) *)
| ErrCloudWatchPeriod
    (* Period must be either 1m or 5m for a cloudwatch check *)
| ErrConsulMode
    (* consul must have at least one check mode set *)
| ErrParseDuration (attr : string)
    (* unable to parse %q as a duration *)
| ErrNoHTTPConfig
    (* 0 http configs found in list *)
| ErrProviderBugConfigNotEmpty (swamp : gmap string string)
    (* PROVIDER BUG: API Config not empty: %#v *)
| ErrCheckTypeNotSupported (t : string)
    (* check type %q not supported *)
| ErrHandlerElsewhere (t : string)
    (* a supported check type whose handler is not part of this development *)
| ErrIndexOutOfRange
    (* run-time panic: index out of range *)
| ErrAPI (msg : string)
    (* an error of the vendor client, passed on *)
| ErrWrap (context : string) (e : error).
    (* fmt.Errorf("context: %w", err) *)

(** *** Attributes of the [circonus_check] resource

    The fields carry the names of the attribute constants of [check.go]. A
    block read with [map[...]] look-ups has an [option] per key ([None]: the
    key is absent from the map). *)

Record metricBlock : Type := {
  metricActiveAttr : bool;
  metricNameAttr : string;
  metricTypeAttr : string
}.

Record metricFilterBlock : Type := {
  filterTypeAttr : option string;
  filterRegexAttr : option string;
  filterTagQueryAttr : option string;
  filterCommentAttr : option string
}.

Record httpBlock : Type := {
  checkHTTPAuthMethodAttr : option string;
  checkHTTPAuthPasswordAttr : option string;
  checkHTTPAuthUserAttr : option string;
  checkHTTPBodyRegexpAttr : option string;
  checkHTTPCAChainAttr : option string;
  checkHTTPCertFileAttr : option string;
  checkHTTPCiphersAttr : option string;
  checkHTTPCodeRegexpAttr : option string;
  checkHTTPExtractAttr : option string;
  checkHTTPHeadersAttr : option (gmap string string);
  checkHTTPKeyFileAttr : option string;
  checkHTTPMethodAttr : option string;
  checkHTTPPayloadAttr : option string;
  checkHTTPReadLimitAttr : option Z;
  checkHTTPURLAttr : option string;
  checkHTTPVersionAttr : option string;
  checkHTTPRedirectsAttr : option string
}.

(** [schema.ResourceData] of a check: the resource ID and the attributes,
    read by [ParseConfig] and written by [checkRead]. Sets are kept as lists.
    Of the twenty check-type blocks, [http] is the one whose mappers are part
    of this development. *)
Record ResourceData : Type := {
  Id : string;
  checkActiveAttr : bool;
  checkCollectorAttr : list string;
  checkMetricLimitAttr : Z;
  checkNameAttr : string;
  checkNotesAttr : string;
  checkPeriodAttr : string;
  checkMetricAttr : list metricBlock;
  checkMetricFilterAttr : list metricFilterBlock;
  checkTagsAttr : list string;
  checkTargetAttr : string;
  checkTimeoutAttr : string;
  checkTypeAttr : string;
  checkHTTPAttr : list httpBlock;
  checkOutByCollectorAttr : gmap string string;
  checkOutIDAttr : string;
  checkOutChecksAttr : list string;
  checkOutCreatedAttr : Z;
  checkOutLastModifiedAttr : Z;
  checkOutLastModifiedByAttr : string;
  checkOutReverseConnectURLsAttr : list string;
  checkOutCheckUUIDsAttr : list string
}.

Definition SetId (id : string) (d : ResourceData) : ResourceData :=
  {| Id := id;
     checkActiveAttr := checkActiveAttr d;
     checkCollectorAttr := checkCollectorAttr d;
     checkMetricLimitAttr := checkMetricLimitAttr d;
     checkNameAttr := checkNameAttr d;
     checkNotesAttr := checkNotesAttr d;
     checkPeriodAttr := checkPeriodAttr d;
     checkMetricAttr := checkMetricAttr d;
     checkMetricFilterAttr := checkMetricFilterAttr d;
     checkTagsAttr := checkTagsAttr d;
     checkTargetAttr := checkTargetAttr d;
     checkTimeoutAttr := checkTimeoutAttr d;
     checkTypeAttr := checkTypeAttr d;
     checkHTTPAttr := checkHTTPAttr d;
     checkOutByCollectorAttr := checkOutByCollectorAttr d;
     checkOutIDAttr := checkOutIDAttr d;
     checkOutChecksAttr := checkOutChecksAttr d;
     checkOutCreatedAttr := checkOutCreatedAttr d;
     checkOutLastModifiedAttr := checkOutLastModifiedAttr d;
     checkOutLastModifiedByAttr := checkOutLastModifiedByAttr d;
     checkOutReverseConnectURLsAttr := checkOutReverseConnectURLsAttr d;
     checkOutCheckUUIDsAttr := checkOutCheckUUIDsAttr d |}.

(** *** Status *)

(** An unsupported status is logged as a provider bug and read as inactive. *)
Definition checkAPIStatusToBool (s : string) : bool :=
  if String.eqb s checkStatusActive then true
  else if String.eqb s checkStatusDisabled then false
  else false.

Definition checkActiveToAPIStatus (active : bool) : string :=
  if active then checkStatusActive else checkStatusDisabled.

(** Modelled from the spec: the metric mapper of [metric.go]
    ([ParseConfigMap] and [metricAPIStatusToBool]), which is not among the
    sources; a metric has a name, a type and an active flag. *)
Definition metricActiveToAPIStatus (active : bool) : string :=
  if active then "active" else "available".

Definition metricAPIStatusToBool (s : string) : bool := String.eqb s "active".

Definition ParseConfigMap (m : metricBlock) : CheckBundleMetric :=
  {| MetricName := metricNameAttr m;
     MetricType := metricTypeAttr m;
     MetricStatus := metricActiveToAPIStatus (metricActiveAttr m) |}.

(** *** [Fixup] and [Validate] *)

Definition Fixup (c : CheckBundle) : CheckBundle :=
  if String.eqb (Type_ c) apiCheckTypeCloudWatchAttr then
    if Period c =? 60 then withConfig (<[config.Granularity := "1"]> (Config c)) c
    else if Period c =? 300 then withConfig (<[config.Granularity := "5"]> (Config c)) c
    else c
  else c.

(** [c.Timeout > float32(c.Period)] *)
Definition timeoutExceedsPeriod (c : CheckBundle) : bool :=
  negb (Qle_bool (Timeout c) (Go.float32 (inject_Z (Period c)))).

Definition Validate (c : CheckBundle) : result error unit :=
  if Nat.ltb 0 (length (Metrics c)) && Nat.ltb 0 (length (MetricFilters c))
  then Err ErrMetricsAndMetricFilters
  else if Nat.eqb (length (Metrics c)) 0 && Nat.eqb (length (MetricFilters c)) 0
  then Err ErrNoMetricsNoMetricFilters
  else if timeoutExceedsPeriod c
  then Err (ErrTimeoutExceedsPeriod (Timeout c) (Period c))
  else if String.eqb (Type_ c) apiCheckTypeCloudWatchAttr then
    if negb ((Period c =? 60) || (Period c =? 300)) then Err ErrCloudWatchPeriod
    else Ok tt
  else if String.eqb (Type_ c) apiCheckTypeConsulAttr then
    match Config c !! config.URL with
    | Some v => if String.eqb v "" then Err ErrConsulMode else Ok tt
    | None => Err ErrConsulMode
    end
  else Ok tt.

(** *** Configuration to API: the HTTP check type *)

(** [c.Config[k] = v] when the attribute is found in the block. *)
Definition setFound (k : string) (v : option string) (cfg : gmap string string)
  : gmap string string :=
  match v with
  | Some s => <[k := s]> cfg
  | None => cfg
  end.

(** The text before the first [sep] and, if [sep] occurs, the text after it. *)
Fixpoint cut (sep : ascii) (s : string) : string * option string :=
  match s with
  | EmptyString => (EmptyString, None)
  | String c r =>
      if Ascii.eqb c sep then (EmptyString, Some r)
      else let '(a, b) := cut sep r in (String c a, b)
  end.

(** The text after the last [sep], or all of [s]. *)
Fixpoint afterLast (sep : ascii) (s : string) : string :=
  match s with
  | EmptyString => EmptyString
  | String c r =>
      match cut sep r with
      | (_, None) => if Ascii.eqb c sep then r else s
      | (_, Some _) => afterLast sep r
      end
  end.

(** [url.Parse(s).Host] for an absolute URL
    [scheme://[userinfo@]host[:port][/path][?query][#fragment]], the form
    the schema admits for [url]. The host is the text between the marks: a
    URL that [url.Parse] refuses is not told apart (the code would go on
    with a nil URL), and a percent-escape in the host (the zone of an IPv6
    literal) is not unescaped, so the host has a colon exactly when Go's
    has, while its text can differ. *)
Definition urlHost (s : string) : string :=
  let noFragment := fst (cut "#" s) in
  match cut ":" noFragment with
  | (_, Some rest) =>
      match fst (cut "?" rest) with
      | String "/" (String "/" r) => afterLast "@" (fst (cut "/" r))
      | _ => EmptyString
      end
  | (_, None) => EmptyString
  end.

Definition checkConfigToAPIHTTP (c : CheckBundle) (l : list httpBlock)
  : result error CheckBundle :=
  let c := withType apiCheckTypeHTTP c in
  match l with
  | [] => Err ErrNoHTTPConfig
  | httpConfig :: _ =>
      let cfg := Config c in
      let cfg := setFound config.AuthMethod (checkHTTPAuthMethodAttr httpConfig) cfg in
      let cfg := setFound config.AuthPassword (checkHTTPAuthPasswordAttr httpConfig) cfg in
      let cfg := setFound config.AuthUser (checkHTTPAuthUserAttr httpConfig) cfg in
      let cfg := setFound config.Body (checkHTTPBodyRegexpAttr httpConfig) cfg in
      let cfg := setFound config.CAChain (checkHTTPCAChainAttr httpConfig) cfg in
      let cfg := setFound config.CertFile (checkHTTPCertFileAttr httpConfig) cfg in
      let cfg := setFound config.Ciphers (checkHTTPCiphersAttr httpConfig) cfg in
      let cfg := setFound config.Code (checkHTTPCodeRegexpAttr httpConfig) cfg in
      let cfg := setFound config.Extract (checkHTTPExtractAttr httpConfig) cfg in
      let cfg :=
        map_fold (fun k v acc => <[config.HeaderPrefix ++ k := v]> acc) cfg
                 (default ∅ (checkHTTPHeadersAttr httpConfig)) in
      let cfg := setFound config.KeyFile (checkHTTPKeyFileAttr httpConfig) cfg in
      let cfg := setFound config.Method (checkHTTPMethodAttr httpConfig) cfg in
      let cfg := setFound config.Payload (checkHTTPPayloadAttr httpConfig) cfg in
      let cfg :=
        setFound config.ReadLimit
                 (Go.FormatInt <$> checkHTTPReadLimitAttr httpConfig) cfg in
      let '(cfg, target) :=
        match checkHTTPURLAttr httpConfig with
        | Some v =>
            let cfg := <[config.URL := v]> cfg in
            let hostInfo := cut ":" (urlHost v) in
            let target :=
              if Nat.eqb (String.length (Target c)) 0 then fst hostInfo
              else Target c in
            let cfg :=
              match snd hostInfo with
              | Some port =>
                  if String.eqb (default "" (cfg !! config.Port)) ""
                  then <[config.Port := port]> cfg
                  else cfg
              | None => cfg
              end in
            (cfg, target)
        | None => (cfg, Target c)
        end in
      let cfg := setFound config.HTTPVersion (checkHTTPVersionAttr httpConfig) cfg in
      let cfg := setFound config.Redirects (checkHTTPRedirectsAttr httpConfig) cfg in
      Ok (withConfig cfg (withTarget target c))
  end.

(** [checkConfigToAPI] calls the mapper of each check-type block that is
    present in the configuration. *)
Definition checkConfigToAPI (c : CheckBundle) (d : ResourceData)
  : result error CheckBundle :=
  match GetOkList (checkHTTPAttr d) with
  | Some l =>
      match checkConfigToAPIHTTP c l with
      | Ok c' => Ok c'
      | Err e => Err (ErrWrap "Unable to parse type http" e)
      end
  | None => Ok c
  end.

(** One [metric_filter] block as the API's list of strings. *)
Definition metricFilterToAPI (b : metricFilterBlock) : list string :=
  let m : list string := [] in
  let m := match filterTypeAttr b with Some v => app m [v] | None => m end in
  let m := match filterRegexAttr b with Some v => app m [v] | None => m end in
  let m := match filterTagQueryAttr b with Some v => app m ["tags"; v] | None => m end in
  let m := match filterCommentAttr b with Some v => app m [v] | None => m end in
  m.

(** The [period] attribute: [c.Period = uint(d.Seconds())]. *)
Definition parsePeriod (c : CheckBundle) (d : ResourceData) : result error Z :=
  match GetOkString (checkPeriodAttr d) with
  | Some v =>
      match Go.ParseDuration v with
      | Some dur => Ok (Go.uintOfFloat (Go.Seconds dur))
      | None => Err (ErrParseDuration "period")
      end
  | None => Ok (Period c)
  end.

(** The [timeout] attribute: [c.Timeout = float32(d.Seconds())]. *)
Definition parseTimeout (c : CheckBundle) (d : ResourceData) : result error Q :=
  match GetOkString (checkTimeoutAttr d) with
  | Some v =>
      match Go.ParseDuration v with
      | Some dur => Ok (Go.float32 (Go.Seconds dur))
      | None => Err (ErrParseDuration "timeout")
      end
  | None => Ok (Timeout c)
  end.

(** [ParseConfig] reads the Terraform configuration into the check bundle
    [c]. (Drawing a fresh metric ID, whose only failure is that of the
    random source, is left out: the ID is not part of the bundle.) *)
Definition ParseConfig (c : CheckBundle) (d : ResourceData)
  : result error CheckBundle :=
  let status :=
    match GetOkBool (checkActiveAttr d) with
    | Some v => checkActiveToAPIStatus v
    | None => Status c
    end in
  let brokers := default (Brokers c) (GetOkList (checkCollectorAttr d)) in
  let metricLimit := default (MetricLimit c) (GetOkInt (checkMetricLimitAttr d)) in
  let displayName := default (DisplayName c) (GetOkString (checkNameAttr d)) in
  let notes :=
    match GetOkString (checkNotesAttr d) with
    | Some v => Some v
    | None => Notes c
    end in
  let* period := parsePeriod c d in
  let metrics :=
    match GetOkList (checkMetricAttr d) with
    | Some metricList => map ParseConfigMap metricList
    | None => []
    end in
  let metricFilters :=
    match GetOkList (checkMetricFilterAttr d) with
    | Some metricFilterList => map metricFilterToAPI metricFilterList
    | None => MetricFilters c
    end in
  let tags := default (Tags c) (GetOkList (checkTagsAttr d)) in
  let target := default (Target c) (GetOkString (checkTargetAttr d)) in
  let* timeout := parseTimeout c d in
  let c :=
    {| CID := CID c; Brokers := brokers; Checks := Checks c;
       CheckUUIDs := CheckUUIDs c; Config := Config c; Created := Created c;
       DisplayName := displayName; LastModified := LastModified c;
       LastModifedBy := LastModifedBy c; Metrics := metrics;
       MetricFilters := metricFilters; MetricLimit := metricLimit;
       Notes := notes; Period := period;
       ReverseConnectURLs := ReverseConnectURLs c; Status := status;
       Tags := tags; Target := target; Timeout := timeout;
       Type_ := Type_ c |} in
  let* c :=
    match checkConfigToAPI c d with
    | Ok c' => Ok c'
    | Err e => Err (ErrWrap "unable to parse check type" e)
    end in
  let c := Fixup c in
  let* _ := Validate c in
  Ok c.

(** *** API to state: the HTTP check type *)

Definition headerPrefixLen : nat := String.length config.HeaderPrefix.

(** [k[:headerPrefixLen] == config.HeaderPrefix] *)
Definition hasHeaderPrefix (k : string) : bool :=
  String.eqb (substring 0 headerPrefixLen k) config.HeaderPrefix.

(** [k[headerPrefixLen:]] *)
Definition headerName (k : string) : string :=
  substring headerPrefixLen (String.length k - headerPrefixLen) k.

(** The loop over [c.Config] that collects the headers: keys no longer than
    the prefix are skipped; a longer key is recorded as a header when it
    carries the prefix, and is deleted from the swamp in either case. *)
Definition collectHeaders (cfg swamp : gmap string string)
  : gmap string string * gmap string string :=
  map_fold
    (fun k v (acc : gmap string string * gmap string string) =>
       if Nat.leb (String.length k) headerPrefixLen then acc
       else
         (if hasHeaderPrefix k then <[headerName k := v]> (fst acc) else fst acc,
          delete k (snd acc)))
    (∅, swamp) cfg.

Definition whitelistedConfigKeys : list string :=
  [config.ReverseSecretKey; config.SubmissionURL].

Definition whitelisted (k : string) : bool :=
  existsb (String.eqb k) whitelistedConfigKeys.

(** The closing loop over the swamp: a whitelisted key is deleted from
    [c.Config], any other key ends the function with the provider-bug
    error. *)
Definition drainSwamp (cfg swamp : gmap string string)
  : result error (gmap string string) :=
  map_fold
    (fun k (_ : string) (acc : result error (gmap string string)) =>
       match acc with
       | Err e => Err e
       | Ok cfg' =>
           if whitelisted k then Ok (delete k cfg')
           else Err (ErrProviderBugConfigNotEmpty swamp)
       end)
    (Ok cfg) swamp.

(** [saveIntConfigToState]: a value that is not an integer is logged and
    left in the swamp. *)
Definition saveIntConfigToState (cfg : gmap string string) (apiKey : string)
    (swamp : gmap string string) : option Z * gmap string string :=
  match cfg !! apiKey with
  | Some v =>
      match Go.Atoi v with
      | Some i => (Some i, delete apiKey swamp)
      | None => (None, swamp)
      end
  | None => (None, delete apiKey swamp)
  end.

(** [checkAPIToStateHTTP] reads [c.Config] into the [http] block of the
    state; it returns the bundle too, whose [Config] it may shrink. The
    swamp starts as a copy of [c.Config] and every [save...ConfigToState]
    deletes its key from it. *)
Definition checkAPIToStateHTTP (c : CheckBundle)
  : result error (CheckBundle * httpBlock) :=
  let cfg := Config c in
  let swamp := cfg in
  let swamp := delete config.AuthMethod swamp in
  let swamp := delete config.AuthPassword swamp in
  let swamp := delete config.AuthUser swamp in
  let swamp := delete config.Body swamp in
  let swamp := delete config.CAChain swamp in
  let swamp := delete config.CertFile swamp in
  let swamp := delete config.Ciphers swamp in
  let swamp := delete config.Code swamp in
  let swamp := delete config.Extract swamp in
  let '(headers, swamp) := collectHeaders cfg swamp in
  let swamp := delete config.KeyFile swamp in
  let swamp := delete config.Method swamp in
  let swamp := delete config.Payload swamp in
  let '(readLimit, swamp) := saveIntConfigToState cfg config.ReadLimit swamp in
  let swamp := delete config.URL swamp in
  let swamp := delete config.HTTPVersion swamp in
  let swamp := delete config.Redirects swamp in
  let httpConfig :=
    {| checkHTTPAuthMethodAttr := cfg !! config.AuthMethod;
       checkHTTPAuthPasswordAttr := cfg !! config.AuthPassword;
       checkHTTPAuthUserAttr := cfg !! config.AuthUser;
       checkHTTPBodyRegexpAttr := cfg !! config.Body;
       checkHTTPCAChainAttr := cfg !! config.CAChain;
       checkHTTPCertFileAttr := cfg !! config.CertFile;
       checkHTTPCiphersAttr := cfg !! config.Ciphers;
       checkHTTPCodeRegexpAttr := cfg !! config.Code;
       checkHTTPExtractAttr := cfg !! config.Extract;
       checkHTTPHeadersAttr := Some headers;
       checkHTTPKeyFileAttr := cfg !! config.KeyFile;
       checkHTTPMethodAttr := cfg !! config.Method;
       checkHTTPPayloadAttr := cfg !! config.Payload;
       checkHTTPReadLimitAttr := readLimit;
       checkHTTPURLAttr := cfg !! config.URL;
       checkHTTPVersionAttr := cfg !! config.HTTPVersion;
       checkHTTPRedirectsAttr := cfg !! config.Redirects |} in
  let* cfg' := drainSwamp cfg swamp in
  Ok (withConfig cfg' c, httpConfig).

(** The swamp as [checkAPIToStateHTTP] finds it before its closing loop. *)
Definition swampHTTP (cfg : gmap string string) : gmap string string :=
  let swamp := cfg in
  let swamp := delete config.AuthMethod swamp in
  let swamp := delete config.AuthPassword swamp in
  let swamp := delete config.AuthUser swamp in
  let swamp := delete config.Body swamp in
  let swamp := delete config.CAChain swamp in
  let swamp := delete config.CertFile swamp in
  let swamp := delete config.Ciphers swamp in
  let swamp := delete config.Code swamp in
  let swamp := delete config.Extract swamp in
  let '(_, swamp) := collectHeaders cfg swamp in
  let swamp := delete config.KeyFile swamp in
  let swamp := delete config.Method swamp in
  let swamp := delete config.Payload swamp in
  let '(_, swamp) := saveIntConfigToState cfg config.ReadLimit swamp in
  let swamp := delete config.URL swamp in
  let swamp := delete config.HTTPVersion swamp in
  let swamp := delete config.Redirects swamp in
  swamp.

(** *** API to state: the check *)

Definition setHTTP (h : list httpBlock) (d : ResourceData) : ResourceData :=
  {| Id := Id d;
     checkActiveAttr := checkActiveAttr d;
     checkCollectorAttr := checkCollectorAttr d;
     checkMetricLimitAttr := checkMetricLimitAttr d;
     checkNameAttr := checkNameAttr d;
     checkNotesAttr := checkNotesAttr d;
     checkPeriodAttr := checkPeriodAttr d;
     checkMetricAttr := checkMetricAttr d;
     checkMetricFilterAttr := checkMetricFilterAttr d;
     checkTagsAttr := checkTagsAttr d;
     checkTargetAttr := checkTargetAttr d;
     checkTimeoutAttr := checkTimeoutAttr d;
     checkTypeAttr := checkTypeAttr d;
     checkHTTPAttr := h;
     checkOutByCollectorAttr := checkOutByCollectorAttr d;
     checkOutIDAttr := checkOutIDAttr d;
     checkOutChecksAttr := checkOutChecksAttr d;
     checkOutCreatedAttr := checkOutCreatedAttr d;
     checkOutLastModifiedAttr := checkOutLastModifiedAttr d;
     checkOutLastModifiedByAttr := checkOutLastModifiedByAttr d;
     checkOutReverseConnectURLsAttr := checkOutReverseConnectURLsAttr d;
     checkOutCheckUUIDsAttr := checkOutCheckUUIDsAttr d |}.

(** [parseCheckTypeConfig] looks the bundle's type up in the table of
    handlers and runs the handler. *)
Definition parseCheckTypeConfig (c : CheckBundle) (d : ResourceData)
  : result error (CheckBundle * ResourceData) :=
  if String.eqb (Type_ c) apiCheckTypeHTTP then
    match checkAPIToStateHTTP c with
    | Ok (c', httpConfig) => Ok (c', setHTTP [httpConfig] d)
    | Err e => Err (ErrWrap "unable to parse the API config for http" e)
    end
  else if existsb (String.eqb (Type_ c)) apiCheckTypes
  then Err (ErrHandlerElsewhere (Type_ c))
  else Err (ErrCheckTypeNotSupported (Type_ c)).

(** [checkIDsByCollector[b] = c.Checks[i]] for the [i]-th broker [b]. For a
    broker that is listed twice this keeps the first check, where the loop
    of the code keeps the last: [CheckExt.checkIDsByCollectorLoop] is the
    loop as written, and the two agree when no broker is repeated. *)
Fixpoint checkIDsByCollector (brokers checks : list string)
  : result error (gmap string string) :=
  match brokers, checks with
  | [], _ => Ok ∅
  | b :: brokers', chk :: checks' =>
      let* m := checkIDsByCollector brokers' checks' in
      Ok (<[b := chk]> m)
  | _ :: _, [] => Err ErrIndexOutOfRange
  end.

(** One API metric filter as a [metric_filter] block: [m[0]], [m[1]], and
    either [m[2]] = "tags", [m[3]], [m[4]] or the comment [m[2]]. *)
Definition metricFilterToState (m : list string) : result error metricFilterBlock :=
  match m with
  | t :: re :: m2 :: rest =>
      if String.eqb m2 "tags" then
        match rest with
        | m3 :: m4 :: _ =>
            Ok {| filterTypeAttr := Some t; filterRegexAttr := Some re;
                  filterTagQueryAttr := Some m3; filterCommentAttr := Some m4 |}
        | _ => Err ErrIndexOutOfRange
        end
      else
        Ok {| filterTypeAttr := Some t; filterRegexAttr := Some re;
              filterTagQueryAttr := Some ""; filterCommentAttr := Some m2 |}
  | _ => Err ErrIndexOutOfRange
  end.

Fixpoint mapM {A B} (f : A -> result error B) (l : list A) : result error (list B) :=
  match l with
  | [] => Ok []
  | x :: l' =>
      let* y := f x in
      let* ys := mapM f l' in
      Ok (y :: ys)
  end.

Definition metricToState (m : CheckBundleMetric) : metricBlock :=
  {| metricActiveAttr := metricAPIStatusToBool (MetricStatus m);
     metricNameAttr := MetricName m;
     metricTypeAttr := MetricType m |}.

(** The body of [checkRead] once the bundle [c] is loaded and found: the
    global attributes, the check-type block, the out parameters. *)
Definition checkAPIToState (c : CheckBundle) (d : ResourceData)
  : result error ResourceData :=
  let* byCollector := checkIDsByCollector (Brokers c) (Checks c) in
  let checkID :=
    match Checks c with
    | [chk] => chk
    | _ => ""
    end in
  let metrics := map metricToState (Metrics c) in
  let* metricFilters := mapM metricFilterToState (MetricFilters c) in
  let* timeout :=
    match Go.ParseDuration (Go.FormatFloat6 (Timeout c) ++ "s") with
    | Some t => Ok (Go.DurationString t)
    | None => Err (ErrParseDuration "timeout")
    end in
  let d :=
    {| Id := Id d;
       checkActiveAttr := checkAPIStatusToBool (Status c);
       checkCollectorAttr := Brokers c;
       checkMetricLimitAttr := MetricLimit c;
       checkNameAttr := DisplayName c;
       checkNotesAttr := default "" (Notes c);
       checkPeriodAttr := Go.FormatInt (Period c) ++ "s";
       checkMetricAttr := metrics;
       checkMetricFilterAttr := metricFilters;
       checkTagsAttr := Tags c;
       checkTargetAttr := Target c;
       checkTimeoutAttr := timeout;
       checkTypeAttr := Type_ c;
       checkHTTPAttr := checkHTTPAttr d;
       checkOutByCollectorAttr := checkOutByCollectorAttr d;
       checkOutIDAttr := checkOutIDAttr d;
       checkOutChecksAttr := checkOutChecksAttr d;
       checkOutCreatedAttr := checkOutCreatedAttr d;
       checkOutLastModifiedAttr := checkOutLastModifiedAttr d;
       checkOutLastModifiedByAttr := checkOutLastModifiedByAttr d;
       checkOutReverseConnectURLsAttr := checkOutReverseConnectURLsAttr d;
       checkOutCheckUUIDsAttr := checkOutCheckUUIDsAttr d |} in
  let* cd := parseCheckTypeConfig c d in
  let '(c, d) := cd in
  Ok {| Id := Id d;
        checkActiveAttr := checkActiveAttr d;
        checkCollectorAttr := checkCollectorAttr d;
        checkMetricLimitAttr := checkMetricLimitAttr d;
        checkNameAttr := checkNameAttr d;
        checkNotesAttr := checkNotesAttr d;
        checkPeriodAttr := checkPeriodAttr d;
        checkMetricAttr := checkMetricAttr d;
        checkMetricFilterAttr := checkMetricFilterAttr d;
        checkTagsAttr := checkTagsAttr d;
        checkTargetAttr := checkTargetAttr d;
        checkTimeoutAttr := checkTimeoutAttr d;
        checkTypeAttr := checkTypeAttr d;
        checkHTTPAttr := checkHTTPAttr d;
        checkOutByCollectorAttr := byCollector;
        checkOutIDAttr :=
          if String.eqb checkID "" then checkOutIDAttr d else checkID;
        checkOutChecksAttr := Checks c;
        checkOutCreatedAttr := Created c;
        checkOutLastModifiedAttr := LastModified c;
        checkOutLastModifiedByAttr := LastModifedBy c;
        checkOutReverseConnectURLsAttr := ReverseConnectURLs c;
        checkOutCheckUUIDsAttr := CheckUUIDs c |}.

(** *** CRUD glue *)

(** The vendor client, as far as these functions call it; its errors are
    opaque messages. *)
Record Client : Type := {
  FetchCheckBundle : string -> result string CheckBundle;
  Delete : string -> result string bool
}.

Definition loadCheck (ctxt : Client) (cid : string) : result error CheckBundle :=
  match FetchCheckBundle ctxt cid with
  | Ok cb => Ok cb
  | Err msg => Err (ErrAPI msg)
  end.

(** [checkRead]: a bundle without CID is reported as gone (the ID is cleared
    and a warning returned), any other bundle is written to the state. *)
Definition checkRead (ctxt : Client) (d : ResourceData)
  : result error (ResourceData * list Diagnostic) :=
  let cid := Id d in
  let* c := loadCheck ctxt cid in
  if String.eqb (CID c) "" then
    Ok (SetId "" d, [Warning "Check Bundle does not exist" cid])
  else
    let* d' := checkAPIToState c (SetId (CID c) d) in
    Ok (d', []).

(** [checkDelete] returns the resource data as it leaves them and the
    error, if any. *)
Definition checkDelete (ctxt : Client) (d : ResourceData)
  : ResourceData * option error :=
  match Delete ctxt (Id d) with
  | Err msg => (d, Some (ErrAPI msg))
  | Ok _ => (SetId "" d, None)
  end.

End Check.


(** ** Graphs: [circonus/resource_circonus_graph.go]

    The datapoints ([metric] blocks) and the metric clusters of a graph; the
    axis maps, title, notes, style, tags and guides are copied field by field
    by either mapper, raise no error, and are left out. *)

Module Graph.

Module config.
  (** The vendor client's [config.CheckPrefix]. *)
Definition CheckPrefix : string := "/check".
End config.

(** [regexp.MustCompile(config.CheckCIDRegex).FindStringSubmatch(v)]: the
    vendor's pattern is an optional [/check/] followed by digits, in two
    groups; the result is the second group when the three-element match
    exists. *)
Definition matchCheckCID (v : string) : option string :=
  let digits :=
    match Go.stripPrefix (config.CheckPrefix ++ "/") v with
    | Some r => r
    | None => v
    end in
  match digits with
  | EmptyString => None
  | _ => if Go.allDigits digits then Some digits else None
  end.

(** [datapoint.Derive] is an [interface{}]: unset, a [bool], a [string], or
    whatever else the API's JSON carried. *)
Inductive Derive : Type :=
| DeriveNil
| DeriveBool (b : bool)
| DeriveString (s : string)
| DeriveOther.

Record GraphDatapoint : Type := {
  Alpha : option string;
  Axis : string;
  CAQL : option string;
  Search : option string;
  CheckID : Z;
  Color : option string;
  DataFormula : option string;
  Derive_ : Derive;
  Hidden : bool;
  LegendFormula : option string;
  MetricName : string;
  MetricType : string;
  Name : string;
  Stack : option Z
}.

Record GraphMetricCluster : Type := {
  ClusterAggregateFunc : string;
  ClusterAxis : string;
  ClusterColor : option string;
  ClusterDataFormula : option string;
  ClusterHidden : bool;
  ClusterLegendFormula : option string;
  ClusterMetricCluster : string;
  ClusterName : string;
  ClusterStack : option Z
}.

Record Graph : Type := {
  CID : string;
  Datapoints : list GraphDatapoint;
  MetricClusters : list GraphMetricCluster
}.

Definition newGraph : Graph :=
  {| CID := ""; Datapoints := []; MetricClusters := [] |}.

(** A [metric] block, a [map[string]interface{}]: one [option] per key. *)
Record metricBlock : Type := {
  graphMetricActiveAttr : option bool;
  graphMetricAlphaAttr : option string;
  graphMetricAxisAttr : option string;
  graphMetricCAQLAttr : option string;
  graphMetricSearchAttr : option string;
  graphMetricCheckAttr : option string;
  graphMetricColorAttr : option string;
  graphMetricFormulaAttr : option string;
  graphMetricFormulaLegendAttr : option string;
  graphMetricFunctionAttr : option string;
  graphMetricHumanNameAttr : option string;
  graphMetricMetricTypeAttr : option string;
  graphMetricNameAttr : option string;
  graphMetricStackAttr : option string
}.

Record metricClusterBlock : Type := {
  graphMetricClusterActiveAttr : option bool;
  graphMetricClusterAggregateAttr : option string;
  graphMetricClusterAxisAttr : option string;
  graphMetricClusterColorAttr : option string;
  graphMetricClusterFormulaAttr : option string;
  graphMetricClusterFormulaLegendAttr : option string;
  graphMetricClusterQueryAttr : option string;
  graphMetricClusterHumanNameAttr : option string;
  graphMetricClusterStackAttr : option string
}.

Record ResourceData : Type := {
  Id : string;
  graphMetricAttr : list metricBlock;
  graphMetricClusterAttr : list metricClusterBlock
}.

Definition SetId (id : string) (d : ResourceData) : ResourceData :=
  {| Id := id;
     graphMetricAttr := graphMetricAttr d;
     graphMetricClusterAttr := graphMetricClusterAttr d |}.

Inductive error : Type :=
| ErrUnsupportedAxisAttribute (attr value : string)
    (* PROVIDER BUG: Unsupported axis attribute %q: %q *)
| ErrLocatorRequires (metricIdx : nat) (name given needs : string)
    (* metric[%d] name=%q: locator using %q requires %q *)
| ErrMetricLocator (metricIdx : nat) (name : string)
    (check : Z) (metricName caql search : string)
    (* metric[%d] name=%q: locator issue - check + metric_name OR caql OR search *)
| ErrMissingAttribute (i : nat) (name set missing : string)
    (* Error with metric[%d] name=%q: %s is set, missing attribute %s must also be set *)
| ErrFunctionWithText (i : nat) (name : string)
    (* attribute function is mutually exclusive when metric_type=text *)
| ErrClusterColorRequired (i : nat) (name : string)
    (* color is a required attribute for graphs with aggregate set *)
| ErrUnsupportedAxisType (axis : string)
    (* PROVIDER BUG: Unsupported axis type %q *)
| ErrUnsupportedDeriveType
    (* PROVIDER BUG: Unsupported type for derive: %T *)
| ErrUnableToStore (attr : string)
    (* Unable to store graph %q attribute: %w *)
| ErrAPI (context msg : string).

(** *** The axis of a datapoint or of a metric cluster *)

(** The [switch v.(string)] of [ParseConfig]: state to API. *)
Definition axisToAPI (attr v : string) : result error string :=
  if String.eqb v "left" || String.eqb v "" then Ok "l"
  else if String.eqb v "right" then Ok "r"
  else Err (ErrUnsupportedAxisAttribute attr v).

(** The [switch datapoint.Axis] of [graphRead]: API to state. *)
Definition axisToState (axis : string) : result error string :=
  if String.eqb axis "l" || String.eqb axis "" then Ok "left"
  else if String.eqb axis "r" then Ok "right"
  else Err (ErrUnsupportedAxisType axis).

(** [s] when it is not empty. *)
Definition nonEmpty (s : string) : option string :=
  if String.eqb s "" then None else Some s.

(** [strings.TrimSpace(v)] of an attribute that is found, the empty string
    otherwise. *)
Definition trimmed (v : option string) : string :=
  match v with
  | Some s => Go.TrimSpace s
  | None => ""
  end.

(** *** Configuration to API *)

(** The metric locator of a block: check ID and metric name, CAQL query,
    search expression, each empty ([0], [""]) when not supplied. *)
Definition locatorCheck (m : metricBlock) : Z :=
  match graphMetricCheckAttr m with
  | Some v =>
      match matchCheckCID v with
      | Some digits => Go.uint (fst (Go.ParseUint digits))
      | None => 0
      end
  | None => 0
  end.

Definition locatorName (m : metricBlock) : string := trimmed (graphMetricNameAttr m).
Definition locatorCAQL (m : metricBlock) : string := trimmed (graphMetricCAQLAttr m).
Definition locatorSearch (m : metricBlock) : string := trimmed (graphMetricSearchAttr m).

(** The body of the loop of [ParseConfig] over the [metric] blocks. *)
Definition parseDatapoint (metricIdx : nat) (metricAttrs : metricBlock)
  : result error GraphDatapoint :=
  let hidden :=
    match graphMetricActiveAttr metricAttrs with
    | Some v => negb v
    | None => false
    end in
  let alpha :=
    match graphMetricAlphaAttr metricAttrs with
    | Some f => if String.eqb f "" then Some "0" else Some f
    | None => Some "0"
    end in
  let* axis :=
    match graphMetricAxisAttr metricAttrs with
    | Some v => axisToAPI "axis" v
    | None => Ok ""
    end in
  let color := graphMetricColorAttr metricAttrs in
  let dataFormula := nonEmpty (default "" (graphMetricFormulaAttr metricAttrs)) in
  let derive :=
    match nonEmpty (default "" (graphMetricFunctionAttr metricAttrs)) with
    | Some s => DeriveString s
    | None => DeriveBool false
    end in
  let legendFormula :=
    nonEmpty (default "" (graphMetricFormulaLegendAttr metricAttrs)) in
  let metricType := default "" (graphMetricMetricTypeAttr metricAttrs) in
  let humanName :=
    match graphMetricHumanNameAttr metricAttrs with
    | Some s => if String.eqb s "" then "" else Go.TrimSpace s
    | None => ""
    end in
  let stack :=
    match nonEmpty (default "" (graphMetricStackAttr metricAttrs)) with
    | Some s => Some (Go.uint (fst (Go.ParseUint s)))
    | None => None
    end in
  let name := locatorName metricAttrs in
  let check := locatorCheck metricAttrs in
  let caql := locatorCAQL metricAttrs in
  let search := locatorSearch metricAttrs in
  let metricLocatorError :=
    ErrMetricLocator metricIdx humanName check name caql search in
  let datapoint (checkID : Z) (metricName : string) (q e : option string) :=
    {| Alpha := alpha; Axis := axis; CAQL := q; Search := e;
       CheckID := checkID; Color := color; DataFormula := dataFormula;
       Derive_ := derive; Hidden := hidden; LegendFormula := legendFormula;
       MetricName := metricName; MetricType := metricType;
       Name := humanName; Stack := stack |} in
  let isSet (x : string) := negb (String.eqb x "") in
  if (check =? 0) && isSet name then
    Err (ErrLocatorRequires metricIdx humanName "metric_name" "check")
  else if (0 <? check) && negb (isSet name) then
    Err (ErrLocatorRequires metricIdx humanName "check" "metric_name")
  else if (0 <? check) && (isSet caql || isSet search) then
    Err metricLocatorError
  else if isSet caql && (negb (check =? 0) || isSet name || isSet search) then
    Err metricLocatorError
  else if isSet search && (negb (check =? 0) || isSet name || isSet caql) then
    Err metricLocatorError
  else if 0 <? check then Ok (datapoint check name None None)
  else if isSet caql then Ok (datapoint 0 "" (Some caql) None)
  else if isSet search then Ok (datapoint 0 "" None (Some search))
  else Ok (datapoint 0 "" None None).

(** The body of the loop over the [metric_cluster] blocks. *)
Definition parseMetricCluster (metricClusterAttrs : metricClusterBlock)
  : result error GraphMetricCluster :=
  let* axis :=
    match graphMetricClusterAxisAttr metricClusterAttrs with
    | Some v => axisToAPI "axis" v
    | None => Ok ""
    end in
  Ok {| ClusterAggregateFunc :=
          default "" (graphMetricClusterAggregateAttr metricClusterAttrs);
        ClusterAxis := axis;
        ClusterColor :=
          nonEmpty (default "" (graphMetricClusterColorAttr metricClusterAttrs));
        ClusterDataFormula := graphMetricClusterFormulaAttr metricClusterAttrs;
        ClusterHidden :=
          match graphMetricClusterActiveAttr metricClusterAttrs with
          | Some v => negb v
          | None => false
          end;
        ClusterLegendFormula :=
          graphMetricClusterFormulaLegendAttr metricClusterAttrs;
        ClusterMetricCluster :=
          default "" (graphMetricClusterQueryAttr metricClusterAttrs);
        ClusterName :=
          default "" (graphMetricClusterHumanNameAttr metricClusterAttrs);
        ClusterStack :=
          match nonEmpty (default "" (graphMetricClusterStackAttr metricClusterAttrs)) with
          | Some s => Some (Go.uint (fst (Go.ParseUint s)))
          | None => None
          end |}.

(** The loop over the [metric] blocks, from index [metricIdx] on. *)
Fixpoint parseDatapoints (metricIdx : nat) (metricList : list metricBlock)
  : result error (list GraphDatapoint) :=
  match metricList with
  | [] => Ok []
  | metricAttrs :: rest =>
      let* datapoint := parseDatapoint metricIdx metricAttrs in
      let* datapoints := parseDatapoints (S metricIdx) rest in
      Ok (datapoint :: datapoints)
  end.

Fixpoint parseMetricClusters (l : list metricClusterBlock)
  : result error (list GraphMetricCluster) :=
  match l with
  | [] => Ok []
  | metricClusterAttrs :: rest =>
      let* metricCluster := parseMetricCluster metricClusterAttrs in
      let* metricClusters := parseMetricClusters rest in
      Ok (metricCluster :: metricClusters)
  end.

(** *** [Validate] *)

Definition validateDatapoint (i : nat) (datapoint : GraphDatapoint)
  : result error unit :=
  if negb (CheckID datapoint =? 0) && String.eqb (MetricName datapoint) "" then
    Err (ErrMissingAttribute i (Name datapoint) "check" "metric_name")
  else if (CheckID datapoint =? 0) && negb (String.eqb (MetricName datapoint) "") then
    Err (ErrMissingAttribute i (Name datapoint) "metric_name" "check")
  else if String.eqb (MetricType datapoint) "text" then
    match Derive_ datapoint with
    | DeriveNil | DeriveBool _ => Ok tt
    | _ => Err (ErrFunctionWithText i (Name datapoint))
    end
  else Ok tt.

Definition validateMetricCluster (i : nat) (mc : GraphMetricCluster)
  : result error unit :=
  if negb (String.eqb (ClusterAggregateFunc mc) "")
     && String.eqb (default "" (ClusterColor mc)) ""
  then Err (ErrClusterColorRequired i (ClusterName mc))
  else Ok tt.

(** [for i, x := range l { if err := check(i, x); err != nil { return err } }] *)
Fixpoint forEach {A} (check : nat -> A -> result error unit) (i : nat) (l : list A)
  : result error unit :=
  match l with
  | [] => Ok tt
  | x :: rest =>
      let* _ := check i x in
      forEach check (S i) rest
  end.

Definition Validate (g : Graph) : result error unit :=
  let* _ := forEach validateDatapoint 0 (Datapoints g) in
  forEach validateMetricCluster 0 (MetricClusters g).

Definition ParseConfig (g : Graph) (d : ResourceData) : result error Graph :=
  let* datapoints :=
    match GetOkList (graphMetricAttr d) with
    | Some metricList => parseDatapoints 0 metricList
    | None => Ok []
    end in
  let* metricClusters :=
    match GetOkList (graphMetricClusterAttr d) with
    | Some metricClusterList =>
        let* l := parseMetricClusters metricClusterList in
        Ok (app (MetricClusters g) l)
    | None => Ok (MetricClusters g)
    end in
  let g :=
    {| CID := CID g; Datapoints := datapoints; MetricClusters := metricClusters |} in
  let* _ := Validate g in
  Ok g.

(** *** API to state *)

Definition datapointToState (datapoint : GraphDatapoint)
  : result error metricBlock :=
  let alpha :=
    match Alpha datapoint with
    | Some a => if String.eqb a "0" then None else Some a
    | None => None
    end in
  let* axis := axisToState (Axis datapoint) in
  let* function :=
    match Derive_ datapoint with
    | DeriveBool _ => Ok None
    | DeriveString u => Ok (Some u)
    | _ => Err ErrUnsupportedDeriveType
    end in
  Ok {| graphMetricActiveAttr := Some (negb (Hidden datapoint));
        graphMetricAlphaAttr := alpha;
        graphMetricAxisAttr := Some axis;
        graphMetricCAQLAttr :=
          match CAQL datapoint with Some q => nonEmpty q | None => None end;
        graphMetricSearchAttr :=
          match Search datapoint with Some e => nonEmpty e | None => None end;
        graphMetricCheckAttr :=
          if CheckID datapoint =? 0 then None
          else Some (config.CheckPrefix ++ "/" ++ Go.FormatInt (CheckID datapoint));
        graphMetricColorAttr := Color datapoint;
        graphMetricFormulaAttr := DataFormula datapoint;
        graphMetricFormulaLegendAttr := LegendFormula datapoint;
        graphMetricFunctionAttr := function;
        graphMetricHumanNameAttr := nonEmpty (Name datapoint);
        graphMetricMetricTypeAttr := nonEmpty (MetricType datapoint);
        graphMetricNameAttr := nonEmpty (MetricName datapoint);
        graphMetricStackAttr := Go.FormatInt <$> Stack datapoint |}.

Definition metricClusterToState (metricCluster : GraphMetricCluster)
  : result error metricClusterBlock :=
  let* axis := axisToState (ClusterAxis metricCluster) in
  Ok {| graphMetricClusterActiveAttr := Some (negb (ClusterHidden metricCluster));
        graphMetricClusterAggregateAttr :=
          nonEmpty (ClusterAggregateFunc metricCluster);
        graphMetricClusterAxisAttr := Some axis;
        graphMetricClusterColorAttr := ClusterColor metricCluster;
        graphMetricClusterFormulaAttr := ClusterDataFormula metricCluster;
        graphMetricClusterFormulaLegendAttr := ClusterLegendFormula metricCluster;
        graphMetricClusterQueryAttr :=
          nonEmpty (ClusterMetricCluster metricCluster);
        graphMetricClusterHumanNameAttr := nonEmpty (ClusterName metricCluster);
        graphMetricClusterStackAttr := Go.FormatInt <$> ClusterStack metricCluster |}.

Fixpoint mapM {A B} (f : A -> result error B) (l : list A) : result error (list B) :=
  match l with
  | [] => Ok []
  | x :: l' =>
      let* y := f x in
      let* ys := mapM f l' in
      Ok (y :: ys)
  end.

(** *** CRUD glue *)

Record Client : Type := {
  FetchGraph : string -> result string Graph;
  DeleteGraphByCID : string -> result string bool
}.

Definition loadGraph (ctxt : Client) (cid : string) : result error Graph :=
  match FetchGraph ctxt cid with
  | Ok ng => Ok ng
  | Err msg => Err (ErrAPI "" msg)
  end.

(** [d.Set] of a list of blocks refuses a block with a key that the schema
    of the block does not declare. The schema of [metric] declares every
    key the datapoint loop writes; the schema of [metric_cluster] declares
    [active], [aggregate], [axis], [color], [query] and [name], and the
    metric cluster loop also writes [formula], [legend_formula] and
    [stack]. *)
Definition metricClusterInSchema (b : metricClusterBlock) : bool :=
  match graphMetricClusterFormulaAttr b, graphMetricClusterFormulaLegendAttr b,
        graphMetricClusterStackAttr b with
  | None, None, None => true
  | _, _, _ => false
  end.

(** [graphRead]: the datapoints first, then the metric clusters, then the
    writes to the state, of which the one of the metric clusters can fail.
    The result is the error returned or the resource data written. *)
Definition graphRead (ctxt : Client) (d : ResourceData) : result error ResourceData :=
  let* g := loadGraph ctxt (Id d) in
  let* metrics := mapM datapointToState (Datapoints g) in
  let* metricClusters := mapM metricClusterToState (MetricClusters g) in
  if forallb metricClusterInSchema metricClusters then
    Ok {| Id := CID g;
          graphMetricAttr := metrics;
          graphMetricClusterAttr := metricClusters |}
  else Err (ErrUnableToStore "metric_cluster").

(** [graphDelete] returns the resource data as it leaves them and the
    error, if any. *)
Definition graphDelete (ctxt : Client) (d : ResourceData)
  : ResourceData * option error :=
  match DeleteGraphByCID ctxt (Id d) with
  | Err msg => (d, Some (ErrAPI "unable to delete graph" msg))
  | Ok _ => (SetId "" d, None)
  end.

End Graph.


(** ** Rule sets: the [circonus_rule_set] resource *)

Module RuleSet.

Module config.
  (** The vendor client's [config.NumSeverityLevels]. *)
Definition NumSeverityLevels : Z := 5.
End config.

(** Criteria of an [api.RuleSetRule]. *)
Definition apiRuleSetAbsent : string := "on absence".
Definition apiRuleSetChanged : string := "on change".
Definition apiRuleSetContains : string := "contains".
Definition apiRuleSetMatch : string := "match".
Definition apiRuleSetMaxValue : string := "max value".
Definition apiRuleSetMinValue : string := "min value".
Definition apiRuleSetNotContains : string := "does not contain".
Definition apiRuleSetNotMatch : string := "does not match".
Definition apiRuleSetEqValue : string := "equals".
Definition apiRuleSetNotEqValue : string := "does not equal".

Definition ruleSetMetricTypeNumeric : string := "numeric".
Definition ruleSetMetricTypeText : string := "text".

(** [rule.Value] is an [interface{}]: unset, a [string], or a [float64]. *)
Inductive RuleValue : Type :=
| ValueNil
| ValueString (s : string)
| ValueFloat (f : Q).

(** [api.RuleSetRule]; [Severity], [Wait] and the windowing durations are
    [uint]s, [WindowingFunction] is a [*string]. *)
Record RuleSetRule : Type := {
  Criteria : string;
  Severity : Z;
  Value : RuleValue;
  Wait : Z;
  WindowingDuration : Z;
  WindowingFunction : option string;
  WindowingMinDuration : Z
}.

(** [api.RuleSet]; [ContactGroups] is a [map[uint8][]string]. *)
Record RuleSet : Type := {
  CID : string;
  CheckCID : string;
  ContactGroups : gmap Z (list string);
  Filter : string;
  Link : option string;
  MetricName : string;
  MetricPattern : string;
  MetricType : string;
  Name : string;
  Notes : option string;
  Parent : option string;
  Rules : list RuleSetRule;
  UserJSON : string
}.

(** [newRuleSet]: an empty list of contact groups for each severity level
    and no rules. *)
Definition newRuleSet : RuleSet :=
  {| CID := ""; CheckCID := "";
     ContactGroups :=
       list_to_map (map (fun i => (i, [])) (seqZ 1 config.NumSeverityLevels));
     Filter := ""; Link := None; MetricName := ""; MetricPattern := "";
     MetricType := ""; Name := ""; Notes := None; Parent := None;
     Rules := []; UserJSON := "" |}.

(** *** Attributes; a block read with map look-ups has an [option] per key *)

Record thenBlock : Type := {
  ruleSetAfterAttr : option string;
  ruleSetNotifyAttr : option (list string);
  ruleSetSeverityAttr : option Z
}.

Record overBlock : Type := {
  ruleSetLastAttr : option string;
  ruleSetAtLeastAttr : option string;
  ruleSetUsingAttr : option string
}.

Record valueBlock : Type := {
  ruleSetAbsentAttr : option string;
  ruleSetChangedAttr : option string;
  ruleSetContainsAttr : option string;
  ruleSetMatchAttr : option string;
  ruleSetNotMatchAttr : option string;
  ruleSetMinValueAttr : option string;
  ruleSetNotContainAttr : option string;
  ruleSetMaxValueAttr : option string;
  ruleSetEqValueAttr : option string;
  ruleSetNotEqValueAttr : option string;
  ruleSetOverAttr : option (list overBlock)
}.

Record ifBlock : Type := {
  ruleSetThenAttr : option (list thenBlock);
  ruleSetValueAttr : option (list valueBlock)
}.

Record ResourceData : Type := {
  Id : string;
  ruleSetCheckAttr : string;
  ruleSetNameAttr : string;
  ruleSetIfAttr : list ifBlock;
  ruleSetLinkAttr : string;
  ruleSetMetricTypeAttr : string;
  ruleSetNotesAttr : string;
  ruleSetUserJSONAttr : string;
  ruleSetParentAttr : string;
  ruleSetMetricNameAttr : string;
  ruleSetMetricPatternAttr : string;
  ruleSetMetricFilterAttr : string
}.

Inductive error : Type :=
| ErrParseAfter (v : string)
    (* unable to parse "after" duration %q *)
| ErrParseLast (v : string)
    (* unable to parse "last" duration %q *)
| ErrParseAtLeast (v : string)
    (* unable to parse "atleast" duration %q *)
| ErrUnsupportedMetricType (t : string)
    (* PROVIDER BUG: unsupported rule set metric type: %q *)
| ErrIndexOutOfRange
    (* run-time panic: index out of range *)
| ErrBothNameAndPattern (checkCID : string)
    (* RuleSet for check ID %s has both metric_name and metric_pattern *)
| ErrNeitherNameNorPattern (checkCID : string)
    (* RuleSet for check ID %s must supply either metric_name or metric_pattern *)
| ErrEmptyCriteria (i : nat) (checkCID : string)
    (* rule %d for check ID %s has an empty criteria *)
| ErrWindowMinDuration (i : nat) (checkCID : string)
    (* rule %d ... cannot have a window_min_duration (atleast) greater than the
       window duration (last) *)
| ErrTextCriteria (i : nat) (checkCID criteria : string)
    (* rule %d ... is using a textual criteria '%s' but is flagged as a numeric type *)
| ErrNumericCriteria (i : nat) (checkCID criteria : string).
    (* rule %d ... is using a numeric criteria '%s' but is flagged as a text type *)

(** *** [Validate] *)

Definition stringInSlice (a : string) (l : list string) : bool :=
  existsb (fun b => String.eqb b a) l.

Definition validateRule (rs : RuleSet) (i : nat) (rule : RuleSetRule)
  : result error unit :=
  if String.eqb (Criteria rule) "" then
    Err (ErrEmptyCriteria i (CheckCID rs))
  else if WindowingDuration rule <? WindowingMinDuration rule then
    Err (ErrWindowMinDuration i (CheckCID rs))
  else if stringInSlice (Criteria rule)
            [apiRuleSetMatch; apiRuleSetNotMatch; apiRuleSetContains;
             apiRuleSetNotContains]
          && negb (String.eqb (MetricType rs) "text") then
    Err (ErrTextCriteria i (CheckCID rs) (Criteria rule))
  else if stringInSlice (Criteria rule)
            [apiRuleSetMaxValue; apiRuleSetMinValue; apiRuleSetEqValue;
             apiRuleSetNotEqValue]
          && negb (String.eqb (MetricType rs) "numeric") then
    Err (ErrNumericCriteria i (CheckCID rs) (Criteria rule))
  else Ok tt.

(** The loop of [Validate] over the rules, from index [i] on. *)
Fixpoint validateRules (rs : RuleSet) (i : nat) (rules : list RuleSetRule)
  : result error unit :=
  match rules with
  | [] => Ok tt
  | rule :: rest =>
      let* _ := validateRule rs i rule in
      validateRules rs (S i) rest
  end.

Definition Validate (rs : RuleSet) : result error unit :=
  if Nat.ltb 0 (String.length (MetricName rs))
     && Nat.ltb 0 (String.length (MetricPattern rs)) then
    Err (ErrBothNameAndPattern (CheckCID rs))
  else if Nat.eqb (String.length (MetricName rs)) 0
          && Nat.eqb (String.length (MetricPattern rs)) 0 then
    Err (ErrNeitherNameNorPattern (CheckCID rs))
  else validateRules rs 0 (Rules rs).

(** *** Configuration to API *)

(** [v, found := m[key]; found && v != ""] *)
Definition foundNonEmpty (v : option string) : option string :=
  match v with
  | Some s => if String.eqb s "" then None else Some s
  | None => None
  end.

(** [rule.Wait] for an [after] attribute: the text is read as a number of
    seconds and converted to whole minutes, [uint(d.Minutes())]; an empty
    text leaves the rule's wait as it is. *)
Definition parseAfter (wait : Z) (v : string) : result error Z :=
  if String.eqb v "" then Ok wait
  else
    match Go.ParseDuration (v ++ "s") with
    | Some d => Ok (Go.uintOfFloat (Go.Minutes d))
    | None => Err (ErrParseAfter v)
    end.

(** The contact groups of a [notify] set are appended to those of the
    rule's severity unless already there. *)
Definition addContactGroups (sev : Z) (notifyList : list string)
    (cgs : gmap Z (list string)) : gmap Z (list string) :=
  fold_left
    (fun (cgs : gmap Z (list string)) contactGroupCID =>
       let contactGroups := default [] (cgs !! sev) in
       if existsb (String.eqb contactGroupCID) contactGroups then cgs
       else <[sev := app contactGroups [contactGroupCID]]> cgs)
    notifyList cgs.

(** The loop over the [then] list: wait, severity and contact groups. *)
Fixpoint parseThen (thenList : list thenBlock)
    (st : Z * Z * gmap Z (list string))
  : result error (Z * Z * gmap Z (list string)) :=
  match thenList with
  | [] => Ok st
  | thenAttrs :: rest =>
      let '(wait, severity, cgs) := st in
      let* wait :=
        match ruleSetAfterAttr thenAttrs with
        | Some v => parseAfter wait v
        | None => Ok wait
        end in
      let severity :=
        match ruleSetSeverityAttr thenAttrs with
        | Some i => Go.uint i
        | None => severity
        end in
      let cgs :=
        match ruleSetNotifyAttr thenAttrs with
        | Some notifyList => addContactGroups (Go.uint8 severity) notifyList cgs
        | None => cgs
        end in
      parseThen rest (wait, severity, cgs)
  end.

(** [rule.Value] of an absence rule: the seconds as a [float64]; a text that
    does not parse counts as zero. *)
Definition absentValue (s : string) : RuleValue :=
  ValueFloat (Go.Seconds (default 0 (Go.ParseDuration (s ++ "s")))).

(** Criteria and value of a rule of a numeric rule set: the first attribute
    of the chain that is found and not empty decides. *)
Definition numericCriteria (valueAttrs : valueBlock) : string * RuleValue :=
  match foundNonEmpty (ruleSetAbsentAttr valueAttrs) with
  | Some s => (apiRuleSetAbsent, absentValue s)
  | None =>
  match foundNonEmpty (ruleSetChangedAttr valueAttrs) with
  | Some b => if String.eqb b "true" then (apiRuleSetChanged, ValueNil) else ("", ValueNil)
  | None =>
  match foundNonEmpty (ruleSetMinValueAttr valueAttrs) with
  | Some s => (apiRuleSetMinValue, ValueString s)
  | None =>
  match foundNonEmpty (ruleSetMaxValueAttr valueAttrs) with
  | Some s => (apiRuleSetMaxValue, ValueString s)
  | None =>
  match foundNonEmpty (ruleSetEqValueAttr valueAttrs) with
  | Some s => (apiRuleSetEqValue, ValueString s)
  | None =>
  match foundNonEmpty (ruleSetNotEqValueAttr valueAttrs) with
  | Some s => (apiRuleSetNotEqValue, ValueString s)
  | None => ("", ValueNil)
  end end end end end end.

(** The same for a text rule set. *)
Definition textCriteria (valueAttrs : valueBlock) : string * RuleValue :=
  match foundNonEmpty (ruleSetAbsentAttr valueAttrs) with
  | Some s => (apiRuleSetAbsent, absentValue s)
  | None =>
  match foundNonEmpty (ruleSetChangedAttr valueAttrs) with
  | Some b => if String.eqb b "true" then (apiRuleSetChanged, ValueNil) else ("", ValueNil)
  | None =>
  match foundNonEmpty (ruleSetContainsAttr valueAttrs) with
  | Some s => (apiRuleSetContains, ValueString s)
  | None =>
  match foundNonEmpty (ruleSetMatchAttr valueAttrs) with
  | Some s => (apiRuleSetMatch, ValueString s)
  | None =>
  match foundNonEmpty (ruleSetNotMatchAttr valueAttrs) with
  | Some s => (apiRuleSetNotMatch, ValueString s)
  | None =>
  match foundNonEmpty (ruleSetNotContainAttr valueAttrs) with
  | Some s => (apiRuleSetNotContains, ValueString s)
  | None => ("", ValueNil)
  end end end end end end.

(** A window duration: [strconv.Atoi] and the conversion to [uint]; zero
    when the attribute is missing or empty. *)
Definition parseWindow (mkErr : string -> error) (v : option string)
  : result error Z :=
  match foundNonEmpty v with
  | Some s =>
      match Go.Atoi s with
      | Some i => Ok (Go.uint i)
      | None => Err (mkErr s)
      end
  | None => Ok 0
  end.

(** The loop over the [over] list: function, duration and minimum duration
    of the window. *)
Fixpoint parseOver (overList : list overBlock) (st : option string * Z * Z)
  : result error (option string * Z * Z) :=
  match overList with
  | [] => Ok st
  | overAttrs :: rest =>
      let '(fn, duration, minDuration) := st in
      let* windowDuration := parseWindow ErrParseLast (ruleSetLastAttr overAttrs) in
      let* windowMinDuration :=
        parseWindow ErrParseAtLeast (ruleSetAtLeastAttr overAttrs) in
      let windowFunction := default "" (ruleSetUsingAttr overAttrs) in
      let st' :=
        if negb (String.eqb windowFunction "") && (0 <? windowDuration) then
          (Some windowFunction, windowDuration,
           if 0 <? windowMinDuration then windowMinDuration else minDuration)
        else st in
      parseOver rest st'
  end.

(** The body of the loop over the [if] list: the rule of one block, [None]
    when its criteria stays empty, and the contact groups. *)
Definition parseIf (metricType : string) (cgs : gmap Z (list string))
    (ifAttrs : ifBlock)
  : result error (option RuleSetRule * gmap Z (list string)) :=
  let* th :=
    match ruleSetThenAttr ifAttrs with
    | Some thenList => parseThen thenList (0, 0, cgs)
    | None => Ok (0, 0, cgs)
    end in
  let '(wait, severity, cgs) := th in
  let* rule :=
    match ruleSetValueAttr ifAttrs with
    | Some ruleSetValueList =>
        match ruleSetValueList with
        | [] => Err ErrIndexOutOfRange
        | valueAttrs :: _ =>
            let* cv :=
              if String.eqb metricType ruleSetMetricTypeNumeric
              then Ok (numericCriteria valueAttrs)
              else if String.eqb metricType ruleSetMetricTypeText
              then Ok (textCriteria valueAttrs)
              else Err (ErrUnsupportedMetricType metricType) in
            let* w :=
              match ruleSetOverAttr valueAttrs with
              | Some overList => parseOver overList (None, 0, 0)
              | None => Ok (None, 0, 0)
              end in
            let '(fn, duration, minDuration) := w in
            Ok {| Criteria := fst cv; Severity := severity; Value := snd cv;
                  Wait := wait; WindowingDuration := duration;
                  WindowingFunction := fn; WindowingMinDuration := minDuration |}
        end
    | None =>
        Ok {| Criteria := ""; Severity := severity; Value := ValueNil;
              Wait := wait; WindowingDuration := 0;
              WindowingFunction := None; WindowingMinDuration := 0 |}
    end in
  Ok (if String.eqb (Criteria rule) "" then None else Some rule, cgs).

(** The loop over the [if] list. *)
Fixpoint parseIfList (metricType : string) (ifList : list ifBlock)
    (cgs : gmap Z (list string))
  : result error (list RuleSetRule * gmap Z (list string)) :=
  match ifList with
  | [] => Ok ([], cgs)
  | ifAttrs :: rest =>
      let* r := parseIf metricType cgs ifAttrs in
      let* rs := parseIfList metricType rest (snd r) in
      Ok (match fst r with
          | Some rule => rule :: fst rs
          | None => fst rs
          end, snd rs)
  end.

Definition orElse {A} (v : option A) (old : A) : A := default old v.

Definition ParseConfig (rs : RuleSet) (d : ResourceData) : result error RuleSet :=
  let metricType := orElse (GetOkString (ruleSetMetricTypeAttr d)) (MetricType rs) in
  let* parsed :=
    match GetOkList (ruleSetIfAttr d) with
    | Some ifList => parseIfList metricType ifList (ContactGroups rs)
    | None => Ok ([], ContactGroups rs)
    end in
  let rs :=
    {| CID := CID rs;
       CheckCID := orElse (GetOkString (ruleSetCheckAttr d)) (CheckCID rs);
       ContactGroups := snd parsed;
       Filter := orElse (GetOkString (ruleSetMetricFilterAttr d)) (Filter rs);
       Link := match GetOkString (ruleSetLinkAttr d) with
               | Some s => Some s
               | None => Link rs
               end;
       MetricName := orElse (GetOkString (ruleSetMetricNameAttr d)) (MetricName rs);
       MetricPattern :=
         orElse (GetOkString (ruleSetMetricPatternAttr d)) (MetricPattern rs);
       MetricType := metricType;
       Name := orElse (GetOkString (ruleSetNameAttr d)) (Name rs);
       Notes := match GetOkString (ruleSetNotesAttr d) with
                | Some s => Some s
                | None => Notes rs
                end;
       Parent := match GetOkString (ruleSetParentAttr d) with
                 | Some s => Some s
                 | None => Parent rs
                 end;
       Rules := fst parsed;
       UserJSON := orElse (GetOkString (ruleSetUserJSONAttr d)) (UserJSON rs) |} in
  let* _ := Validate rs in
  Ok rs.

(** *** API to state: the then-clause of a rule in [ruleSetRead] *)

Fixpoint insertSorted (x : string) (l : list string) : list string :=
  match l with
  | [] => [x]
  | y :: l' => if String.leb x y then x :: l else y :: insertSorted x l'
  end.

(** [sort.Strings] *)
Definition sortStrings (l : list string) : list string :=
  fold_right insertSorted [] l.

Definition thenToState (cgs : gmap Z (list string)) (rule : RuleSetRule)
  : thenBlock :=
  {| ruleSetAfterAttr := Some (Go.FormatInt (Go.uint (60 * Wait rule)));
     ruleSetSeverityAttr := Some (Go.int (Severity rule));
     ruleSetNotifyAttr :=
       if 0 <? Go.int (Severity rule) then
         match cgs !! Go.uint8 (Severity rule) with
         | Some contactGroups => Some (sortStrings contactGroups)
         | None => Some []
         end
       else None |}.

End RuleSet.


(** * Statements

    The predicates the theorems are stated with and the configurations,
    bundles and vendor clients they are evaluated at. *)

Module CheckSpec.
Import Check.

(** Fields on which the metric and timeout rules of [Validate] depend. *)
Definition sameCore (c c' : CheckBundle) : Prop :=
  Metrics c' = Metrics c /\ MetricFilters c' = MetricFilters c /\
  Period c' = Period c /\ Timeout c' = Timeout c.

(** An [http] block as Terraform hands it over: every key present, the
    attributes that are not set empty or zero. *)
Definition exampleHTTP : httpBlock :=
  {| checkHTTPAuthMethodAttr := Some "";
     checkHTTPAuthPasswordAttr := Some "";
     checkHTTPAuthUserAttr := Some "";
     checkHTTPBodyRegexpAttr := Some "";
     checkHTTPCAChainAttr := Some "";
     checkHTTPCertFileAttr := Some "";
     checkHTTPCiphersAttr := Some "";
     checkHTTPCodeRegexpAttr := Some "^200$";
     checkHTTPExtractAttr := Some "";
     checkHTTPHeadersAttr := Some {[ "Accept" := "text/plain" ]};
     checkHTTPKeyFileAttr := Some "";
     checkHTTPMethodAttr := Some "GET";
     checkHTTPPayloadAttr := Some "";
     checkHTTPReadLimitAttr := Some 0;
     checkHTTPURLAttr := Some "https://api.example.com/health";
     checkHTTPVersionAttr := Some "1.1";
     checkHTTPRedirectsAttr := Some "0" |}.

(** A valid [circonus_check]: one collector, one metric, an [http] block. *)
Definition exampleCheck (active : bool) (metricLimit : Z) : ResourceData :=
  {| Id := "";
     checkActiveAttr := active;
     checkCollectorAttr := ["/broker/1"];
     checkMetricLimitAttr := metricLimit;
     checkNameAttr := "API health";
     checkNotesAttr := "";
     checkPeriodAttr := "60s";
     checkMetricAttr :=
       [ {| metricActiveAttr := true; metricNameAttr := "code";
            metricTypeAttr := "text" |} ];
     checkMetricFilterAttr := [];
     checkTagsAttr := ["app:api"];
     checkTargetAttr := "api.example.com";
     checkTimeoutAttr := "10s";
     checkTypeAttr := "";
     checkHTTPAttr := [exampleHTTP];
     checkOutByCollectorAttr := ∅;
     checkOutIDAttr := "";
     checkOutChecksAttr := [];
     checkOutCreatedAttr := 0;
     checkOutLastModifiedAttr := 0;
     checkOutLastModifiedByAttr := "";
     checkOutReverseConnectURLsAttr := [];
     checkOutCheckUUIDsAttr := [] |}.

(** The bundle as the vendor API returns it once created: what was
    submitted, with the CID and one check per broker assigned. *)
Definition stored (c : CheckBundle) : CheckBundle :=
  {| CID := "/check_bundle/1"; Brokers := Brokers c;
     Checks := map (fun _ => "/check/1") (Brokers c);
     CheckUUIDs := CheckUUIDs c; Config := Config c; Created := Created c;
     DisplayName := DisplayName c; LastModified := LastModified c;
     LastModifedBy := LastModifedBy c; Metrics := Metrics c;
     MetricFilters := MetricFilters c; MetricLimit := MetricLimit c;
     Notes := Notes c; Period := Period c;
     ReverseConnectURLs := ReverseConnectURLs c; Status := Status c;
     Tags := Tags c; Target := Target c; Timeout := Timeout c;
     Type_ := Type_ c |}.

(** Configuration to API, the vendor's store, API to state. *)
Definition roundTrip (d : ResourceData) : result error ResourceData :=
  let* c := ParseConfig newCheck d in
  checkAPIToState (stored c) (SetId (CID (stored c)) d).

(** The keys [checkAPIToStateHTTP] saves by name. *)
Definition savedKeys : list string :=
  [ config.AuthMethod; config.AuthPassword; config.AuthUser; config.Body;
    config.CAChain; config.CertFile; config.Ciphers; config.Code;
    config.Extract; config.KeyFile; config.Method; config.Payload;
    config.ReadLimit; config.URL; config.HTTPVersion; config.Redirects ].

(** A key leaves the swamp when it is saved by name or when it is longer
    than the header prefix, whether or not it carries the prefix. *)
Definition consumed (k : string) : bool :=
  existsb (String.eqb k) savedKeys || Nat.ltb headerPrefixLen (String.length k).

Definition long (k : string) : bool := Nat.ltb headerPrefixLen (String.length k).

(** An HTTP check as the API returns it, with one key the provider has no
    attribute for. *)
Definition unknownKeyConfig : gmap string string :=
  {[ config.URL := "https://api.example.com/health";
     "unknown_option" := "1" ]}.

Definition unknownKeyCheck : CheckBundle :=
  withType "http" (withConfig unknownKeyConfig NewCheckBundle).

(** The same check with a whitelisted key instead. *)
Definition submissionURLConfig : gmap string string :=
  {[ config.URL := "https://api.example.com/health";
     config.SubmissionURL := "https://trap.example.com/module/httptrap" ]}.

Definition submissionURLCheck : CheckBundle :=
  withType "http" (withConfig submissionURLConfig NewCheckBundle).

(** A key short enough to stay in the swamp. *)
Definition portConfig : gmap string string :=
  {[ config.URL := "https://api.example.com:8443/health";
     config.Port := "8443" ]}.

Definition portCheck : CheckBundle :=
  withType "http" (withConfig portConfig NewCheckBundle).

(** A vendor client whose delete call reports the resource as gone. *)
Definition goneCheckClient : Check.Client :=
  {| Check.FetchCheckBundle := fun _ => Err "404 Not Found";
     Check.Delete := fun _ => Err "404 Not Found" |}.

(** A vendor client whose delete call succeeds. *)
Definition okCheckClient : Check.Client :=
  {| Check.FetchCheckBundle := fun _ => Err "404 Not Found";
     Check.Delete := fun _ => Ok true |}.

Definition createdCheck : Check.ResourceData :=
  Check.SetId "/check_bundle/1" (exampleCheck true (-1)).

Definition exampleMetric : CheckBundleMetric :=
  {| MetricName := "code"; MetricType := "text"; MetricStatus := "active" |}.

Definition exampleFilter : list string := ["allow"; "^code$"; "status code"].

(** A fresh bundle with the fields [Validate] looks at filled in. *)
Definition exampleBundle (metrics : list CheckBundleMetric)
    (metricFilters : list (list string)) (period : Z) (timeout : Q)
  : CheckBundle :=
  {| CID := ""; Brokers := ["/broker/1"]; Checks := []; CheckUUIDs := [];
     Config := ∅; Created := 0; DisplayName := "API health";
     LastModified := 0; LastModifedBy := ""; Metrics := metrics;
     MetricFilters := metricFilters;
     MetricLimit := config.DefaultCheckBundleMetricLimit; Notes := None;
     Period := period; ReverseConnectURLs := [];
     Status := config.DefaultCheckBundleStatus; Tags := [];
     Target := "api.example.com"; Timeout := timeout; Type_ := "" |}.

Definition withTimeoutAttr (timeout : string) (d : ResourceData) : ResourceData :=
  {| Id := Id d;
     checkActiveAttr := checkActiveAttr d;
     checkCollectorAttr := checkCollectorAttr d;
     checkMetricLimitAttr := checkMetricLimitAttr d;
     checkNameAttr := checkNameAttr d;
     checkNotesAttr := checkNotesAttr d;
     checkPeriodAttr := checkPeriodAttr d;
     checkMetricAttr := checkMetricAttr d;
     checkMetricFilterAttr := checkMetricFilterAttr d;
     checkTagsAttr := checkTagsAttr d;
     checkTargetAttr := checkTargetAttr d;
     checkTimeoutAttr := timeout;
     checkTypeAttr := checkTypeAttr d;
     checkHTTPAttr := checkHTTPAttr d;
     checkOutByCollectorAttr := checkOutByCollectorAttr d;
     checkOutIDAttr := checkOutIDAttr d;
     checkOutChecksAttr := checkOutChecksAttr d;
     checkOutCreatedAttr := checkOutCreatedAttr d;
     checkOutLastModifiedAttr := checkOutLastModifiedAttr d;
     checkOutLastModifiedByAttr := checkOutLastModifiedByAttr d;
     checkOutReverseConnectURLsAttr := checkOutReverseConnectURLsAttr d;
     checkOutCheckUUIDsAttr := checkOutCheckUUIDsAttr d |}.

(** The attributes of a check the configuration sets. *)
Definition configured (d : ResourceData) :=
  (checkActiveAttr d, checkCollectorAttr d, checkMetricLimitAttr d,
   checkNameAttr d, checkNotesAttr d, checkPeriodAttr d, checkMetricAttr d,
   checkMetricFilterAttr d, checkTagsAttr d, checkTargetAttr d,
   checkTimeoutAttr d).

End CheckSpec.

Module GraphSpec.
Import Graph.

(** *** Locators of a [metric] block *)
Definition isSet (x : string) : bool := negb (String.eqb x "").

(** [check] and [metric_name] are not supplied together. *)
Definition unpaired (m : metricBlock) : bool :=
  ((locatorCheck m =? 0) && isSet (locatorName m))
  || ((0 <? locatorCheck m) && negb (isSet (locatorName m))).

(** The number of locators a block supplies: check with metric name, CAQL
    query, search expression. *)
Definition locatorCount (m : metricBlock) : nat :=
  (if (0 <? locatorCheck m) && isSet (locatorName m) then 1 else 0)
  + (if isSet (locatorCAQL m) then 1 else 0)
  + (if isSet (locatorSearch m) then 1 else 0).

(** The locator a datapoint carries is the one its block supplies. *)
Definition carriesLocatorOf (m : metricBlock) (datapoint : GraphDatapoint) : Prop :=
  CheckID datapoint = locatorCheck m /\
  MetricName datapoint = locatorName m /\
  CAQL datapoint = nonEmpty (locatorCAQL m) /\
  Search datapoint = nonEmpty (locatorSearch m).

Definition axisAccepted (v : option string) : bool :=
  match v with
  | Some s => String.eqb s "left" || String.eqb s "" || String.eqb s "right"
  | None => true
  end.

(** A [function] on a text metric, which [Validate] refuses. *)
Definition functionOnText (m : metricBlock) : bool :=
  String.eqb (default "" (graphMetricMetricTypeAttr m)) "text"
  && negb (String.eqb (default "" (graphMetricFunctionAttr m)) "").

(** A [metric] block as Terraform hands it over when nothing but the display
    name is set: every key present, no locator. *)
Definition metricWithoutLocator : metricBlock :=
  {| graphMetricActiveAttr := Some true;
     graphMetricAlphaAttr := Some "";
     graphMetricAxisAttr := Some "left";
     graphMetricCAQLAttr := Some "";
     graphMetricSearchAttr := Some "";
     graphMetricCheckAttr := Some "";
     graphMetricColorAttr := Some "#657aa6";
     graphMetricFormulaAttr := Some "";
     graphMetricFormulaLegendAttr := Some "";
     graphMetricFunctionAttr := Some "gauge";
     graphMetricHumanNameAttr := Some "Latency";
     graphMetricMetricTypeAttr := Some "numeric";
     graphMetricNameAttr := Some "";
     graphMetricStackAttr := Some "" |}.

Definition goneGraphClient : Graph.Client :=
  {| Graph.FetchGraph := fun _ => Err "404 Not Found";
     Graph.DeleteGraphByCID := fun _ => Err "404 Not Found" |}.

Definition okGraphClient : Graph.Client :=
  {| Graph.FetchGraph := fun _ => Err "404 Not Found";
     Graph.DeleteGraphByCID := fun _ => Ok true |}.

Definition createdGraph : Graph.ResourceData :=
  {| Graph.Id := "/graph/1"; Graph.graphMetricAttr := [];
     Graph.graphMetricClusterAttr := [] |}.

(** A [metric] block with the four locator attributes set as given. *)
Definition withLocators (check name caql search : string) (m : metricBlock)
  : metricBlock :=
  {| graphMetricActiveAttr := graphMetricActiveAttr m;
     graphMetricAlphaAttr := graphMetricAlphaAttr m;
     graphMetricAxisAttr := graphMetricAxisAttr m;
     graphMetricCAQLAttr := Some caql;
     graphMetricSearchAttr := Some search;
     graphMetricCheckAttr := Some check;
     graphMetricColorAttr := graphMetricColorAttr m;
     graphMetricFormulaAttr := graphMetricFormulaAttr m;
     graphMetricFormulaLegendAttr := graphMetricFormulaLegendAttr m;
     graphMetricFunctionAttr := graphMetricFunctionAttr m;
     graphMetricHumanNameAttr := graphMetricHumanNameAttr m;
     graphMetricMetricTypeAttr := graphMetricMetricTypeAttr m;
     graphMetricNameAttr := Some name;
     graphMetricStackAttr := graphMetricStackAttr m |}.

Definition metricByCheck : metricBlock :=
  withLocators "/check/1234" "duration" "" "" metricWithoutLocator.

Definition metricByCAQL : metricBlock :=
  withLocators "" "" "find('duration') | stats:mean()" "" metricWithoutLocator.

Definition metricByCAQLAndSearch : metricBlock :=
  withLocators "" "" "find('duration')" "(active:1)" metricWithoutLocator.

Definition metricByCheckAlone : metricBlock :=
  withLocators "/check/1234" "" "" "" metricWithoutLocator.

Definition oneMetric (m : metricBlock) : ResourceData :=
  {| Id := ""; graphMetricAttr := [m]; graphMetricClusterAttr := [] |}.

Definition exampleDatapoint (axis : string) : GraphDatapoint :=
  {| Alpha := None; Axis := axis; CAQL := None; Search := None;
     CheckID := 1234; Color := Some "#657aa6"; DataFormula := None;
     Derive_ := DeriveString "gauge"; Hidden := false; LegendFormula := None;
     MetricName := "duration"; MetricType := "numeric"; Name := "Latency";
     Stack := None |}.

Definition exampleMetricCluster (axis : string) : GraphMetricCluster :=
  {| ClusterAggregateFunc := "none"; ClusterAxis := axis;
     ClusterColor := Some "#657aa6"; ClusterDataFormula := None;
     ClusterHidden := false; ClusterLegendFormula := None;
     ClusterMetricCluster := "/metric_cluster/1"; ClusterName := "Latency";
     ClusterStack := None |}.

Definition exampleClusterBlock (axis : string) : metricClusterBlock :=
  {| graphMetricClusterActiveAttr := Some true;
     graphMetricClusterAggregateAttr := Some "none";
     graphMetricClusterAxisAttr := Some axis;
     graphMetricClusterColorAttr := Some "#657aa6";
     graphMetricClusterFormulaAttr := Some "";
     graphMetricClusterFormulaLegendAttr := Some "";
     graphMetricClusterQueryAttr := Some "/metric_cluster/1";
     graphMetricClusterHumanNameAttr := Some "Latency";
     graphMetricClusterStackAttr := Some "" |}.

End GraphSpec.

Module RuleSetSpec.
Import RuleSet.

(** A rule whose window asks for more than the window holds. *)
Definition windowTooShort (rule : RuleSetRule) : Prop :=
  WindowingDuration rule < WindowingMinDuration rule.

(** A [value] block as Terraform hands it over: every key present, the
    attributes that are not set empty. *)
Definition emptyValue : valueBlock :=
  {| ruleSetAbsentAttr := Some ""; ruleSetChangedAttr := Some "";
     ruleSetContainsAttr := Some ""; ruleSetMatchAttr := Some "";
     ruleSetNotMatchAttr := Some ""; ruleSetMinValueAttr := Some "";
     ruleSetNotContainAttr := Some ""; ruleSetMaxValueAttr := Some "";
     ruleSetEqValueAttr := Some ""; ruleSetNotEqValueAttr := Some "";
     ruleSetOverAttr := Some [] |}.

Definition withContains (s : string) (v : valueBlock) : valueBlock :=
  {| ruleSetAbsentAttr := ruleSetAbsentAttr v; ruleSetChangedAttr := ruleSetChangedAttr v;
     ruleSetContainsAttr := Some s; ruleSetMatchAttr := ruleSetMatchAttr v;
     ruleSetNotMatchAttr := ruleSetNotMatchAttr v; ruleSetMinValueAttr := ruleSetMinValueAttr v;
     ruleSetNotContainAttr := ruleSetNotContainAttr v; ruleSetMaxValueAttr := ruleSetMaxValueAttr v;
     ruleSetEqValueAttr := ruleSetEqValueAttr v; ruleSetNotEqValueAttr := ruleSetNotEqValueAttr v;
     ruleSetOverAttr := ruleSetOverAttr v |}.

Definition withMinValue (s : string) (v : valueBlock) : valueBlock :=
  {| ruleSetAbsentAttr := ruleSetAbsentAttr v; ruleSetChangedAttr := ruleSetChangedAttr v;
     ruleSetContainsAttr := ruleSetContainsAttr v; ruleSetMatchAttr := ruleSetMatchAttr v;
     ruleSetNotMatchAttr := ruleSetNotMatchAttr v; ruleSetMinValueAttr := Some s;
     ruleSetNotContainAttr := ruleSetNotContainAttr v; ruleSetMaxValueAttr := ruleSetMaxValueAttr v;
     ruleSetEqValueAttr := ruleSetEqValueAttr v; ruleSetNotEqValueAttr := ruleSetNotEqValueAttr v;
     ruleSetOverAttr := ruleSetOverAttr v |}.

Definition withOver (o : overBlock) (v : valueBlock) : valueBlock :=
  {| ruleSetAbsentAttr := ruleSetAbsentAttr v; ruleSetChangedAttr := ruleSetChangedAttr v;
     ruleSetContainsAttr := ruleSetContainsAttr v; ruleSetMatchAttr := ruleSetMatchAttr v;
     ruleSetNotMatchAttr := ruleSetNotMatchAttr v; ruleSetMinValueAttr := ruleSetMinValueAttr v;
     ruleSetNotContainAttr := ruleSetNotContainAttr v; ruleSetMaxValueAttr := ruleSetMaxValueAttr v;
     ruleSetEqValueAttr := ruleSetEqValueAttr v; ruleSetNotEqValueAttr := ruleSetNotEqValueAttr v;
     ruleSetOverAttr := Some [o] |}.

Definition exampleThen (after : string) : thenBlock :=
  {| ruleSetAfterAttr := Some after;
     ruleSetNotifyAttr := Some ["/contact_group/1"];
     ruleSetSeverityAttr := Some 1 |}.

(** A rule set on metric [m] of check [/check/1] with one rule. *)
Definition exampleRuleSet (metricType after : string) (v : valueBlock) : ResourceData :=
  {| Id := ""; ruleSetCheckAttr := "/check/1"; ruleSetNameAttr := "";
     ruleSetIfAttr :=
       [ {| ruleSetThenAttr := Some [exampleThen after];
            ruleSetValueAttr := Some [v] |} ];
     ruleSetLinkAttr := ""; ruleSetMetricTypeAttr := metricType;
     ruleSetNotesAttr := ""; ruleSetUserJSONAttr := "{}";
     ruleSetParentAttr := ""; ruleSetMetricNameAttr := "m";
     ruleSetMetricPatternAttr := ""; ruleSetMetricFilterAttr := "" |}.

Definition textOnlyCriteria : list string :=
  [apiRuleSetMatch; apiRuleSetNotMatch; apiRuleSetContains; apiRuleSetNotContains].

Definition numericOnlyCriteria : list string :=
  [apiRuleSetMaxValue; apiRuleSetMinValue; apiRuleSetEqValue; apiRuleSetNotEqValue].

(** The criteria of a rule agrees with the metric type of its rule set. *)
Definition criteriaFits (metricType : string) (rule : RuleSetRule) : Prop :=
  (stringInSlice (Criteria rule) textOnlyCriteria = true -> metricType = "text") /\
  (stringInSlice (Criteria rule) numericOnlyCriteria = true -> metricType = "numeric").

(** The errors the loop over the [if] list can end with. *)
Definition parseError (e : error) : Prop :=
  match e with
  | ErrParseAfter _ | ErrParseLast _ | ErrParseAtLeast _
  | ErrUnsupportedMetricType _ | ErrIndexOutOfRange => True
  | _ => False
  end.

(** A numeric rule with the given window, in seconds. *)
Definition windowRule (last atLeast : Z) : RuleSetRule :=
  {| Criteria := apiRuleSetMinValue; Severity := 1;
     Value := ValueString "5"; Wait := 0;
     WindowingDuration := last; WindowingFunction := Some "average";
     WindowingMinDuration := atLeast |}.

(** A text criteria, no window. *)
Definition containsRule : RuleSetRule :=
  {| Criteria := apiRuleSetContains; Severity := 1;
     Value := ValueString "error"; Wait := 0;
     WindowingDuration := 0; WindowingFunction := None;
     WindowingMinDuration := 0 |}.

(** A rule set on metric [m] of check [/check/1] holding the given rules. *)
Definition ruleSetOf (metricType : string) (rules : list RuleSetRule) : RuleSet :=
  {| CID := ""; CheckCID := "/check/1"; ContactGroups := ContactGroups newRuleSet;
     Filter := ""; Link := None; MetricName := "m"; MetricPattern := "";
     MetricType := metricType; Name := ""; Notes := None; Parent := None;
     Rules := rules; UserJSON := "{}" |}.

Definition exampleOver (last atLeast : string) : overBlock :=
  {| ruleSetLastAttr := Some last; ruleSetAtLeastAttr := Some atLeast;
     ruleSetUsingAttr := Some "average" |}.

End RuleSetSpec.


(** * Further code of the provider

    Functions and loops of the same files that the modules above leave out
    or fold into other definitions, and the predicates their properties are
    stated with. *)

Module Range.

(** The first element of a list that satisfies [p], with its index, counted
    from [i]: where a [for i, x := range l] loop that returns on the first
    error stops. *)
Fixpoint firstAt {A} (p : A -> bool) (i : nat) (l : list A) : option (nat * A) :=
  match l with
  | [] => None
  | x :: rest => if p x then Some (i, x) else firstAt p (S i) rest
  end.

End Range.

Module CheckExt.
Import Check.

(** The loop of [checkRead] over the brokers,
    [checkIDsByCollector[b] = c.Checks[i]], in the order of the list: a
    broker that occurs again overwrites its entry. *)
Fixpoint checkIDsByCollectorLoop (brokers checks : list string)
    (m : gmap string string) : result error (gmap string string) :=
  match brokers, checks with
  | [], _ => Ok m
  | b :: brokers', chk :: checks' =>
      checkIDsByCollectorLoop brokers' checks' (<[b := chk]> m)
  | _ :: _, [] => Err ErrIndexOutOfRange
  end.

(** A [metric_filter] block as the plugin SDK hands it over: all four keys
    are present. *)
Definition completeFilter (b : metricFilterBlock) : bool :=
  match filterTypeAttr b, filterRegexAttr b, filterTagQueryAttr b,
        filterCommentAttr b with
  | Some _, Some _, Some _, Some _ => true
  | _, _, _, _ => false
  end.

(** The [host:port] split of [checkConfigToAPIHTTP]: the port of a URL,
    when its host names one. *)
Definition urlPort (v : string) : option string := snd (cut ":" (urlHost v)).

(** The host of the URL of a block has a colon: it names a port (or is an
    IPv6 literal). *)
Definition namesPort (h : httpBlock) : bool :=
  match checkHTTPURLAttr h with
  | Some v => match urlPort v with Some _ => true | None => false end
  | None => false
  end.

(** The headers of an [http] block ([CollectMap]: none when the attribute
    is missing). *)
Definition headersOf (h : httpBlock) : gmap string string :=
  default ∅ (checkHTTPHeadersAttr h).

Definition hasEmptyHeaderName (h : httpBlock) : bool :=
  match headersOf h !! "" with Some _ => true | None => false end.

(** The [http] block [checkAPIToStateHTTP] writes for a configuration map:
    each attribute is the value of its key, the headers are the keys with
    the header prefix, the read limit is kept when it is a number. *)
Definition httpConfigOf (cfg : gmap string string) : httpBlock :=
  {| checkHTTPAuthMethodAttr := cfg !! config.AuthMethod;
     checkHTTPAuthPasswordAttr := cfg !! config.AuthPassword;
     checkHTTPAuthUserAttr := cfg !! config.AuthUser;
     checkHTTPBodyRegexpAttr := cfg !! config.Body;
     checkHTTPCAChainAttr := cfg !! config.CAChain;
     checkHTTPCertFileAttr := cfg !! config.CertFile;
     checkHTTPCiphersAttr := cfg !! config.Ciphers;
     checkHTTPCodeRegexpAttr := cfg !! config.Code;
     checkHTTPExtractAttr := cfg !! config.Extract;
     checkHTTPHeadersAttr := Some (fst (collectHeaders cfg ∅));
     checkHTTPKeyFileAttr := cfg !! config.KeyFile;
     checkHTTPMethodAttr := cfg !! config.Method;
     checkHTTPPayloadAttr := cfg !! config.Payload;
     checkHTTPReadLimitAttr := cfg !! config.ReadLimit ≫= Go.Atoi;
     checkHTTPURLAttr := cfg !! config.URL;
     checkHTTPVersionAttr := cfg !! config.HTTPVersion;
     checkHTTPRedirectsAttr := cfg !! config.Redirects |}.

(** An [http] block as it is read back: the headers are always written. *)
Definition withHeaders (headers : gmap string string) (h : httpBlock) : httpBlock :=
  {| checkHTTPAuthMethodAttr := checkHTTPAuthMethodAttr h;
     checkHTTPAuthPasswordAttr := checkHTTPAuthPasswordAttr h;
     checkHTTPAuthUserAttr := checkHTTPAuthUserAttr h;
     checkHTTPBodyRegexpAttr := checkHTTPBodyRegexpAttr h;
     checkHTTPCAChainAttr := checkHTTPCAChainAttr h;
     checkHTTPCertFileAttr := checkHTTPCertFileAttr h;
     checkHTTPCiphersAttr := checkHTTPCiphersAttr h;
     checkHTTPCodeRegexpAttr := checkHTTPCodeRegexpAttr h;
     checkHTTPExtractAttr := checkHTTPExtractAttr h;
     checkHTTPHeadersAttr := Some headers;
     checkHTTPKeyFileAttr := checkHTTPKeyFileAttr h;
     checkHTTPMethodAttr := checkHTTPMethodAttr h;
     checkHTTPPayloadAttr := checkHTTPPayloadAttr h;
     checkHTTPReadLimitAttr := checkHTTPReadLimitAttr h;
     checkHTTPURLAttr := checkHTTPURLAttr h;
     checkHTTPVersionAttr := checkHTTPVersionAttr h;
     checkHTTPRedirectsAttr := checkHTTPRedirectsAttr h |}.

(** The read limit of a block fits a Go [int]. *)
Definition readLimitInRange (h : httpBlock) : bool :=
  match checkHTTPReadLimitAttr h with
  | Some n => (Go.minInt64 <=? n) && (n <=? Go.maxInt64)
  | None => true
  end.

(** The configuration map [checkConfigToAPIHTTP] builds from an [http] block
    on a bundle without configuration, key by key. *)
Definition httpConfigLookup (h : httpBlock) (k : string) : option string :=
  if String.eqb k config.AuthMethod then checkHTTPAuthMethodAttr h
  else if String.eqb k config.AuthPassword then checkHTTPAuthPasswordAttr h
  else if String.eqb k config.AuthUser then checkHTTPAuthUserAttr h
  else if String.eqb k config.Body then checkHTTPBodyRegexpAttr h
  else if String.eqb k config.CAChain then checkHTTPCAChainAttr h
  else if String.eqb k config.CertFile then checkHTTPCertFileAttr h
  else if String.eqb k config.Ciphers then checkHTTPCiphersAttr h
  else if String.eqb k config.Code then checkHTTPCodeRegexpAttr h
  else if String.eqb k config.Extract then checkHTTPExtractAttr h
  else if String.eqb k config.KeyFile then checkHTTPKeyFileAttr h
  else if String.eqb k config.Method then checkHTTPMethodAttr h
  else if String.eqb k config.Payload then checkHTTPPayloadAttr h
  else if String.eqb k config.ReadLimit
       then Go.FormatInt <$> checkHTTPReadLimitAttr h
  else if String.eqb k config.URL then checkHTTPURLAttr h
  else if String.eqb k config.HTTPVersion then checkHTTPVersionAttr h
  else if String.eqb k config.Redirects then checkHTTPRedirectsAttr h
  else if String.eqb k config.Port then checkHTTPURLAttr h ≫= urlPort
  else
    match Go.stripPrefix config.HeaderPrefix k with
    | Some name => headersOf h !! name
    | None => None
    end.

(** An [http] block whose URL names a port. *)
Definition httpWithPort : httpBlock :=
  {| checkHTTPAuthMethodAttr := None; checkHTTPAuthPasswordAttr := None;
     checkHTTPAuthUserAttr := None; checkHTTPBodyRegexpAttr := None;
     checkHTTPCAChainAttr := None; checkHTTPCertFileAttr := None;
     checkHTTPCiphersAttr := None; checkHTTPCodeRegexpAttr := None;
     checkHTTPExtractAttr := None; checkHTTPHeadersAttr := Some ∅;
     checkHTTPKeyFileAttr := None; checkHTTPMethodAttr := Some "GET";
     checkHTTPPayloadAttr := None; checkHTTPReadLimitAttr := None;
     checkHTTPURLAttr := Some "https://api.example.com:8443/health";
     checkHTTPVersionAttr := None; checkHTTPRedirectsAttr := None |}.

End CheckExt.

Module GraphExt.
Import Graph GraphSpec Range.

(** The axis values the [switch] of [graphRead] has a case for. *)
Definition readableAxis (axis : string) : bool :=
  String.eqb axis "l" || String.eqb axis "" || String.eqb axis "r".

(** The datapoints the loop of [graphRead] has a case for: the axis is one
    of the letters or empty, and [Derive] is a [bool] or a [string]. *)
Definition readableDatapoint (datapoint : GraphDatapoint) : bool :=
  readableAxis (Axis datapoint)
  && match Derive_ datapoint with
     | DeriveBool _ | DeriveString _ => true
     | _ => false
     end.

Definition readableMetricCluster (mc : GraphMetricCluster) : bool :=
  readableAxis (ClusterAxis mc).

(** A metric cluster with no data formula, no legend formula and no stack:
    what the keys of the [metric_cluster] schema can hold. *)
Definition plainMetricCluster (mc : GraphMetricCluster) : bool :=
  match ClusterDataFormula mc, ClusterLegendFormula mc, ClusterStack mc with
  | None, None, None => true
  | _, _, _ => false
  end.

(** An aggregate function without a colour. *)
Definition aggregateWithoutColor (b : metricClusterBlock) : bool :=
  negb (String.eqb (default "" (graphMetricClusterAggregateAttr b)) "")
  && String.eqb (default "" (graphMetricClusterColorAttr b)) "".

(** A text metric with a [function], and a metric cluster with an aggregate
    function and no colour. *)
Definition textMetricWithFunction : metricBlock :=
  {| graphMetricActiveAttr := Some true;
     graphMetricAlphaAttr := Some "";
     graphMetricAxisAttr := Some "right";
     graphMetricCAQLAttr := Some "";
     graphMetricSearchAttr := Some "";
     graphMetricCheckAttr := Some "/check/1234";
     graphMetricColorAttr := Some "#657aa6";
     graphMetricFormulaAttr := Some "";
     graphMetricFormulaLegendAttr := Some "";
     graphMetricFunctionAttr := Some "gauge";
     graphMetricHumanNameAttr := Some " Version ";
     graphMetricMetricTypeAttr := Some "text";
     graphMetricNameAttr := Some "version";
     graphMetricStackAttr := Some "" |}.

Definition clusterWithoutColor : metricClusterBlock :=
  {| graphMetricClusterActiveAttr := Some true;
     graphMetricClusterAggregateAttr := Some "sum";
     graphMetricClusterAxisAttr := Some "left";
     graphMetricClusterColorAttr := Some "";
     graphMetricClusterFormulaAttr := Some "";
     graphMetricClusterFormulaLegendAttr := Some "";
     graphMetricClusterQueryAttr := Some "/metric_cluster/1";
     graphMetricClusterHumanNameAttr := Some "Requests";
     graphMetricClusterStackAttr := Some "" |}.

(** A client whose API holds the graph [g]. *)
Definition graphClient (g : Graph) : Client :=
  {| FetchGraph := fun _ => Ok g; DeleteGraphByCID := fun _ => Ok true |}.

(** A graph with one datapoint and one metric cluster, whose stack is as
    given. *)
Definition fetchedGraph (stack : option Z) : Graph :=
  {| CID := "/graph/1";
     Datapoints := [exampleDatapoint "l"];
     MetricClusters :=
       [ {| ClusterAggregateFunc := "none"; ClusterAxis := "r";
            ClusterColor := Some "#657aa6"; ClusterDataFormula := None;
            ClusterHidden := false; ClusterLegendFormula := None;
            ClusterMetricCluster := "/metric_cluster/1";
            ClusterName := "Latency"; ClusterStack := stack |} ] |}.

Definition graphOf (metrics : list metricBlock)
    (metricClusters : list metricClusterBlock) : ResourceData :=
  {| Id := ""; graphMetricAttr := metrics;
     graphMetricClusterAttr := metricClusters |}.

End GraphExt.

Module RuleSetExt.
Import RuleSet RuleSetSpec Range.

(** The names of the attributes of a [value] block. *)
Module key.
Definition ruleSetAbsentAttr : string := "absent".
Definition ruleSetChangedAttr : string := "changed".
Definition ruleSetContainsAttr : string := "contains".
Definition ruleSetMatchAttr : string := "match".
Definition ruleSetMaxValueAttr : string := "max_value".
Definition ruleSetMinValueAttr : string := "min_value".
Definition ruleSetEqValueAttr : string := "eq_value".
Definition ruleSetNotEqValueAttr : string := "neq_value".
Definition ruleSetNotContainAttr : string := "not_contain".
Definition ruleSetNotMatchAttr : string := "not_match".
End key.

(** [valueAttrs[k]] for a [value] block of the configuration. *)
Definition valueAttr (k : string) (v : valueBlock) : option string :=
  if String.eqb k key.ruleSetAbsentAttr then ruleSetAbsentAttr v
  else if String.eqb k key.ruleSetChangedAttr then ruleSetChangedAttr v
  else if String.eqb k key.ruleSetContainsAttr then ruleSetContainsAttr v
  else if String.eqb k key.ruleSetMatchAttr then ruleSetMatchAttr v
  else if String.eqb k key.ruleSetMaxValueAttr then ruleSetMaxValueAttr v
  else if String.eqb k key.ruleSetMinValueAttr then ruleSetMinValueAttr v
  else if String.eqb k key.ruleSetEqValueAttr then ruleSetEqValueAttr v
  else if String.eqb k key.ruleSetNotEqValueAttr then ruleSetNotEqValueAttr v
  else if String.eqb k key.ruleSetNotContainAttr then ruleSetNotContainAttr v
  else if String.eqb k key.ruleSetNotMatchAttr then ruleSetNotMatchAttr v
  else None.

(** The [switch rule.Criteria] of [ruleSetRead]: the key of the [value]
    block that is written and what is stored under it; [None] is the
    [default] case, the diagnostic [Unsupported criteria]. An absence
    value that is a [float64] is printed with [%f], read as a duration and
    stored as its whole seconds. *)
Definition criteriaToState (rule : RuleSetRule) : option (string * RuleValue) :=
  let c := Criteria rule in
  if String.eqb c apiRuleSetAbsent then
    Some (key.ruleSetAbsentAttr,
          match Value rule with
          | ValueString v => ValueString v
          | ValueFloat v =>
              let d := default 0 (Go.ParseDuration (Go.FormatFloat6 v ++ "s")) in
              ValueString (Go.FormatInt (Go.int (Go.Qtrunc (Go.Seconds d))))
          | ValueNil => ValueString "<nil>"
          end)
  else if String.eqb c apiRuleSetChanged then
    Some (key.ruleSetChangedAttr, ValueString "true")
  else if String.eqb c apiRuleSetContains then
    Some (key.ruleSetContainsAttr, Value rule)
  else if String.eqb c apiRuleSetMatch then
    Some (key.ruleSetMatchAttr, Value rule)
  else if String.eqb c apiRuleSetMaxValue then
    Some (key.ruleSetMaxValueAttr, Value rule)
  else if String.eqb c apiRuleSetMinValue then
    Some (key.ruleSetMinValueAttr, Value rule)
  else if String.eqb c apiRuleSetEqValue then
    Some (key.ruleSetEqValueAttr, Value rule)
  else if String.eqb c apiRuleSetNotEqValue then
    Some (key.ruleSetNotEqValueAttr, Value rule)
  else if String.eqb c apiRuleSetNotContains then
    Some (key.ruleSetNotContainAttr, Value rule)
  else if String.eqb c apiRuleSetNotMatch then
    Some (key.ruleSetNotMatchAttr, Value rule)
  else None.

(** The [over] block [ruleSetRead] writes: only when the rule has a
    windowing function. *)
Definition overToState (rule : RuleSetRule) : option overBlock :=
  match WindowingFunction rule with
  | Some f =>
      Some {| ruleSetLastAttr := Some (Go.FormatInt (WindowingDuration rule));
              ruleSetAtLeastAttr := Some (Go.FormatInt (WindowingMinDuration rule));
              ruleSetUsingAttr := Some f |}
  | None => None
  end.

(** The window check of [Validate]. *)
Definition windowTooShortb (rule : RuleSetRule) : bool :=
  WindowingDuration rule <? WindowingMinDuration rule.

(** The windows [parseOver] builds: without a function there is no
    duration; with one, the function is named and the duration is
    positive. *)
Definition validWindow (fn : option string) (duration minDuration : Z) : Prop :=
  match fn with
  | Some f => f <> "" /\ 0 < duration < 2 ^ 64 /\ 0 <= minDuration < 2 ^ 64
  | None => duration = 0 /\ minDuration = 0
  end.

(** [rs.ContactGroups[sev]]: no groups when the map has no such key. *)
Definition groupsAt (cgs : gmap Z (list string)) (sev : Z) : list string :=
  default [] (cgs !! sev).

(** [sort.Strings] orders by [<=] on strings. *)
Definition stringLe (a b : string) : Prop := String.leb a b = true.

(** An [if] block with the given [value] block and the example [then]. *)
Definition ifOf (v : valueBlock) : ifBlock :=
  {| ruleSetThenAttr := Some [exampleThen "0"]; ruleSetValueAttr := Some [v] |}.

End RuleSetExt.


(** * Proofs *)

(** ** Floating point, durations and decimal numbers *)

Module GoFacts.

Lemma floorLog2_int (n : positive) : Go.floorLog2 n 1 = Z.log2 (Zpos n).
Proof.
  unfold Go.floorLog2. change (Z.log2 1) with 0. rewrite Z.sub_0_r.
  pose proof (Z.log2_nonneg (Zpos n)) as Hnn.
  pose proof (Z.log2_spec (Zpos n) ltac:(lia)) as [Hlo _].
  destruct (0 <=? Z.log2 (Z.pos n)) eqn:E; [|apply Z.leb_gt in E; lia].
  destruct (1 * 2 ^ Z.log2 (Z.pos n) <=? Z.pos n) eqn:E2; [reflexivity|].
  apply Z.leb_gt in E2. lia.
Qed.

Lemma round_pos_small_int (prec : Z) (n : positive) :
  Zpos n < 2 ^ prec -> (Go.round_pos prec n 1 == inject_Z (Zpos n))%Q.
Proof.
  intros Hlt. unfold Go.round_pos. rewrite floorLog2_int.
  assert (Hprec : 0 < prec).
  { destruct (Z.ltb_spec 0 prec); [assumption|].
    destruct (Z.eq_dec prec 0) as [->|]; [simpl in Hlt; lia|].
    rewrite Z.pow_neg_r in Hlt by lia. lia. }
  pose proof (Z.log2_nonneg (Zpos n)) as Hnn.
  assert (He : Z.log2 (Zpos n) < prec) by (apply Z.log2_lt_pow2; lia).
  set (e := Z.log2 (Zpos n)) in *.
  replace (Z.max 0 (- (e - (prec - 1)))) with (prec - 1 - e) by lia.
  replace (Z.max 0 (e - (prec - 1))) with 0 by lia.
  change (2 ^ 0) with 1. rewrite !Z.mul_1_r.
  rewrite Z.div_1_r, Z.mod_1_r. cbn [Z.mul Z.ltb Z.compare].
  rewrite Qred_correct. unfold Qeq; cbn [Qnum Qden inject_Z].
  assert (0 < 2 ^ (prec - 1 - e)) by (apply Z.pow_pos_nonneg; lia).
  rewrite Z2Pos.id by assumption. change (2 * 0 <? 1) with true. cbv iota. lia.
Qed.

Lemma float32_small_int (n : Z) :
  0 <= n < 2 ^ 24 -> (Go.float32 (inject_Z n) == inject_Z n)%Q.
Proof.
  intros [Hlo Hhi]. unfold Go.float32, Go.round_ne. cbn [Qnum Qden inject_Z].
  destruct n as [|p|p]; [reflexivity| |lia].
  apply round_pos_small_int. exact Hhi.
Qed.

Lemma float64_small_int (n : Z) :
  0 <= n < 2 ^ 53 -> (Go.float64 (inject_Z n) == inject_Z n)%Q.
Proof.
  intros [Hlo Hhi]. unfold Go.float64, Go.round_ne. cbn [Qnum Qden inject_Z].
  destruct n as [|p|p]; [reflexivity| |lia].
  apply round_pos_small_int. exact Hhi.
Qed.

Lemma floorLog2_lower (n d : positive) :
  (0 <= Go.floorLog2 n d -> Zpos d * 2 ^ Go.floorLog2 n d <= Zpos n) /\
  (Go.floorLog2 n d < 0 -> Zpos d <= Zpos n * 2 ^ (- Go.floorLog2 n d)).
Proof.
  unfold Go.floorLog2.
  pose proof (Z.log2_nonneg (Zpos n)) as Hn0.
  pose proof (Z.log2_nonneg (Zpos d)) as Hd0.
  pose proof (Z.log2_spec (Zpos n) ltac:(lia)) as [Hn1 Hn2].
  pose proof (Z.log2_spec (Zpos d) ltac:(lia)) as [Hd1 Hd2].
  set (ln := Z.log2 (Zpos n)) in *. set (ld := Z.log2 (Zpos d)) in *.
  clearbody ln ld. rewrite <- Z.add_1_r in Hn2, Hd2.
  destruct (0 <=? ln - ld) eqn:E0.
  - apply Z.leb_le in E0.
    destruct (Z.pos d * 2 ^ (ln - ld) <=? Z.pos n) eqn:E1.
    + apply Z.leb_le in E1. split; [intros _; exact E1 | lia].
    + split; intros H.
      * replace (2 ^ ln) with (2 ^ (ld + 1) * 2 ^ (ln - ld - 1)) in Hn1
          by (rewrite <- Z.pow_add_r by lia; f_equal; lia).
        assert (0 < 2 ^ (ln - ld - 1)) by (apply Z.pow_pos_nonneg; lia).
        nia.
      * assert (ln = ld) as -> by lia.
        replace (- (ld - ld - 1)) with 1 by lia. change (2 ^ 1) with 2.
        replace (2 ^ (ld + 1)) with (2 * 2 ^ ld) in Hd2
          by (rewrite Z.pow_add_r by lia; change (2 ^ 1) with 2; lia).
        lia.
  - apply Z.leb_gt in E0.
    destruct (Z.pos d <=? Z.pos n * 2 ^ (- (ln - ld))) eqn:E1.
    + apply Z.leb_le in E1. split; [lia | intros _; exact E1].
    + split; [lia|]. intros _.
      replace (- (ln - ld - 1)) with (ld + 1 - ln) by lia.
      assert (2 ^ (ld + 1) = 2 ^ ln * 2 ^ (ld + 1 - ln)) as Hpow
        by (rewrite <- Z.pow_add_r by lia; f_equal; lia).
      assert (0 < 2 ^ (ld + 1 - ln)) by (apply Z.pow_pos_nonneg; lia).
      nia.
Qed.

Lemma floorLog2_upper (n d : positive) (E : Z) :
  0 <= E -> Zpos n < Zpos d * 2 ^ E -> Go.floorLog2 n d < E.
Proof.
  intros HE Hlt. destruct (floorLog2_lower n d) as [H1 _].
  destruct (Z.lt_ge_cases (Go.floorLog2 n d) E) as [|Hge]; [assumption|].
  exfalso. specialize (H1 ltac:(lia)).
  assert (2 ^ E <= 2 ^ Go.floorLog2 n d) by (apply Z.pow_le_mono_r; lia).
  nia.
Qed.

(** Rounding to [prec] bits moves a value below [2^E] by at most
    [2^(E - prec)]. *)
Lemma round_pos_error (prec : Z) (n d : positive) (E : Z) :
  0 <= E < prec -> Zpos n < Zpos d * 2 ^ E ->
  ((Zpos n # d) - (1 # Z.to_pos (2 ^ (prec - E))) <= Go.round_pos prec n d)%Q /\
  (Go.round_pos prec n d <= (Zpos n # d) + (1 # Z.to_pos (2 ^ (prec - E))))%Q.
Proof.
  intros HE Hlt. pose proof (floorLog2_upper n d E ltac:(lia) Hlt) as He.
  unfold Go.round_pos. set (e := Go.floorLog2 n d) in *. clearbody e.
  replace (Z.max 0 (- (e - (prec - 1)))) with (prec - 1 - e) by lia.
  replace (Z.max 0 (e - (prec - 1))) with 0 by lia.
  change (2 ^ 0) with 1. rewrite !Z.mul_1_r.
  set (j := prec - 1 - e). assert (Hj : prec - E <= j) by lia.
  assert (HP : 0 < 2 ^ j) by (apply Z.pow_pos_nonneg; lia).
  assert (HK : 0 < 2 ^ (prec - E)) by (apply Z.pow_pos_nonneg; lia).
  assert (HKP : 2 ^ (prec - E) <= 2 ^ j) by (apply Z.pow_le_mono_r; lia).
  set (P := 2 ^ j) in *. set (K := 2 ^ (prec - E)) in *. clearbody P K.
  pose proof (Z.div_mod (Zpos n * P) (Zpos d) ltac:(lia)) as Hdm.
  pose proof (Z.mod_pos_bound (Zpos n * P) (Zpos d) ltac:(lia)) as Hr.
  set (m := Zpos n * P / Zpos d) in *. set (r := (Zpos n * P) mod Zpos d) in *.
  clearbody m r.
  set (m' := if 2 * r <? Z.pos d then m
             else if Z.pos d <? 2 * r then m + 1
             else if Z.even m then m else m + 1).
  assert (Hm' : 2 * (m' * Zpos d - Zpos n * P) <= Zpos d /\
                2 * (Zpos n * P - m' * Zpos d) <= Zpos d).
  { unfold m'. destruct (Z.ltb_spec (2 * r) (Zpos d)); [lia|].
    destruct (Z.ltb_spec (Zpos d) (2 * r)); [lia|].
    destruct (Z.even m); lia. }
  clearbody m'. rewrite !Qred_correct.
  unfold Qle, Qminus, Qplus, Qopp; cbn [Qnum Qden].
  rewrite !Pos2Z.inj_mul, !Z2Pos.id by lia.
  split; nia.
Qed.

Lemma Qred_inject_Z (z : Z) : Qred (inject_Z z) = inject_Z z.
Proof.
  unfold Qred, inject_Z.
  pose proof (Z.ggcd_gcd z 1) as Hg.
  pose proof (Z.ggcd_correct_divisors z 1) as Hd.
  destruct (Z.ggcd z 1) as [g [aa bb]]. cbn [fst snd] in *.
  rewrite Z.gcd_1_r in Hg. subst g. destruct Hd as [-> Hb].
  rewrite Z.mul_1_l in Hb. subst bb. rewrite Z.mul_1_l. reflexivity.
Qed.

(** An integer below [2^53] is its own [float64]. *)
Lemma float64_int (n : Z) :
  0 <= n < 2 ^ 53 -> Go.float64 (inject_Z n) = inject_Z n.
Proof.
  intros Hn. pose proof (float64_small_int n Hn) as Heq.
  unfold Go.float64, Go.round_ne in *. cbn [Qnum Qden inject_Z] in *.
  destruct n as [|p|p]; [reflexivity| |lia].
  unfold Go.round_pos in *.
  match goal with |- Qred ?X = _ =>
    rewrite (Qred_complete X (inject_Z (Zpos p)));
      [apply Qred_inject_Z | rewrite <- (Qred_correct X); exact Heq]
  end.
Qed.

Lemma whole_seconds_minutes (N : Z) :
  0 <= N ->
  Z.quot (N * 10 ^ 9) Go.Minute = N / 60 /\
  Z.rem (N * 10 ^ 9) Go.Minute = (N mod 60) * 10 ^ 9.
Proof.
  intros HN. change Go.Minute with (60 * 10 ^ 9).
  rewrite Z.quot_div_nonneg, Z.rem_mod_nonneg by lia.
  pose proof (Z.div_mod N 60 ltac:(lia)) as Hdm.
  pose proof (Z.mod_pos_bound N 60 ltac:(lia)) as Hb.
  split.
  - symmetry. apply Z.div_unique with ((N mod 60) * 10 ^ 9); lia.
  - symmetry. apply Z.mod_unique with (N / 60); lia.
Qed.

Lemma Qfloor_between (q : Q) (m : Z) :
  (inject_Z m <= q)%Q -> (q < inject_Z (m + 1))%Q -> Qfloor q = m.
Proof.
  intros Hlo Hhi.
  pose proof (Qfloor_le q) as H1. pose proof (Qlt_floor q) as H2.
  assert (inject_Z (Qfloor q) < inject_Z (m + 1))%Q as H3
    by (eapply Qle_lt_trans; eassumption).
  assert (inject_Z m < inject_Z (Qfloor q + 1))%Q as H4
    by (eapply Qle_lt_trans; eassumption).
  rewrite <- Zlt_Qlt in H3, H4. lia.
Qed.

Lemma Qdiv_Minute (z : Z) :
  (inject_Z z / inject_Z Go.Minute)%Q = (z * 1 # 60000000000)%Q.
Proof. reflexivity. Qed.

Lemma pow2_53 : Z.to_pos (2 ^ (53 - 0)) = 9007199254740992%positive.
Proof. vm_compute. reflexivity. Qed.

Lemma pow2_24 : Z.to_pos (2 ^ (53 - 29)) = 16777216%positive.
Proof. vm_compute. reflexivity. Qed.

(** The same bound on numerator and denominator of the rounded value, with
    [K] the power of two [2^(prec - E)]. *)
Lemma round_pos_error_Z (prec : Z) (n d : positive) (E K : Z) :
  0 <= E < prec -> Zpos n < Zpos d * 2 ^ E -> K = 2 ^ (prec - E) ->
  (Zpos n * K - Zpos d) * Zpos (Qden (Go.round_pos prec n d))
    <= Qnum (Go.round_pos prec n d) * (Zpos d * K) /\
  Qnum (Go.round_pos prec n d) * (Zpos d * K)
    <= (Zpos n * K + Zpos d) * Zpos (Qden (Go.round_pos prec n d)).
Proof.
  intros HE Hlt ->. destruct (round_pos_error prec n d E HE Hlt) as [Hlo Hhi].
  assert (HK : 0 < 2 ^ (prec - E)) by (apply Z.pow_pos_nonneg; lia).
  unfold Qle, Qminus, Qplus, Qopp in Hlo, Hhi. cbn [Qnum Qden] in Hlo, Hhi.
  rewrite !Pos2Z.inj_mul, !Z2Pos.id in Hlo, Hhi by assumption.
  split; lia.
Qed.

(** The [float64] quotient of [k] whole seconds, [0 < k < 60], by a minute
    lies between 1/64 and 63/64. *)
Lemma fdiv64_seconds_of_minute (k : Z) :
  0 < k < 60 ->
  exists xn xd : positive,
    Go.fdiv64 (inject_Z (k * 10 ^ 9)) (inject_Z Go.Minute) = (Zpos xn # xd) /\
    Zpos xd <= 64 * Zpos xn /\ 64 * Zpos xn <= 63 * Zpos xd.
Proof.
  intros Hk. unfold Go.fdiv64, Go.float64, Go.round_ne. rewrite Qdiv_Minute.
  cbn [Qnum Qden].
  assert (Hn : 1000000000 <= k * 10 ^ 9 * 1 <= 59000000000) by lia.
  destruct (k * 10 ^ 9 * 1) as [|n1|n1]; [lia| |lia].
  destruct (round_pos_error_Z 53 n1 60000000000 0 9007199254740992
              ltac:(lia) ltac:(lia) ltac:(reflexivity)) as [Hlo Hhi].
  destruct (Go.round_pos 53 n1 60000000000) as [xnum xd].
  cbn [Qnum Qden] in Hlo, Hhi.
  assert (1000000000 * Zpos xd <= Zpos n1 * Zpos xd) as Hp1
    by (apply Z.mul_le_mono_nonneg_r; lia).
  assert (Zpos n1 * Zpos xd <= 59000000000 * Zpos xd) as Hp2
    by (apply Z.mul_le_mono_nonneg_r; lia).
  destruct xnum as [|xn|xn]; [lia| |lia].
  exists xn, xd. split; [reflexivity|]. lia.
Qed.

(** Adding such a quotient to a number of minutes below [2^28] and rounding
    stays strictly between that number and the next. *)
Lemma fadd64_minutes_fraction (m : Z) (xn xd : positive) :
  0 <= m < 268435456 ->
  Zpos xd <= 64 * Zpos xn -> 64 * Zpos xn <= 63 * Zpos xd ->
  (inject_Z m <= Go.fadd64 (inject_Z m) (Zpos xn # xd))%Q /\
  (Go.fadd64 (inject_Z m) (Zpos xn # xd) < inject_Z (m + 1))%Q.
Proof.
  intros Hm Hx1 Hx2.
  unfold Go.fadd64, Go.float64, Go.round_ne, Qplus. cbn [Qnum Qden inject_Z].
  rewrite Pos.mul_1_l.
  assert (Hmx : m * Zpos xd <= 268435455 * Zpos xd)
    by (apply Z.mul_le_mono_nonneg_r; lia).
  assert (Hmx0 : 0 <= m * Zpos xd) by (apply Z.mul_nonneg_nonneg; lia).
  destruct (m * Z.pos xd + Z.pos xn * 1) as [|n2|n2] eqn:En2; [lia| |lia].
  destruct (round_pos_error_Z 53 n2 xd 29 16777216
              ltac:(lia) ltac:(rewrite <- En2; lia) ltac:(reflexivity)) as [Hlo Hhi].
  destruct (Go.round_pos 53 n2 xd) as [yn yd].
  cbn [Qnum Qden] in Hlo, Hhi. rewrite <- En2 in Hlo, Hhi.
  assert (HB1 : Zpos xd * Zpos yd <= 64 * (Zpos xn * Zpos yd))
    by (replace (64 * (Zpos xn * Zpos yd)) with (64 * Zpos xn * Zpos yd) by ring;
        apply Z.mul_le_mono_nonneg_r; lia).
  assert (HB2 : 64 * (Zpos xn * Zpos yd) <= 63 * (Zpos xd * Zpos yd))
    by (replace (64 * (Zpos xn * Zpos yd)) with (64 * Zpos xn * Zpos yd) by ring;
        replace (63 * (Zpos xd * Zpos yd)) with (63 * Zpos xd * Zpos yd) by ring;
        apply Z.mul_le_mono_nonneg_r; lia).
  assert (HA : 0 < Zpos xd * Zpos yd) by lia.
  assert (HmA : m * (Zpos xd * Zpos yd) < yn * Zpos xd /\
                yn * Zpos xd < (m + 1) * (Zpos xd * Zpos yd)).
  { replace (((m * Z.pos xd + Z.pos xn * 1) * 16777216 - Z.pos xd) * Z.pos yd)
      with (16777216 * (m * (Zpos xd * Zpos yd)) + 16777216 * (Zpos xn * Zpos yd)
            - Zpos xd * Zpos yd) in Hlo by ring.
    replace (((m * Z.pos xd + Z.pos xn * 1) * 16777216 + Z.pos xd) * Z.pos yd)
      with (16777216 * (m * (Zpos xd * Zpos yd)) + 16777216 * (Zpos xn * Zpos yd)
            + Zpos xd * Zpos yd) in Hhi by ring.
    replace (yn * (Z.pos xd * 16777216)) with (16777216 * (yn * Zpos xd)) in Hlo, Hhi
      by ring.
    replace ((m + 1) * (Zpos xd * Zpos yd))
      with (m * (Zpos xd * Zpos yd) + Zpos xd * Zpos yd) by ring.
    set (A := Zpos xd * Zpos yd) in *. set (B := Zpos xn * Zpos yd) in *.
    set (C := yn * Zpos xd) in *. set (mA := m * A) in *.
    clearbody A B C mA. lia. }
  destruct HmA as [H1 H2].
  unfold Qle, Qlt; cbn [Qnum Qden inject_Z]. rewrite !Z.mul_1_r. split.
  - replace (m * (Zpos xd * Zpos yd)) with (m * Zpos yd * Zpos xd) in H1 by ring.
    apply Z.mul_lt_mono_pos_r in H1; lia.
  - replace ((m + 1) * (Zpos xd * Zpos yd)) with ((m + 1) * Zpos yd * Zpos xd) in H2 by ring.
    apply Z.mul_lt_mono_pos_r in H2; lia.
Qed.

Lemma fdiv64_zero : Go.fdiv64 (inject_Z (0 * 10 ^ 9)) (inject_Z Go.Minute) = 0%Q.
Proof. vm_compute. reflexivity. Qed.

Lemma uintOfFloat_between (y : Q) (m : Z) :
  0 <= m < 2 ^ 64 -> (inject_Z m <= y)%Q -> (y < inject_Z (m + 1))%Q ->
  Go.uintOfFloat y = m.
Proof.
  intros Hm Hlo Hhi. unfold Go.uintOfFloat, Go.Qtrunc, Go.uint.
  assert (0 <= Qnum y).
  { assert (0 <= y)%Q as Hy
      by (eapply Qle_trans; [|exact Hlo]; change 0%Q with (inject_Z 0);
          rewrite <- Zle_Qle; lia).
    unfold Qle in Hy. cbn in Hy. lia. }
  destruct (Z.ltb_spec (Qnum y) 0); [lia|].
  rewrite (Qfloor_between y m Hlo Hhi). apply Z.mod_small. lia.
Qed.

(** [uint(d.Minutes())] of a whole number of seconds is the number of whole
    minutes: the two roundings of [Minutes] do not reach the next integer. *)
Lemma Minutes_whole_seconds (N : Z) :
  0 <= N <= 9223372036 ->
  Go.uintOfFloat (Go.Minutes (N * 10 ^ 9)) = N / 60.
Proof.
  intros HN. unfold Go.Minutes.
  destruct (whole_seconds_minutes N ltac:(lia)) as [-> ->].
  pose proof (Z.mod_pos_bound N 60 ltac:(lia)) as Hk.
  assert (Hm : 0 <= N / 60 < 268435456).
  { split; [apply Z.div_pos; lia|]. apply Z.div_lt_upper_bound; lia. }
  set (m := N / 60) in *. set (k := N mod 60) in *. clearbody m k.
  rewrite (float64_int m) by lia. rewrite (float64_int (k * 10 ^ 9)) by lia.
  destruct (Z.eq_dec k 0) as [-> | Hk0].
  - rewrite fdiv64_zero.
    unfold Go.fadd64. unfold Qplus. cbn [Qnum Qden inject_Z].
    rewrite Z.mul_1_r, Z.add_0_r, Pos.mul_1_l.
    change (m # 1) with (inject_Z m). rewrite float64_int by lia.
    apply uintOfFloat_between; [lia | apply Qle_refl | rewrite <- Zlt_Qlt; lia].
  - destruct (fdiv64_seconds_of_minute k ltac:(lia)) as (xn & xd & -> & Hx1 & Hx2).
    destruct (fadd64_minutes_fraction m xn xd Hm Hx1 Hx2) as [Hlo Hhi].
    apply uintOfFloat_between; [lia | assumption | assumption].
Qed.

Lemma isDigit_digitVal (c : ascii) :
  Go.isDigit c = true -> 0 <= Go.digitVal c <= 9.
Proof.
  unfold Go.isDigit, Go.digitVal. intros H.
  apply andb_true_iff in H as [H1 H2].
  apply N.leb_le in H1, H2. lia.
Qed.

Lemma stripSign_digit (c : ascii) (r : string) :
  Go.isDigit c = true -> Go.stripSign (String c r) = (false, String c r).
Proof.
  destruct c as [[] [] [] [] [] [] [] []]; intros H; try discriminate H; reflexivity.
Qed.

Lemma isDigit_not_point (c : ascii) :
  Go.isDigit c = true -> negb (Ascii.eqb c "." || Go.isDigit c) = false.
Proof. intros ->. now rewrite orb_true_r. Qed.

Lemma decimalFrom_ge (s : string) : forall x,
  Go.allDigits s = true -> 0 <= x -> x <= Go.decimalFrom x s.
Proof.
  induction s as [|c r IH]; intros x Hs Hx; cbn [Go.decimalFrom]; [lia|].
  cbn [Go.allDigits] in Hs. apply andb_true_iff in Hs as [Hc Hr].
  pose proof (isDigit_digitVal c Hc).
  specialize (IH (10 * x + Go.digitVal c) Hr ltac:(lia)). lia.
Qed.

(** On a run of digits followed by the unit, [leadingInt] returns the number
    the digits denote, unless it exceeds [2^63]. *)
Lemma leadingInt_digits (s : string) : forall x,
  Go.allDigits s = true -> 0 <= x <= 2 ^ 63 ->
  Go.leadingInt x (s ++ "s") =
    if Go.decimalFrom x s <=? 2 ^ 63 then Some (Go.decimalFrom x s, "s") else None.
Proof.
  induction s as [|c r IH]; intros x Hs Hx.
  - change ("" ++ "s") with "s". cbn [Go.decimalFrom].
    destruct (Z.leb_spec x (2 ^ 63)); [reflexivity | lia].
  - cbn [Go.allDigits] in Hs. apply andb_true_iff in Hs as [Hc Hr].
    pose proof (isDigit_digitVal c Hc) as Hd.
    change (String c r ++ "s") with (String c (r ++ "s")).
    cbn [Go.leadingInt Go.decimalFrom]. rewrite Hc.
    pose proof (decimalFrom_ge r (10 * x + Go.digitVal c) Hr ltac:(lia)) as Hge.
    replace (2 ^ 63 / 10) with 922337203685477580 by reflexivity.
    replace (2 ^ 63) with 9223372036854775808 in * by reflexivity.
    destruct (Z.ltb_spec 922337203685477580 x).
    + destruct (Z.leb_spec (Go.decimalFrom (10 * x + Go.digitVal c) r)
                           9223372036854775808); [lia | reflexivity].
    + destruct (Z.ltb_spec 9223372036854775808 (10 * x + Go.digitVal c)).
      * destruct (Z.leb_spec (Go.decimalFrom (10 * x + Go.digitVal c) r)
                             9223372036854775808); [lia | reflexivity].
      * replace 9223372036854775808 with (2 ^ 63) by reflexivity.
        apply IH; [assumption|]. replace (2 ^ 63) with 9223372036854775808 by reflexivity.
        lia.
Qed.

Lemma append_unit_not_empty (r : string) : String.eqb (r ++ "s") "" = false.
Proof. destruct r; reflexivity. Qed.

Lemma length_append_unit (r : string) :
  String.length (r ++ "s") = S (String.length r).
Proof.
  induction r as [|c r IH]; [reflexivity|].
  change (String c r ++ "s") with (String c (r ++ "s")).
  cbn [String.length]. now rewrite IH.
Qed.

Lemma parseComponent_seconds (N : Z) :
  0 <= N ->
  Go.parseComponent N true "s" =
    if N <=? 9223372036 then Some (N * 10 ^ 9, "") else None.
Proof.
  intros HN.
  assert (Go.parseComponent N true "s" =
          if 9223372036 <? N then None else Some (N * 1000000000, "")) as ->
    by reflexivity.
  replace (10 ^ 9) with 1000000000 by reflexivity.
  destruct (Z.ltb_spec 9223372036 N), (Z.leb_spec N 9223372036); try lia; reflexivity.
Qed.

(** [time.ParseDuration] on a number of seconds written with digits only. *)
Lemma ParseDuration_seconds (s : string) :
  s <> "" -> Go.allDigits s = true ->
  Go.ParseDuration (s ++ "s") =
    if Go.decimalValue s <=? 9223372036
    then Some (Go.decimalValue s * 10 ^ 9) else None.
Proof.
  intros Hne Hs. destruct s as [|c r]; [congruence|].
  pose proof Hs as Hs'. cbn [Go.allDigits] in Hs'.
  apply andb_true_iff in Hs' as [Hc Hr].
  unfold Go.ParseDuration. change (String c r ++ "s") with (String c (r ++ "s")).
  rewrite (stripSign_digit c _ Hc).
  assert (String.eqb (String c (r ++ "s")) "0" = false) as ->.
  { cbn [String.eqb]. destruct (Ascii.eqb c "0"); [|reflexivity].
    destruct r; reflexivity. }
  cbn [Go.parseComponents String.length]. rewrite (isDigit_not_point c Hc).
  change (String c (r ++ "s")) with (String c r ++ "s").
  rewrite (leadingInt_digits (String c r) 0 Hs) by (split; [lia | discriminate]).
  fold (Go.decimalValue (String c r)). set (N := Go.decimalValue (String c r)).
  assert (HN : 0 <= N) by (apply (decimalFrom_ge (String c r) 0 Hs); lia).
  destruct (Z.leb_spec N (2 ^ 63)) as [H63|H63].
  2:{ destruct (Z.leb_spec N 9223372036); [|reflexivity].
      replace (2 ^ 63) with 9223372036854775808 in H63 by reflexivity. lia. }
  assert (Go.lenEq (String c r ++ "s") "s" = false) as ->.
  { unfold Go.lenEq. rewrite length_append_unit. reflexivity. }
  cbn [negb]. rewrite (parseComponent_seconds N HN).
  destruct (Z.leb_spec N 9223372036) as [Hle|Hgt]; [|reflexivity].
  idtac.
  unfold Go.uint. rewrite Z.add_0_l.
  replace (10 ^ 9) with 1000000000 by reflexivity.
  replace (2 ^ 64) with 18446744073709551616 by reflexivity.
  replace (2 ^ 63) with 9223372036854775808 by reflexivity.
  rewrite Z.mod_small by lia.
  destruct (Z.ltb_spec 9223372036854775808 (N * 1000000000)); [lia|].
  destruct (Z.ltb_spec (9223372036854775808 - 1) (N * 1000000000)); [lia|].
  reflexivity.
Qed.

Lemma digitVal_digitChar (d : Z) :
  0 <= d <= 9 -> Go.digitVal (Go.digitChar d) = d.
Proof.
  intros Hd. unfold Go.digitVal, Go.digitChar.
  rewrite N_ascii_embedding by lia. lia.
Qed.

Lemma isDigit_digitChar (d : Z) :
  0 <= d <= 9 -> Go.isDigit (Go.digitChar d) = true.
Proof.
  intros Hd. unfold Go.isDigit, Go.digitChar.
  rewrite N_ascii_embedding by lia.
  apply andb_true_iff. split; apply N.leb_le; lia.
Qed.

Lemma decimalFrom_shift (s : string) : forall x,
  Go.decimalFrom x s = x * 10 ^ Z.of_nat (String.length s) + Go.decimalFrom 0 s.
Proof.
  induction s as [|c r IH]; intros x.
  - cbn [Go.decimalFrom String.length Z.of_nat]. change (10 ^ 0) with 1. lia.
  - cbn [Go.decimalFrom String.length]. rewrite IH, (IH (10 * 0 + Go.digitVal c)).
    rewrite Nat2Z.inj_succ, Z.pow_succ_r by lia. ring.
Qed.

Lemma fmtDigits_value (fuel : nat) : forall n acc,
  0 <= n < 10 ^ Z.of_nat fuel ->
  Go.decimalValue (Go.fmtDigits fuel n acc) =
    n * 10 ^ Z.of_nat (String.length acc) + Go.decimalValue acc.
Proof.
  unfold Go.decimalValue.
  induction fuel as [|f IH]; intros n acc Hn.
  - cbn [Go.fmtDigits]. change (10 ^ Z.of_nat 0) with 1 in Hn.
    replace n with 0 by lia. lia.
  - cbn [Go.fmtDigits].
    pose proof (Z.mod_pos_bound n 10 ltac:(lia)) as Hm.
    pose proof (Z.div_mod n 10 ltac:(lia)) as Hdm.
    destruct (Z.ltb_spec n 10) as [Hlt|Hge].
    + cbn [Go.decimalFrom]. rewrite decimalFrom_shift.
      rewrite digitVal_digitChar by lia. rewrite Z.mod_small by lia. ring.
    + rewrite IH.
      * cbn [Go.decimalFrom String.length].
        rewrite (decimalFrom_shift acc (10 * 0 + _)).
        rewrite digitVal_digitChar by lia.
        rewrite Nat2Z.inj_succ, Z.pow_succ_r by lia.
        set (P := 10 ^ Z.of_nat (String.length acc)).
        set (V := Go.decimalFrom 0 acc).
        replace (n `div` 10 * (10 * P) + ((10 * 0 + n `mod` 10) * P + V))
          with ((10 * (n `div` 10) + n `mod` 10) * P + V) by ring.
        now rewrite <- Hdm.
      * rewrite Nat2Z.inj_succ, Z.pow_succ_r in Hn by lia.
        split; [apply Z.div_pos; lia|]. apply Z.div_lt_upper_bound; lia.
Qed.

Lemma lt_pow10_log2 (n : Z) : 0 <= n -> n < 10 ^ Z.of_nat (S (Z.to_nat (Z.log2 n))).
Proof.
  intros Hn. pose proof (Z.log2_nonneg n) as Hl.
  rewrite Nat2Z.inj_succ, Z2Nat.id by assumption.
  destruct (Z.eq_dec n 0) as [->|Hnz]; [reflexivity|].
  pose proof (Z.log2_spec n ltac:(lia)) as [_ Hlt].
  eapply Z.lt_le_trans; [exact Hlt|].
  apply Z.pow_le_mono_l. lia.
Qed.

(** The digits written by [fmt.Sprintf("%d", n)] denote [n]. *)
Lemma decimalValue_FormatInt (n : Z) :
  0 <= n -> Go.decimalValue (Go.FormatInt n) = n.
Proof.
  intros Hn. unfold Go.FormatInt.
  destruct (Z.ltb_spec n 0); [lia|].
  rewrite fmtDigits_value by (split; [assumption | now apply lt_pow10_log2]).
  cbn. lia.
Qed.

Lemma fmtDigits_allDigits (fuel : nat) : forall n acc,
  0 <= n -> Go.allDigits acc = true -> Go.allDigits (Go.fmtDigits fuel n acc) = true.
Proof.
  induction fuel as [|f IH]; intros n acc Hn Hacc; [exact Hacc|].
  cbn [Go.fmtDigits].
  pose proof (Z.mod_pos_bound n 10 ltac:(lia)) as Hm.
  assert (Go.allDigits (String (Go.digitChar (n mod 10)) acc) = true) as H'
    by (cbn [Go.allDigits]; rewrite isDigit_digitChar by lia; exact Hacc).
  destruct (n <? 10); [exact H'|].
  apply IH; [apply Z.div_pos; lia | exact H'].
Qed.

Lemma allDigits_FormatInt (n : Z) :
  0 <= n -> Go.allDigits (Go.FormatInt n) = true.
Proof.
  intros Hn. unfold Go.FormatInt. destruct (Z.ltb_spec n 0); [lia|].
  now apply fmtDigits_allDigits.
Qed.

End GoFacts.

(** ** Checks *)

Module CheckFacts.
Import Check CheckSpec GoFacts.

Lemma validate_cases (c : Check.CheckBundle) :
  Check.Validate c =
    match Check.Metrics c, Check.MetricFilters c with
    | _ :: _, _ :: _ => Err Check.ErrMetricsAndMetricFilters
    | [], [] => Err Check.ErrNoMetricsNoMetricFilters
    | _, _ =>
        if Check.timeoutExceedsPeriod c
        then Err (Check.ErrTimeoutExceedsPeriod (Check.Timeout c) (Check.Period c))
        else if String.eqb (Check.Type_ c) Check.apiCheckTypeCloudWatchAttr then
          if negb ((Check.Period c =? 60) || (Check.Period c =? 300))
          then Err Check.ErrCloudWatchPeriod else Ok tt
        else if String.eqb (Check.Type_ c) Check.apiCheckTypeConsulAttr then
          match Check.Config c !! Check.config.URL with
          | Some v => if String.eqb v "" then Err Check.ErrConsulMode else Ok tt
          | None => Err Check.ErrConsulMode
          end
        else Ok tt
    end.
Proof.
  unfold Check.Validate.
  destruct (Check.Metrics c), (Check.MetricFilters c); reflexivity.
Qed.

(** C2: [Validate] returns the both-set error when the metrics and the
    metric filters of a bundle are both non-empty, the neither-set error
    when both are empty, and neither of the two errors when exactly one of
    the lists is non-empty. *)
Theorem validate_metrics_xor_metric_filters (c : Check.CheckBundle) :
  (Check.Metrics c <> [] -> Check.MetricFilters c <> [] ->
   Check.Validate c = Err Check.ErrMetricsAndMetricFilters) /\
  (Check.Metrics c = [] -> Check.MetricFilters c = [] ->
   Check.Validate c = Err Check.ErrNoMetricsNoMetricFilters) /\
  ((Check.Metrics c = [] <-> Check.MetricFilters c <> []) ->
   Check.Validate c <> Err Check.ErrMetricsAndMetricFilters /\
   Check.Validate c <> Err Check.ErrNoMetricsNoMetricFilters).
Proof.
  rewrite validate_cases.
  destruct (Check.Metrics c) as [|m ms], (Check.MetricFilters c) as [|f fs].
  - split; [congruence|]. split; [reflexivity|].
    intros [H _]. exfalso. now apply H.
  - split; [congruence|]. split; [congruence|]. intros _.
    split; repeat case_match; discriminate.
  - split; [congruence|]. split; [congruence|]. intros _.
    split; repeat case_match; discriminate.
  - split; [reflexivity|]. split; [congruence|].
    intros [_ H]. exfalso. assert (m :: ms = []) by now apply H. discriminate.
Qed.

Lemma timeoutExceedsPeriod_iff (c : Check.CheckBundle) :
  0 <= Check.Period c < 2 ^ 24 ->
  Check.timeoutExceedsPeriod c = true <-> (inject_Z (Check.Period c) < Check.Timeout c)%Q.
Proof.
  intros Hp. unfold Check.timeoutExceedsPeriod.
  rewrite negb_true_iff, <- not_true_iff_false, Qle_bool_iff.
  rewrite (float32_small_int _ Hp).
  split; [apply Qnot_le_lt | apply Qlt_not_le].
Qed.

Lemma checkConfigToAPIHTTP_core c l c' :
  checkConfigToAPIHTTP c l = Ok c' -> sameCore c c' /\ Type_ c' = apiCheckTypeHTTP.
Proof.
  unfold checkConfigToAPIHTTP. destruct l as [|h l]; [discriminate|].
  destruct (checkHTTPURLAttr h); intros [= <-]; repeat split.
Qed.

Lemma checkConfigToAPI_total c d :
  exists c', checkConfigToAPI c d = Ok c' /\ sameCore c c' /\
             (Type_ c' = Type_ c \/ Type_ c' = apiCheckTypeHTTP).
Proof.
  unfold checkConfigToAPI. destruct (checkHTTPAttr d) as [|h l]; cbn [GetOkList].
  - exists c. repeat split. now left.
  - destruct (checkConfigToAPIHTTP c (h :: l)) as [c'|e] eqn:E.
    + exists c'. split; [reflexivity|]. apply checkConfigToAPIHTTP_core in E as [? ?].
      split; [assumption | now right].
    + exfalso. unfold checkConfigToAPIHTTP in E. destruct (checkHTTPURLAttr h); discriminate.
Qed.

Lemma Fixup_core c : sameCore c (Fixup c) /\ Type_ (Fixup c) = Type_ c.
Proof.
  unfold Fixup. repeat case_match; repeat split.
Qed.

Lemma sameCore_trans a b c : sameCore a b -> sameCore b c -> sameCore a c.
Proof. unfold sameCore. intuition congruence. Qed.

Lemma timeoutExceedsPeriod_core c c' :
  sameCore c c' -> timeoutExceedsPeriod c' = timeoutExceedsPeriod c.
Proof.
  intros (_ & _ & Hp & Ht). unfold timeoutExceedsPeriod. now rewrite Hp, Ht.
Qed.

Lemma Validate_timeout_error c :
  (Metrics c = [] <-> MetricFilters c <> []) ->
  timeoutExceedsPeriod c = true ->
  Validate c = Err (ErrTimeoutExceedsPeriod (Timeout c) (Period c)).
Proof.
  intros Hx Ht. rewrite validate_cases, Ht.
  destruct (Metrics c), (MetricFilters c); try reflexivity.
  - exfalso. now apply Hx.
  - exfalso. destruct Hx as [_ Hx]. discriminate Hx. discriminate.
Qed.

Lemma Validate_ok c :
  (Metrics c = [] <-> MetricFilters c <> []) ->
  timeoutExceedsPeriod c = false ->
  Type_ c = "" \/ Type_ c = apiCheckTypeHTTP ->
  Validate c = Ok tt.
Proof.
  intros Hx Ht Hty. rewrite validate_cases, Ht.
  assert (String.eqb (Type_ c) apiCheckTypeCloudWatchAttr = false) as ->
    by (destruct Hty as [-> | ->]; reflexivity).
  assert (String.eqb (Type_ c) apiCheckTypeConsulAttr = false) as ->
    by (destruct Hty as [-> | ->]; reflexivity).
  destruct (Metrics c), (MetricFilters c); try reflexivity.
  - exfalso. now apply Hx.
  - exfalso. destruct Hx as [_ Hx]. discriminate Hx. discriminate.
Qed.

Lemma Validate_timeout_inv c t p :
  Validate c = Err (ErrTimeoutExceedsPeriod t p) -> timeoutExceedsPeriod c = true.
Proof.
  rewrite validate_cases.
  destruct (timeoutExceedsPeriod c); [reflexivity|].
  repeat case_match; discriminate.
Qed.

(** The bundle [ParseConfig] hands to [Validate], whenever period and
    timeout parse. *)
Lemma ParseConfig_validated c d period timeout :
  parsePeriod c d = Ok period -> parseTimeout c d = Ok timeout ->
  exists c',
    ParseConfig c d = (let* _ := Validate c' in Ok c') /\
    Metrics c' = match GetOkList (checkMetricAttr d) with
                 | Some l => map ParseConfigMap l
                 | None => []
                 end /\
    MetricFilters c' = match GetOkList (checkMetricFilterAttr d) with
                       | Some l => map metricFilterToAPI l
                       | None => MetricFilters c
                       end /\
    Period c' = period /\ Timeout c' = timeout /\
    (Type_ c' = Type_ c \/ Type_ c' = apiCheckTypeHTTP).
Proof.
  intros Hp Ht. unfold ParseConfig. rewrite Hp, Ht. cbn [rbind].
  match goal with |- context [checkConfigToAPI ?C d] =>
    destruct (checkConfigToAPI_total C d) as (c1 & E & Hcore & Hty); rewrite E
  end.
  cbn [rbind]. exists (Fixup c1). split; [reflexivity|].
  destruct (Fixup_core c1) as [Hcore' Hty'].
  destruct (sameCore_trans _ _ _ Hcore Hcore') as (Hm & Hf & Hpe & Hti).
  rewrite Hm, Hf, Hpe, Hti, Hty'. repeat split; first [reflexivity | exact Hty].
Qed.

Lemma xor_config_bundle d c' :
  (checkMetricAttr d = [] <-> checkMetricFilterAttr d <> []) ->
  Metrics c' = match GetOkList (checkMetricAttr d) with
               | Some l => map ParseConfigMap l
               | None => []
               end ->
  MetricFilters c' = match GetOkList (checkMetricFilterAttr d) with
                     | Some l => map metricFilterToAPI l
                     | None => []
                     end ->
  (Metrics c' = [] <-> MetricFilters c' <> []).
Proof.
  intros Hx -> ->.
  destruct (checkMetricAttr d) as [|m ms], (checkMetricFilterAttr d) as [|f fs];
    cbn [GetOkList map].
  - exfalso. now apply Hx.
  - split; [discriminate | reflexivity].
  - split; [discriminate | intros H; now contradiction H].
  - exfalso. destruct Hx as [_ Hx]. discriminate Hx. discriminate.
Qed.

(** C3: for a bundle that passes the rule on metrics and metric filters,
    whose period is below 2^24 seconds (where its conversion to [float32] is
    exact), [Validate] ends with the timeout-exceeds-period error exactly
    when the timeout is greater than the period. A check configured with
    period 60s and timeout 90s makes [ParseConfig] fail with that error, and
    the same check with timeout 30s is accepted. *)
Theorem validate_timeout_exceeds_period :
  (forall c, (Metrics c = [] <-> MetricFilters c <> []) ->
     0 <= Period c < 2 ^ 24 ->
     ((exists t p, Validate c = Err (ErrTimeoutExceedsPeriod t p)) <->
      (inject_Z (Period c) < Timeout c)%Q)) /\
  (forall d, checkPeriodAttr d = "60s" -> checkTimeoutAttr d = "90s" ->
     (checkMetricAttr d = [] <-> checkMetricFilterAttr d <> []) ->
     ParseConfig newCheck d = Err (ErrTimeoutExceedsPeriod 90 60)) /\
  (forall d, checkPeriodAttr d = "60s" -> checkTimeoutAttr d = "30s" ->
     (checkMetricAttr d = [] <-> checkMetricFilterAttr d <> []) ->
     exists c, ParseConfig newCheck d = Ok c /\ Period c = 60 /\ Timeout c = 30%Q).
Proof.
  split; [|split].
  - intros c Hx Hp. rewrite <- (timeoutExceedsPeriod_iff c Hp). split.
    + intros (t & p & H). eapply Validate_timeout_inv; eassumption.
    + intros H. eexists _, _. apply Validate_timeout_error; assumption.
  - intros d Hp Ht Hx.
    assert (Ep : parsePeriod newCheck d = Ok 60)
      by (unfold parsePeriod; rewrite Hp; vm_compute; reflexivity).
    assert (Et : parseTimeout newCheck d = Ok 90%Q)
      by (unfold parseTimeout; rewrite Ht; vm_compute; reflexivity).
    destruct (ParseConfig_validated _ _ _ _ Ep Et)
      as (c' & -> & Hm & Hf & Hpe & Hti & Hty).
    rewrite Validate_timeout_error.
    + cbn [rbind]. now rewrite Hpe, Hti.
    + eapply xor_config_bundle; eauto.
    + unfold timeoutExceedsPeriod. rewrite Hpe, Hti. vm_compute. reflexivity.
  - intros d Hp Ht Hx.
    assert (Ep : parsePeriod newCheck d = Ok 60)
      by (unfold parsePeriod; rewrite Hp; vm_compute; reflexivity).
    assert (Et : parseTimeout newCheck d = Ok 30%Q)
      by (unfold parseTimeout; rewrite Ht; vm_compute; reflexivity).
    destruct (ParseConfig_validated _ _ _ _ Ep Et)
      as (c' & -> & Hm & Hf & Hpe & Hti & Hty).
    rewrite Validate_ok.
    + cbn [rbind]. eauto.
    + eapply xor_config_bundle; eauto.
    + unfold timeoutExceedsPeriod. rewrite Hpe, Hti. vm_compute. reflexivity.
    + exact Hty.
Qed.

Lemma collectHeaders_swamp (cfg swamp : gmap string string) :
  forall k, snd (collectHeaders cfg swamp) !! k =
    match cfg !! k with
    | Some _ => if long k then None else swamp !! k
    | None => swamp !! k
    end.
Proof.
  unfold collectHeaders.
  apply (map_fold_weak_ind
    (fun (r : gmap string string * gmap string string) (m : gmap string string) =>
       forall k, snd r !! k =
         match m !! k with
         | Some _ => if long k then None else swamp !! k
         | None => swamp !! k
         end)).
  - intros k. now rewrite lookup_empty.
  - intros i x m r Hi IH k.
    destruct (Nat.leb_spec (String.length i) headerPrefixLen) as [Hshort|Hlong].
    + rewrite IH. destruct (decide (k = i)) as [->|Hne].
      * rewrite lookup_insert_eq, Hi.
        assert (long i = false) as -> by (apply Nat.ltb_ge; lia).
        reflexivity.
      * now rewrite lookup_insert_ne by congruence.
    + cbn [snd]. destruct (decide (k = i)) as [->|Hne].
      * rewrite lookup_delete_eq, lookup_insert_eq.
        assert (long i = true) as -> by (apply Nat.ltb_lt; lia).
        reflexivity.
      * rewrite lookup_delete_ne by congruence.
        rewrite lookup_insert_ne by congruence. apply IH.
Qed.

Lemma saveInt_swamp cfg apiKey swamp k :
  long apiKey = true -> (forall k, long k = true -> swamp !! k = None) ->
  snd (saveIntConfigToState cfg apiKey swamp) !! k = swamp !! k.
Proof.
  intros Hl Hs. unfold saveIntConfigToState.
  destruct (cfg !! apiKey) as [v|]; [destruct (Go.Atoi v)|]; cbn [snd]; try reflexivity.
  all: destruct (decide (k = apiKey)) as [->|Hne];
    [rewrite lookup_delete_eq; symmetry; now apply Hs
    | now rewrite lookup_delete_ne by congruence].
Qed.

(** What is left in the swamp: the keys of [c.Config] that are neither saved
    by name nor longer than the header prefix. *)
Lemma swampHTTP_lookup (cfg : gmap string string) (k : string) :
  swampHTTP cfg !! k = if consumed k then None else cfg !! k.
Proof.
  unfold swampHTTP.
  destruct (collectHeaders cfg _) as [headers swamp1] eqn:E1.
  pose proof (collectHeaders_swamp cfg
    (delete config.Extract (delete config.Code (delete config.Ciphers
      (delete config.CertFile (delete config.CAChain (delete config.Body
        (delete config.AuthUser (delete config.AuthPassword
          (delete config.AuthMethod cfg)))))))))) as Hh.
  rewrite E1 in Hh. cbn [snd] in Hh.
  assert (Hlong : forall k, long k = true -> (delete config.Payload
            (delete config.Method (delete config.KeyFile swamp1))) !! k = None).
  { intros k' Hk'. rewrite !lookup_delete. repeat case_decide; try reflexivity.
    rewrite Hh, Hk'. destruct (cfg !! k') eqn:Ec; [reflexivity|].
    rewrite !lookup_delete. repeat case_decide; try reflexivity. exact Ec. }
  destruct (saveIntConfigToState cfg config.ReadLimit _) as [readLimit swamp2] eqn:E2.
  pose proof (fun k => saveInt_swamp cfg config.ReadLimit _ k eq_refl Hlong) as Hs.
  rewrite E2 in Hs. cbn [snd] in Hs.
  rewrite !lookup_delete. rewrite Hs, !lookup_delete, Hh, !lookup_delete.
  unfold consumed. fold (long k). unfold savedKeys. cbn [existsb].
  repeat case_decide; subst; try reflexivity;
    try (destruct (cfg !! _); reflexivity).
  all: repeat match goal with
       | H : ?a <> ?b |- context [String.eqb ?b' ?a] =>
           lazymatch b' with b =>
             rewrite (proj2 (String.eqb_neq b a)) by congruence end
       end.
  all: cbn [orb]; destruct (String.eqb_spec k config.ReadLimit) as [->|_];
    [destruct (cfg !! _); reflexivity|].
  all: destruct (long k), (cfg !! k); reflexivity.
Qed.

Lemma whitelisted_long k : whitelisted k = true -> long k = true.
Proof.
  unfold whitelisted, whitelistedConfigKeys. cbn [existsb].
  destruct (String.eqb_spec k config.ReverseSecretKey) as [->|_]; [reflexivity|].
  destruct (String.eqb_spec k config.SubmissionURL) as [->|_]; [reflexivity|].
  discriminate.
Qed.

Lemma drainFold_cases (cfg : gmap string string) (e : error) :
  forall m : gmap string string,
    (fun (r : result error (gmap string string)) (m : gmap string string) =>
       (forall k, is_Some (m !! k) -> whitelisted k = false) ->
       r = if decide (m = ∅) then Ok cfg else Err e)
    (map_fold
       (fun k (_ : string) (acc : result error (gmap string string)) =>
          match acc with
          | Err e' => Err e'
          | Ok cfg' => if whitelisted k then Ok (delete k cfg') else Err e
          end)
       (Ok cfg) m) m.
Proof.
  apply map_fold_weak_ind.
  - intros _. now rewrite decide_True.
  - intros i x m r Hi IH Hw.
    rewrite decide_False by apply insert_non_empty.
    rewrite IH.
    + rewrite (Hw i) by (rewrite lookup_insert_eq; eauto).
      now destruct (decide (m = ∅)).
    + intros k Hk. apply Hw. destruct (decide (k = i)) as [->|Hne].
      * rewrite lookup_insert_eq. eauto.
      * now rewrite lookup_insert_ne by congruence.
Qed.

Lemma drainSwamp_cases (cfg swamp : gmap string string) :
  (forall k, is_Some (swamp !! k) -> whitelisted k = false) ->
  drainSwamp cfg swamp =
    if decide (swamp = ∅) then Ok cfg
    else Err (ErrProviderBugConfigNotEmpty swamp).
Proof. apply (drainFold_cases cfg (ErrProviderBugConfigNotEmpty swamp) swamp). Qed.

Lemma swampHTTP_not_whitelisted cfg k :
  is_Some (swampHTTP cfg !! k) -> whitelisted k = false.
Proof.
  rewrite swampHTTP_lookup. unfold consumed. fold (long k).
  destruct (whitelisted k) eqn:E; [|reflexivity].
  rewrite (whitelisted_long k E), orb_true_r. intros [? ?]. discriminate.
Qed.

Lemma checkAPIToStateHTTP_swamp (c : CheckBundle) :
  exists block,
    checkAPIToStateHTTP c =
      let* cfg' := drainSwamp (Config c) (swampHTTP (Config c)) in
      Ok (withConfig cfg' c, block).
Proof.
  unfold checkAPIToStateHTTP, swampHTTP.
  destruct (collectHeaders _ _) as [headers swamp1].
  destruct (saveIntConfigToState _ _ _) as [readLimit swamp2].
  eexists. reflexivity.
Qed.

Lemma withConfig_same c : withConfig (Config c) c = c.
Proof. now destruct c. Qed.

Lemma checkAPIToStateHTTP_cases (c : CheckBundle) :
  exists block,
    checkAPIToStateHTTP c =
      if decide (swampHTTP (Config c) = ∅) then Ok (c, block)
      else Err (ErrProviderBugConfigNotEmpty (swampHTTP (Config c))).
Proof.
  destruct (checkAPIToStateHTTP_swamp c) as [block ->]. exists block.
  rewrite drainSwamp_cases by apply swampHTTP_not_whitelisted.
  destruct (decide _); cbn [rbind]; [now rewrite withConfig_same | reflexivity].
Qed.

(** C7: [checkAPIToStateHTTP] accepts a configuration map with a key it has
    no attribute for, and leaves a whitelisted key in the map. It fails
    exactly when the map holds a key that is neither saved by name nor
    longer than the header prefix, and it never changes the map. *)
Theorem http_unknown_key_is_not_reported :
  (exists block, checkAPIToStateHTTP unknownKeyCheck = Ok (unknownKeyCheck, block)) /\
  (exists block, checkAPIToStateHTTP submissionURLCheck = Ok (submissionURLCheck, block)) /\
  isErr (checkAPIToStateHTTP portCheck) = true /\
  (forall c, isErr (checkAPIToStateHTTP c) = true <->
     exists k, is_Some (Config c !! k) /\ consumed k = false) /\
  (forall c c' block, checkAPIToStateHTTP c = Ok (c', block) -> c' = c).
Proof.
  split; [|split; [|split; [|split]]].
  - eexists. vm_compute. reflexivity.
  - eexists. vm_compute. reflexivity.
  - vm_compute. reflexivity.
  - intros c. destruct (checkAPIToStateHTTP_cases c) as [block ->].
    destruct (decide (swampHTTP (Config c) = ∅)) as [He|Hne]; cbn [isErr].
    + split; [discriminate|]. intros (k & Hk & Hc).
      pose proof (swampHTTP_lookup (Config c) k) as H.
      rewrite He, lookup_empty, Hc in H. destruct Hk as [v Hk]. congruence.
    + split; [intros _|reflexivity].
      apply map_choose in Hne as (k & v & Hk). exists k.
      rewrite swampHTTP_lookup in Hk.
      destruct (consumed k); [discriminate|]. eauto.
  - intros c c' block H. destruct (checkAPIToStateHTTP_cases c) as [block' E].
    rewrite E in H. destruct (decide _); congruence.
Qed.

Lemma http_unknown_key_is_not_reported_witness :
  isErr (checkAPIToStateHTTP portCheck) = true /\
  match checkAPIToStateHTTP unknownKeyCheck with
  | Ok (c', _) => c' = unknownKeyCheck
  | Err _ => False
  end.
Proof.
  pose proof http_unknown_key_is_not_reported as (_ & _ & _ & H1 & H2).
  split.
  - apply (proj2 (H1 portCheck)). exists config.Port. split.
    + exists "8443". reflexivity.
    + reflexivity.
  - destruct (checkAPIToStateHTTP unknownKeyCheck) as [[c' block]|e] eqn:E.
    + apply (H2 _ _ _ E).
    + vm_compute in E. discriminate E.
Defined.

Lemma checkConfigToAPI_status c d c' :
  checkConfigToAPI c d = Ok c' ->
  Status c' = Status c /\ MetricLimit c' = MetricLimit c.
Proof.
  unfold checkConfigToAPI. destruct (GetOkList (checkHTTPAttr d)) as [l|].
  - unfold checkConfigToAPIHTTP. destruct l as [|h l]; [discriminate|].
    destruct (checkHTTPURLAttr h); intros [= <-]; split; reflexivity.
  - intros [= <-]. split; reflexivity.
Qed.

Lemma Fixup_status c :
  Status (Fixup c) = Status c /\ MetricLimit (Fixup c) = MetricLimit c.
Proof. unfold Fixup. repeat case_match; split; reflexivity. Qed.

(** An attribute at its zero value is not read: the bundle keeps the status
    and the metric limit it had. *)
Lemma ParseConfig_zero_values c d c' :
  ParseConfig c d = Ok c' ->
  (checkActiveAttr d = false -> Status c' = Status c) /\
  (checkMetricLimitAttr d = 0 -> MetricLimit c' = MetricLimit c).
Proof.
  unfold ParseConfig.
  destruct (parsePeriod c d) as [period|]; [|discriminate].
  destruct (parseTimeout c d) as [timeout|]; [|discriminate].
  cbn [rbind].
  match goal with |- context [checkConfigToAPI ?C d] =>
    destruct (checkConfigToAPI C d) as [c1|] eqn:E; [|discriminate]
  end.
  cbn [rbind]. destruct (Validate (Fixup c1)); [|discriminate].
  cbn [rbind]. intros [= <-].
  apply checkConfigToAPI_status in E as [Es El].
  destruct (Fixup_status c1) as [-> ->]. rewrite Es, El. cbn [Status MetricLimit].
  split; intros ->; reflexivity.
Qed.

(** C1: the round trip of a check configuration, from the attributes to the
    API bundle with [ParseConfig] and back to the attributes with the read
    mapper. A check with [active = true] and [metric_limit = -1] is read
    back as configured. A check configured with [active = false] is read
    back with [active = true], and one configured with [metric_limit = 0]
    with [metric_limit = -1]: [ParseConfig] keeps the status and the metric
    limit of the fresh bundle whenever the attribute has its zero value. *)
Theorem inactive_check_reads_back_active :
  (exists d, roundTrip (exampleCheck true (-1)) = Ok d /\
             configured d = configured (exampleCheck true (-1))) /\
  (exists d, roundTrip (exampleCheck false (-1)) = Ok d /\
             checkActiveAttr d = true) /\
  (exists d, roundTrip (exampleCheck true 0) = Ok d /\
             checkMetricLimitAttr d = -1) /\
  (forall d c, ParseConfig newCheck d = Ok c ->
     (checkActiveAttr d = false -> Status c = "active") /\
     (checkMetricLimitAttr d = 0 -> MetricLimit c = -1)).
Proof.
  split; [|split; [|split]].
  - eexists. split; vm_compute; reflexivity.
  - eexists. split; vm_compute; reflexivity.
  - eexists. split; vm_compute; reflexivity.
  - intros d c H. apply ParseConfig_zero_values in H. exact H.
Qed.

Lemma inactive_check_reads_back_active_witness :
  match ParseConfig newCheck (exampleCheck false 0) with
  | Ok c => Status c = "active" /\ MetricLimit c = -1
  | Err _ => False
  end.
Proof.
  destruct (ParseConfig newCheck (exampleCheck false 0)) as [c|e] eqn:E.
  - destruct (proj2 (proj2 (proj2 inactive_check_reads_back_active)) _ _ E)
      as [H1 H2].
    split; [apply H1 | apply H2]; reflexivity.
  - vm_compute in E. discriminate E.
Defined.

Lemma validate_metrics_xor_metric_filters_witness :
  Validate (exampleBundle [exampleMetric] [exampleFilter] 60 10)
    = Err ErrMetricsAndMetricFilters /\
  Validate (exampleBundle [] [] 60 10) = Err ErrNoMetricsNoMetricFilters /\
  (Validate (exampleBundle [exampleMetric] [] 60 10)
     <> Err ErrMetricsAndMetricFilters /\
   Validate (exampleBundle [exampleMetric] [] 60 10)
     <> Err ErrNoMetricsNoMetricFilters) /\
  (Validate (exampleBundle [] [exampleFilter] 60 10)
     <> Err ErrMetricsAndMetricFilters /\
   Validate (exampleBundle [] [exampleFilter] 60 10)
     <> Err ErrNoMetricsNoMetricFilters).
Proof.
  split; [|split; [|split]].
  - apply (proj1 (validate_metrics_xor_metric_filters _)); discriminate.
  - apply (proj1 (proj2 (validate_metrics_xor_metric_filters _))); reflexivity.
  - apply (proj2 (proj2 (validate_metrics_xor_metric_filters _))).
    split; [discriminate | intros H; now contradiction H].
  - apply (proj2 (proj2 (validate_metrics_xor_metric_filters _))).
    split; [discriminate | reflexivity].
Defined.

Lemma validate_timeout_exceeds_period_witness :
  ((exists t p, Validate (exampleBundle [exampleMetric] [] 60 90)
                = Err (ErrTimeoutExceedsPeriod t p)) <->
   (inject_Z 60 < 90)%Q) /\
  ((exists t p, Validate (exampleBundle [exampleMetric] [] 60 30)
                = Err (ErrTimeoutExceedsPeriod t p)) <->
   (inject_Z 60 < 30)%Q) /\
  ParseConfig newCheck (withTimeoutAttr "90s" (exampleCheck true (-1)))
    = Err (ErrTimeoutExceedsPeriod 90 60) /\
  exists c,
    ParseConfig newCheck (withTimeoutAttr "30s" (exampleCheck true (-1))) = Ok c /\
    Period c = 60 /\ Timeout c = 30%Q.
Proof.
  split; [|split; [|split]].
  - apply (proj1 validate_timeout_exceeds_period
             (exampleBundle [exampleMetric] [] 60 90)).
    + split; [discriminate | intros H; now contradiction H].
    + cbn. lia.
  - apply (proj1 validate_timeout_exceeds_period
             (exampleBundle [exampleMetric] [] 60 30)).
    + split; [discriminate | intros H; now contradiction H].
    + cbn. lia.
  - apply (proj1 (proj2 validate_timeout_exceeds_period)); try reflexivity.
    split; [discriminate | intros H; now contradiction H].
  - apply (proj2 (proj2 validate_timeout_exceeds_period)); try reflexivity.
    split; [discriminate | intros H; now contradiction H].
Defined.

End CheckFacts.

(** ** Graphs *)

Module GraphFacts.
Import Graph GraphSpec.

Lemma locatorCheck_nonneg m : 0 <= locatorCheck m.
Proof.
  unfold locatorCheck. repeat case_match; try lia.
  unfold Go.uint. apply Z.mod_pos_bound. reflexivity.
Qed.

Lemma axisToAPI_accepted attr v :
  axisAccepted (Some v) = true -> exists a, axisToAPI attr v = Ok a.
Proof.
  unfold axisAccepted, axisToAPI. intros H.
  destruct (String.eqb v "left"), (String.eqb v ""), (String.eqb v "right");
    cbn in *; eauto; discriminate.
Qed.

Lemma parseDatapoint_locator_error idx m :
  unpaired m = true \/ (1 < locatorCount m)%nat ->
  isErr (parseDatapoint idx m) = true.
Proof.
  intros H. unfold parseDatapoint.
  destruct (match graphMetricAxisAttr m with Some _ => _ | None => _ end) as [axis|e];
    [|reflexivity].
  cbn [rbind]. fold (isSet (locatorName m)) (isSet (locatorCAQL m)) (isSet (locatorSearch m)).
  pose proof (locatorCheck_nonneg m) as Hc.
  unfold unpaired, locatorCount in H.
  destruct (Z.eqb_spec (locatorCheck m) 0) as [Hz|Hz];
    destruct (Z.ltb_spec 0 (locatorCheck m)); try lia;
    destruct (isSet (locatorName m)), (isSet (locatorCAQL m)), (isSet (locatorSearch m));
    cbn in *; try reflexivity; destruct H as [H|H]; try discriminate; lia.
Qed.

Lemma parseDatapoint_locator_ok idx m :
  unpaired m = false -> (locatorCount m <= 1)%nat ->
  axisAccepted (graphMetricAxisAttr m) = true ->
  exists datapoint, parseDatapoint idx m = Ok datapoint /\ carriesLocatorOf m datapoint.
Proof.
  intros Hu Hn Ha. unfold parseDatapoint.
  assert (exists axis, match graphMetricAxisAttr m with
                       | Some v => axisToAPI "axis" v
                       | None => Ok ""
                       end = Ok axis) as [axis ->].
  { destruct (graphMetricAxisAttr m); [now apply axisToAPI_accepted | eauto]. }
  cbn [rbind]. fold (isSet (locatorName m)) (isSet (locatorCAQL m)) (isSet (locatorSearch m)).
  pose proof (locatorCheck_nonneg m) as Hc.
  unfold unpaired, locatorCount in Hu, Hn. unfold carriesLocatorOf, nonEmpty.
  unfold isSet in *.
  destruct (Z.eqb_spec (locatorCheck m) 0) as [Hz|Hz];
    destruct (Z.ltb_spec 0 (locatorCheck m)); try lia;
    destruct (String.eqb_spec (locatorName m) ""),
             (String.eqb_spec (locatorCAQL m) ""),
             (String.eqb_spec (locatorSearch m) "");
    cbn in *; try discriminate; try lia;
    eexists; (split; [reflexivity|]); cbn; repeat split; congruence.
Qed.

Lemma parseDatapoints_error m l : 
  (forall idx, isErr (parseDatapoint idx m) = true) -> In m l ->
  forall k, isErr (parseDatapoints k l) = true.
Proof.
  intros Hm. induction l as [|x l IH]; intros Hin k; [destruct Hin|].
  cbn [parseDatapoints]. destruct Hin as [-> | Hin].
  - specialize (Hm k). destruct (parseDatapoint k m); [discriminate | reflexivity].
  - destruct (parseDatapoint k x); [|reflexivity]. cbn [rbind].
    specialize (IH Hin (S k)). destruct (parseDatapoints (S k) l); [discriminate | reflexivity].
Qed.

Lemma ParseConfig_locator_error g d m :
  In m (graphMetricAttr d) ->
  unpaired m = true \/ (1 < locatorCount m)%nat ->
  isErr (ParseConfig g d) = true.
Proof.
  intros Hin Hbad. unfold ParseConfig.
  destruct (graphMetricAttr d) as [|x l] eqn:E; [destruct Hin|].
  cbn [GetOkList].
  pose proof (parseDatapoints_error m (x :: l)
                (fun idx => parseDatapoint_locator_error idx m Hbad) Hin 0%nat) as H.
  destruct (parseDatapoints 0 (x :: l)); [discriminate | reflexivity].
Qed.

Lemma parseDatapoint_fields idx m datapoint :
  parseDatapoint idx m = Ok datapoint ->
  MetricType datapoint = default "" (graphMetricMetricTypeAttr m) /\
  Derive_ datapoint =
    match nonEmpty (default "" (graphMetricFunctionAttr m)) with
    | Some s => DeriveString s
    | None => DeriveBool false
    end.
Proof.
  unfold parseDatapoint.
  destruct (match graphMetricAxisAttr m with Some _ => _ | None => _ end) as [axis|e];
    [|discriminate].
  cbn [rbind]. repeat case_match; intros [= <-]; split; reflexivity.
Qed.

Lemma ParseConfig_single_ok m :
  unpaired m = false -> (locatorCount m <= 1)%nat ->
  axisAccepted (graphMetricAxisAttr m) = true -> functionOnText m = false ->
  exists datapoint,
    ParseConfig newGraph
      {| Id := ""; graphMetricAttr := [m]; graphMetricClusterAttr := [] |}
    = Ok {| CID := ""; Datapoints := [datapoint]; MetricClusters := [] |}
    /\ carriesLocatorOf m datapoint.
Proof.
  intros Hu Hn Ha Hf.
  destruct (parseDatapoint_locator_ok 0 m Hu Hn Ha) as (dp & E & Hloc).
  exists dp. split; [|exact Hloc].
  unfold ParseConfig. cbn [GetOkList graphMetricAttr graphMetricClusterAttr parseDatapoints].
  rewrite E. cbn [rbind newGraph MetricClusters CID].
  unfold Validate. cbn [Datapoints MetricClusters forEach].
  destruct (parseDatapoint_fields 0 m dp E) as [Hty Hder].
  destruct Hloc as (Hc & Hname & _ & _).
  assert (validateDatapoint 0 dp = Ok tt) as ->.
  { unfold validateDatapoint. rewrite Hc, Hname, Hty, Hder.
    unfold unpaired, isSet in Hu. unfold functionOnText in Hf.
    pose proof (locatorCheck_nonneg m).
    destruct (Z.eqb_spec (locatorCheck m) 0), (Z.ltb_spec 0 (locatorCheck m)); try lia;
      destruct (String.eqb (locatorName m) ""); cbn in *; try discriminate;
      destruct (String.eqb (default "" (graphMetricMetricTypeAttr m)) ""%string);
      unfold nonEmpty;
      destruct (String.eqb (default "" (graphMetricMetricTypeAttr m)) "text");
      destruct (String.eqb (default "" (graphMetricFunctionAttr m)) "");
      cbn in *; try discriminate; reflexivity. }
  reflexivity.
Qed.

(** A [metric] block without any locator is accepted: the datapoint has no
    check, no metric name, no CAQL query and no search expression. *)
Lemma datapoint_without_locator_accepted :
  locatorCount metricWithoutLocator = 0%nat /\
  exists g,
    ParseConfig newGraph
      {| Id := ""; graphMetricAttr := [metricWithoutLocator];
         graphMetricClusterAttr := [] |} = Ok g /\
    exists datapoint,
      Datapoints g = [datapoint] /\ CheckID datapoint = 0 /\
      MetricName datapoint = "" /\ CAQL datapoint = None /\ Search datapoint = None.
Proof.
  split; [reflexivity|]. eexists. split; [vm_compute; reflexivity|].
  eexists. repeat split.
Qed.

(** C4, amended: [ParseConfig] fails when a [metric] block supplies more
    than one of the locators check with metric name, CAQL query and search
    expression, or supplies check and metric name one without the other; a
    block with at most one locator, check and metric name paired, passes the
    locator rule, and the datapoint carries the locator of the block. *)
Theorem datapoint_locator_at_most_one :
  (forall g d m, In m (graphMetricAttr d) ->
     unpaired m = true \/ (1 < locatorCount m)%nat ->
     isErr (ParseConfig g d) = true) /\
  (forall idx m, unpaired m = false -> (locatorCount m <= 1)%nat ->
     axisAccepted (graphMetricAxisAttr m) = true ->
     exists datapoint,
       parseDatapoint idx m = Ok datapoint /\ carriesLocatorOf m datapoint) /\
  (forall m, unpaired m = false -> (locatorCount m <= 1)%nat ->
     axisAccepted (graphMetricAxisAttr m) = true -> functionOnText m = false ->
     exists datapoint,
       ParseConfig newGraph
         {| Id := ""; graphMetricAttr := [m]; graphMetricClusterAttr := [] |}
       = Ok {| CID := ""; Datapoints := [datapoint]; MetricClusters := [] |}
       /\ carriesLocatorOf m datapoint).
Proof.
  split; [|split].
  - exact ParseConfig_locator_error.
  - exact parseDatapoint_locator_ok.
  - exact ParseConfig_single_ok.
Qed.

Lemma axisToState_left_right axis s :
  axisToState axis = Ok s -> s = "left" \/ s = "right".
Proof.
  unfold axisToState. repeat case_match; intros [= <-]; auto.
Qed.

Lemma parseDatapoint_axis idx m datapoint :
  parseDatapoint idx m = Ok datapoint ->
  match graphMetricAxisAttr m with
  | Some v => axisToAPI "axis" v = Ok (Axis datapoint)
  | None => Axis datapoint = ""
  end.
Proof.
  unfold parseDatapoint.
  destruct (graphMetricAxisAttr m) as [v|].
  - destruct (axisToAPI "axis" v) as [axis|e]; [|discriminate].
    cbn [rbind]. repeat case_match; intros [= <-]; reflexivity.
  - cbn [rbind]. repeat case_match; intros [= <-]; reflexivity.
Qed.

Lemma datapointToState_axis datapoint block :
  datapointToState datapoint = Ok block ->
  exists s, axisToState (Axis datapoint) = Ok s /\ graphMetricAxisAttr block = Some s.
Proof.
  unfold datapointToState.
  destruct (axisToState (Axis datapoint)) as [s|e]; [|discriminate].
  cbn [rbind]. destruct (Derive_ datapoint); cbn [rbind]; try discriminate;
    intros [= <-]; eauto.
Qed.

Lemma metricClusterToState_axis mc block :
  metricClusterToState mc = Ok block ->
  exists s, axisToState (ClusterAxis mc) = Ok s /\ graphMetricClusterAxisAttr block = Some s.
Proof.
  unfold metricClusterToState.
  destruct (axisToState (ClusterAxis mc)) as [s|e]; [|discriminate].
  cbn [rbind]. intros [= <-]; eauto.
Qed.

Lemma parseMetricCluster_axis b mc :
  parseMetricCluster b = Ok mc ->
  match graphMetricClusterAxisAttr b with
  | Some v => axisToAPI "axis" v = Ok (ClusterAxis mc)
  | None => ClusterAxis mc = ""
  end.
Proof.
  unfold parseMetricCluster.
  destruct (graphMetricClusterAxisAttr b) as [v|].
  - destruct (axisToAPI "axis" v) as [axis|e]; [|discriminate].
    cbn [rbind]. intros [= <-]; reflexivity.
  - cbn [rbind]. intros [= <-]; reflexivity.
Qed.

(** C9: the API-to-state mapping of an axis sends [l] and the empty string
    to [left] and [r] to [right], and any other value to the
    unsupported-axis error; the state-to-API mapping sends [left] and the
    empty string to [l] and [right] to [r]. The state mappers of datapoints
    and metric clusters write one of the words [left] and [right], and the
    configuration mappers store the letter. *)
Theorem axis_letter_and_word :
  (* API to state *)
  (axisToState "l" = Ok "left" /\ axisToState "" = Ok "left" /\
   axisToState "r" = Ok "right") /\
  (forall axis, axis <> "l" -> axis <> "" -> axis <> "r" ->
     axisToState axis = Err (ErrUnsupportedAxisType axis)) /\
  (* state to API *)
  (forall attr, axisToAPI attr "left" = Ok "l" /\ axisToAPI attr "" = Ok "l" /\
                axisToAPI attr "right" = Ok "r") /\
  (* the two mappers of datapoints and metric clusters apply them *)
  (forall datapoint block, datapointToState datapoint = Ok block ->
     exists s, axisToState (Axis datapoint) = Ok s /\
               graphMetricAxisAttr block = Some s /\ (s = "left" \/ s = "right")) /\
  (forall mc block, metricClusterToState mc = Ok block ->
     exists s, axisToState (ClusterAxis mc) = Ok s /\
               graphMetricClusterAxisAttr block = Some s /\
               (s = "left" \/ s = "right")) /\
  (forall idx m datapoint v, parseDatapoint idx m = Ok datapoint ->
     graphMetricAxisAttr m = Some v -> axisToAPI "axis" v = Ok (Axis datapoint)) /\
  (forall b mc v, parseMetricCluster b = Ok mc ->
     graphMetricClusterAxisAttr b = Some v -> axisToAPI "axis" v = Ok (ClusterAxis mc)).
Proof.
  split; [repeat split|]. split.
  { intros axis H1 H2 H3. unfold axisToState.
    destruct (String.eqb_spec axis "l"); [contradiction|].
    destruct (String.eqb_spec axis ""); [contradiction|].
    destruct (String.eqb_spec axis "r"); [contradiction|]. reflexivity. }
  split; [intros attr; repeat split|]. split.
  { intros datapoint block H. apply datapointToState_axis in H as (s & Hs & Hb).
    exists s. repeat split; try assumption. eapply axisToState_left_right; eassumption. }
  split.
  { intros mc block H. apply metricClusterToState_axis in H as (s & Hs & Hb).
    exists s. repeat split; try assumption. eapply axisToState_left_right; eassumption. }
  split.
  - intros idx m datapoint v H Hv. apply parseDatapoint_axis in H. now rewrite Hv in H.
  - intros b mc v H Hv. apply parseMetricCluster_axis in H. now rewrite Hv in H.
Qed.

Lemma datapoint_locator_at_most_one_witness :
  isErr (ParseConfig newGraph (oneMetric metricByCAQLAndSearch)) = true /\
  isErr (ParseConfig newGraph (oneMetric metricByCheckAlone)) = true /\
  (exists datapoint,
     parseDatapoint 0 metricByCheck = Ok datapoint /\
     carriesLocatorOf metricByCheck datapoint) /\
  (exists datapoint,
     ParseConfig newGraph (oneMetric metricByCAQL)
       = Ok {| CID := ""; Datapoints := [datapoint]; MetricClusters := [] |} /\
     carriesLocatorOf metricByCAQL datapoint) /\
  (exists datapoint,
     ParseConfig newGraph (oneMetric metricWithoutLocator)
       = Ok {| CID := ""; Datapoints := [datapoint]; MetricClusters := [] |} /\
     carriesLocatorOf metricWithoutLocator datapoint).
Proof.
  split; [|split; [|split; [|split]]].
  - apply (proj1 datapoint_locator_at_most_one newGraph
             (oneMetric metricByCAQLAndSearch) metricByCAQLAndSearch).
    + left. reflexivity.
    + right. vm_compute. lia.
  - apply (proj1 datapoint_locator_at_most_one newGraph
             (oneMetric metricByCheckAlone) metricByCheckAlone).
    + left. reflexivity.
    + left. reflexivity.
  - apply (proj1 (proj2 datapoint_locator_at_most_one) 0%nat metricByCheck).
    + reflexivity.
    + vm_compute. lia.
    + reflexivity.
  - apply (proj2 (proj2 datapoint_locator_at_most_one) metricByCAQL).
    + reflexivity.
    + vm_compute. lia.
    + reflexivity.
    + reflexivity.
  - apply (proj2 (proj2 datapoint_locator_at_most_one) metricWithoutLocator).
    + reflexivity.
    + vm_compute. lia.
    + reflexivity.
    + reflexivity.
Defined.

Lemma axis_letter_and_word_witness :
  axisToState "x" = Err (ErrUnsupportedAxisType "x") /\
  match datapointToState (exampleDatapoint "") with
  | Ok block =>
      exists s, axisToState "" = Ok s /\ graphMetricAxisAttr block = Some s /\
                (s = "left" \/ s = "right")
  | Err _ => False
  end /\
  match metricClusterToState (exampleMetricCluster "r") with
  | Ok block =>
      exists s, axisToState "r" = Ok s /\
                graphMetricClusterAxisAttr block = Some s /\
                (s = "left" \/ s = "right")
  | Err _ => False
  end /\
  match parseDatapoint 0 metricByCheck with
  | Ok datapoint => axisToAPI "axis" "left" = Ok (Axis datapoint)
  | Err _ => False
  end /\
  match parseMetricCluster (exampleClusterBlock "right") with
  | Ok mc => axisToAPI "axis" "right" = Ok (ClusterAxis mc)
  | Err _ => False
  end.
Proof.
  pose proof axis_letter_and_word as (_ & H1 & _ & H2 & H3 & H4 & H5).
  split; [|split; [|split; [|split]]].
  - apply (H1 "x"); discriminate.
  - destruct (datapointToState (exampleDatapoint "")) as [block|e] eqn:E.
    + apply (H2 _ _ E).
    + vm_compute in E. discriminate E.
  - destruct (metricClusterToState (exampleMetricCluster "r")) as [block|e] eqn:E.
    + apply (H3 _ _ E).
    + vm_compute in E. discriminate E.
  - destruct (parseDatapoint 0 metricByCheck) as [datapoint|e] eqn:E.
    + apply (H4 _ _ _ _ E). reflexivity.
    + vm_compute in E. discriminate E.
  - destruct (parseMetricCluster (exampleClusterBlock "right")) as [mc|e] eqn:E.
    + apply (H5 _ _ _ E). reflexivity.
    + vm_compute in E. discriminate E.
Defined.

End GraphFacts.

(** ** Rule sets *)

Module RuleSetFacts.
Import RuleSet RuleSetSpec GoFacts.

Lemma validateRule_window rs i rule :
  windowTooShort rule -> isErr (validateRule rs i rule) = true.
Proof.
  unfold windowTooShort, validateRule. intros H.
  destruct (String.eqb (Criteria rule) ""); [reflexivity|].
  apply Z.ltb_lt in H. now rewrite H.
Qed.

Lemma validateRule_window_inv rs i rule j cid :
  validateRule rs i rule = Err (ErrWindowMinDuration j cid) ->
  j = i /\ windowTooShort rule.
Proof.
  unfold validateRule, windowTooShort.
  destruct (String.eqb (Criteria rule) ""); [discriminate|].
  destruct (WindowingDuration rule <? WindowingMinDuration rule) eqn:E.
  - intros [= <- _]. split; [reflexivity | now apply Z.ltb_lt].
  - repeat case_match; discriminate.
Qed.

Lemma validateRules_window rs rules : forall i rule,
  In rule rules -> windowTooShort rule -> isErr (validateRules rs i rules) = true.
Proof.
  induction rules as [|r rules IH]; intros i rule Hin Hbad; [destruct Hin|].
  cbn [validateRules]. destruct (validateRule rs i r) as [[]|e] eqn:E; [|reflexivity].
  cbn [rbind]. destruct Hin as [-> | Hin].
  - pose proof (validateRule_window rs i rule Hbad) as H. rewrite E in H. discriminate.
  - eapply IH; eassumption.
Qed.

Lemma validateRules_window_inv rs rules : forall i j cid,
  validateRules rs i rules = Err (ErrWindowMinDuration j cid) ->
  exists rule, (i <= j)%nat /\ nth_error rules (j - i) = Some rule /\ windowTooShort rule.
Proof.
  induction rules as [|r rules IH]; intros i j cid H; [discriminate|].
  cbn [validateRules] in H. destruct (validateRule rs i r) as [[]|e] eqn:E.
  - cbn [rbind] in H. apply IH in H as (rule & Hle & Hn & Hbad).
    exists rule. split; [lia|]. split; [|assumption].
    replace (j - i)%nat with (S (j - S i)) by lia. exact Hn.
  - cbn [rbind] in H. injection H as ->.
    apply validateRule_window_inv in E as [-> Hbad].
    exists r. rewrite Nat.sub_diag. repeat split; [lia | assumption].
Qed.

Lemma validateRules_ok_window rs rules : forall i,
  validateRules rs i rules = Ok tt ->
  Forall (fun rule => WindowingMinDuration rule <= WindowingDuration rule) rules.
Proof.
  induction rules as [|r rules IH]; intros i H; [constructor|].
  cbn [validateRules] in H. destruct (validateRule rs i r) as [[]|e] eqn:E; [|discriminate].
  cbn [rbind] in H. constructor; [|eapply IH; eassumption].
  destruct (Z.le_gt_cases (WindowingMinDuration r) (WindowingDuration r)) as [|Hgt];
    [assumption|].
  pose proof (validateRule_window rs i r ltac:(unfold windowTooShort; lia)) as Hw.
  rewrite E in Hw. discriminate.
Qed.

Lemma Validate_rules rs :
  Validate rs = Ok tt -> validateRules rs 0 (Rules rs) = Ok tt.
Proof. unfold Validate. repeat case_match; intros; congruence. Qed.

Lemma ParseConfig_validates rs0 d rs :
  ParseConfig rs0 d = Ok rs -> Validate rs = Ok tt.
Proof.
  unfold ParseConfig. destruct (match GetOkList (ruleSetIfAttr d) with Some _ => _ | None => _ end) as [parsed|e];
    [|discriminate].
  cbn [rbind].
  match goal with |- context [Validate ?R] => destruct (Validate R) as [[]|e] eqn:E end;
    [|discriminate].
  cbn [rbind]. now intros [= <-].
Qed.

(** C6: [Validate] fails whenever some rule has a minimum window duration
    greater than its window duration; the window error for rule [i] is
    returned only when rule [i] is such a rule; hence every rule of a rule
    set [ParseConfig] accepts has a minimum window duration no greater than
    its window duration. *)
Theorem validate_window_min_duration :
  (forall rs rule, In rule (Rules rs) ->
     WindowingDuration rule < WindowingMinDuration rule ->
     isErr (Validate rs) = true) /\
  (forall rs i cid, Validate rs = Err (ErrWindowMinDuration i cid) ->
     exists rule, nth_error (Rules rs) i = Some rule /\
                  WindowingDuration rule < WindowingMinDuration rule) /\
  (forall rs0 d rs, ParseConfig rs0 d = Ok rs ->
     Forall (fun rule => WindowingMinDuration rule <= WindowingDuration rule) (Rules rs)).
Proof.
  split; [|split].
  - intros rs rule Hin Hbad. unfold Validate.
    repeat case_match; try reflexivity.
    eapply validateRules_window; eassumption.
  - intros rs i cid H. unfold Validate in H.
    repeat case_match; try discriminate.
    apply validateRules_window_inv in H as (rule & _ & Hn & Hbad).
    rewrite Nat.sub_0_r in Hn. eauto.
  - intros rs0 d rs H. apply ParseConfig_validates, Validate_rules in H.
    eapply validateRules_ok_window; eassumption.
Qed.

Lemma numericCriteria_fits v :
  stringInSlice (fst (numericCriteria v)) textOnlyCriteria = false.
Proof. unfold numericCriteria. repeat case_match; reflexivity. Qed.

Lemma textCriteria_fits v :
  stringInSlice (fst (textCriteria v)) numericOnlyCriteria = false.
Proof. unfold textCriteria. repeat case_match; reflexivity. Qed.

Lemma parseIf_fits mt cgs b rule cgs' :
  parseIf mt cgs b = Ok (Some rule, cgs') -> criteriaFits mt rule.
Proof.
  unfold parseIf.
  destruct (match ruleSetThenAttr b with Some _ => _ | None => _ end)
    as [[[wait severity] cgs1]|e]; [|discriminate].
  cbn [rbind]. destruct (ruleSetValueAttr b) as [[|v vs]|]; try discriminate.
  - destruct (String.eqb mt ruleSetMetricTypeNumeric) eqn:En.
    + cbn [rbind].
      destruct (match ruleSetOverAttr v with Some _ => _ | None => _ end)
        as [[[fn dur] mind]|e]; [|discriminate].
      cbn [rbind Criteria]. destruct (String.eqb (fst (numericCriteria v)) ""); [discriminate|].
      intros [= <- _]. apply String.eqb_eq in En. split; cbn [Criteria].
      * rewrite numericCriteria_fits. discriminate.
      * intros _. exact En.
    + destruct (String.eqb mt ruleSetMetricTypeText) eqn:Et; [|discriminate].
      cbn [rbind].
      destruct (match ruleSetOverAttr v with Some _ => _ | None => _ end)
        as [[[fn dur] mind]|e]; [|discriminate].
      cbn [rbind Criteria]. destruct (String.eqb (fst (textCriteria v)) ""); [discriminate|].
      intros [= <- _]. apply String.eqb_eq in Et. split; cbn [Criteria].
      * intros _. exact Et.
      * rewrite textCriteria_fits. discriminate.
Qed.

Lemma parseThen_error thenList : forall st e,
  parseThen thenList st = Err e -> parseError e.
Proof.
  induction thenList as [|t thenList IH]; intros [[wait sev] cgs] e H; [discriminate|].
  cbn [parseThen] in H.
  destruct (match ruleSetAfterAttr t with Some _ => _ | None => _ end) as [w|e'] eqn:E.
  - cbn [rbind] in H. eapply IH; eassumption.
  - cbn [rbind] in H. injection H as <-.
    destruct (ruleSetAfterAttr t) as [v|]; [|discriminate].
    unfold parseAfter in E. repeat case_match; try discriminate.
    injection E as <-. exact I.
Qed.

Lemma parseWindow_error mk v e :
  parseWindow mk v = Err e -> exists s, e = mk s.
Proof.
  unfold parseWindow. repeat case_match; try discriminate. intros [= <-]. eauto.
Qed.

Lemma parseOver_error overList : forall st e,
  parseOver overList st = Err e -> parseError e.
Proof.
  induction overList as [|o overList IH]; intros [[fn dur] mind] e H; [discriminate|].
  cbn [parseOver] in H.
  destruct (parseWindow ErrParseLast (ruleSetLastAttr o)) as [w|e'] eqn:E1.
  2:{ cbn [rbind] in H. injection H as <-.
      apply parseWindow_error in E1 as [s ->]. exact I. }
  cbn [rbind] in H.
  destruct (parseWindow ErrParseAtLeast (ruleSetAtLeastAttr o)) as [w'|e'] eqn:E2.
  2:{ cbn [rbind] in H. injection H as <-.
      apply parseWindow_error in E2 as [s ->]. exact I. }
  cbn [rbind] in H. eapply IH; eassumption.
Qed.

Lemma parseIf_error mt cgs b e : parseIf mt cgs b = Err e -> parseError e.
Proof.
  unfold parseIf.
  destruct (match ruleSetThenAttr b with Some _ => _ | None => _ end)
    as [[[wait severity] cgs1]|e'] eqn:E.
  2:{ cbn [rbind]. intros [= <-]. destruct (ruleSetThenAttr b); [|discriminate].
      eapply parseThen_error; eassumption. }
  cbn [rbind]. destruct (ruleSetValueAttr b) as [[|v vs]|].
  - cbn [rbind]. intros [= <-]. exact I.
  - destruct (String.eqb mt ruleSetMetricTypeNumeric);
      [|destruct (String.eqb mt ruleSetMetricTypeText)].
    3:{ cbn [rbind]. intros [= <-]. exact I. }
    all: cbn [rbind];
      destruct (match ruleSetOverAttr v with Some _ => _ | None => _ end)
        as [[[fn dur] mind]|e'] eqn:E1; cbn [rbind]; [discriminate|];
      intros [= <-]; destruct (ruleSetOverAttr v); [|discriminate];
      eapply parseOver_error; eassumption.
  - cbn [rbind]. discriminate.
Qed.

Lemma parseIfList_error mt ifList : forall cgs e,
  parseIfList mt ifList cgs = Err e -> parseError e.
Proof.
  induction ifList as [|b ifList IH]; intros cgs e H; [discriminate|].
  cbn [parseIfList] in H.
  destruct (parseIf mt cgs b) as [[o cgs1]|e'] eqn:E.
  - cbn [rbind snd fst] in H.
    destruct (parseIfList mt ifList cgs1) as [[rules1 cgs2]|e''] eqn:E1; [discriminate|].
    cbn [rbind] in H. injection H as <-. eapply IH; eassumption.
  - cbn [rbind] in H. injection H as <-. eapply parseIf_error; eassumption.
Qed.

Lemma parseIfList_fits mt ifList : forall cgs rules cgs',
  parseIfList mt ifList cgs = Ok (rules, cgs') -> Forall (criteriaFits mt) rules.
Proof.
  induction ifList as [|b ifList IH]; intros cgs rules cgs' H.
  - injection H as <- _. constructor.
  - cbn [parseIfList] in H.
    destruct (parseIf mt cgs b) as [[o cgs1]|e] eqn:E; [|discriminate].
    cbn [rbind snd fst] in H.
    destruct (parseIfList mt ifList cgs1) as [[rules1 cgs2]|e] eqn:E1; [|discriminate].
    cbn [rbind snd fst] in H. injection H as <- _.
    specialize (IH _ _ _ E1). destruct o as [rule|]; [|exact IH].
    constructor; [|exact IH]. eapply parseIf_fits; eassumption.
Qed.

Lemma validateRules_fits rs rules : Forall (criteriaFits (MetricType rs)) rules ->
  forall i j cid crit,
    validateRules rs i rules <> Err (ErrTextCriteria j cid crit) /\
    validateRules rs i rules <> Err (ErrNumericCriteria j cid crit).
Proof.
  induction 1 as [|r rules [Ht Hn] _ IH]; intros i j cid crit; [split; discriminate|].
  cbn [validateRules]. destruct (validateRule rs i r) as [[]|e] eqn:E; cbn [rbind].
  - apply IH.
  - unfold validateRule in E. fold textOnlyCriteria numericOnlyCriteria in E.
    destruct (String.eqb (Criteria r) ""); [injection E as <-; split; discriminate|].
    destruct (WindowingDuration r <? WindowingMinDuration r);
      [injection E as <-; split; discriminate|].
    destruct (stringInSlice (Criteria r) textOnlyCriteria) eqn:E1.
    { rewrite (Ht eq_refl) in E.
      replace (String.eqb "text" "text") with true in E by reflexivity.
      cbn [andb negb] in E.
      destruct (stringInSlice (Criteria r) numericOnlyCriteria) eqn:E2.
      - specialize (Hn eq_refl). rewrite Ht in Hn by reflexivity. discriminate.
      - cbn [andb] in E. discriminate. }
    cbn [andb] in E.
    destruct (stringInSlice (Criteria r) numericOnlyCriteria) eqn:E2; [|discriminate].
    rewrite (Hn eq_refl) in E.
    replace (String.eqb "numeric" "numeric") with true in E by reflexivity.
    cbn [andb negb] in E. discriminate.
Qed.

(** No configuration makes [ParseConfig] report a criteria of the wrong
    type: the rule is parsed by the chain of its rule set's metric type, so
    the two checks of [Validate] on the criteria never fire. *)
Lemma ParseConfig_never_reports_criteria_type rs0 d i cid crit :
  ParseConfig rs0 d <> Err (ErrTextCriteria i cid crit) /\
  ParseConfig rs0 d <> Err (ErrNumericCriteria i cid crit).
Proof.
  unfold ParseConfig.
  destruct (match GetOkList (ruleSetIfAttr d) with Some _ => _ | None => _ end)
    as [[rules cgs]|e] eqn:E.
  2:{ cbn [rbind].
      assert (parseError e) as He.
      { destruct (GetOkList (ruleSetIfAttr d)); [|discriminate].
        eapply parseIfList_error; eassumption. }
      split; intros [= ->]; exact He. }
  cbn [rbind fst snd].
  assert (Hfit : Forall (criteriaFits (orElse (GetOkString (ruleSetMetricTypeAttr d)) (MetricType rs0))) rules).
  { destruct (GetOkList (ruleSetIfAttr d)).
    - eapply parseIfList_fits; eassumption.
    - injection E as <- _. constructor. }
  match goal with |- context [Validate ?R] => set (rs := R) end.
  destruct (Validate rs) as [[]|e] eqn:EV; cbn [rbind]; [split; discriminate|].
  unfold Validate in EV.
  destruct (_ && _) in EV; [injection EV as <-; split; discriminate|].
  destruct (_ && _) in EV; [injection EV as <-; split; discriminate|].
  pose proof (validateRules_fits rs (Rules rs) Hfit 0%nat i cid crit) as [H1 H2].
  rewrite EV in H1, H2. split; congruence.
Qed.

Lemma parseAfter_seconds (s : string) (wait : Z) :
  s <> "" -> Go.allDigits s = true -> Go.decimalValue s <= 9223372036 ->
  parseAfter wait s = Ok (Go.decimalValue s / 60).
Proof.
  intros Hne Hs Hle. unfold parseAfter.
  destruct (String.eqb_spec s ""); [contradiction|].
  rewrite (ParseDuration_seconds s Hne Hs).
  destruct (Z.leb_spec (Go.decimalValue s) 9223372036); [|lia].
  rewrite Minutes_whole_seconds; [reflexivity|].
  split; [|assumption]. apply (decimalFrom_ge s 0 Hs). lia.
Qed.

(** The wait [parseThen] ends with is that of the last [then] block when its
    [after] is a number of seconds. *)
Lemma parseThen_last_after (s : string) (thenAttrs : thenBlock) :
  s <> "" -> Go.allDigits s = true -> Go.decimalValue s <= 9223372036 ->
  ruleSetAfterAttr thenAttrs = Some s ->
  forall thenList st wait severity cgs,
    parseThen (thenList ++ [thenAttrs]) st = Ok (wait, severity, cgs) ->
    wait = Go.decimalValue s / 60.
Proof.
  intros Hne Hs Hle Hafter.
  induction thenList as [|t thenList IH]; intros [[w0 sev0] cgs0] wait severity cgs.
  - cbn [app parseThen]. rewrite Hafter, (parseAfter_seconds s w0 Hne Hs Hle).
    cbn [rbind]. now intros [= <- _ _].
  - cbn [app parseThen].
    destruct (match ruleSetAfterAttr t with Some _ => _ | None => _ end)
      as [w|]; [|discriminate].
    cbn [rbind]. apply IH.
Qed.

(** The wait and severity of the rule of an [if] block are those its [then]
    list ends with. *)
Lemma parseIf_then mt cgs b rule cgs' :
  parseIf mt cgs b = Ok (Some rule, cgs') ->
  match ruleSetThenAttr b with
  | Some thenList => parseThen thenList (0, 0, cgs)
  | None => Ok (0, 0, cgs)
  end = Ok (Wait rule, Severity rule, cgs').
Proof.
  unfold parseIf.
  destruct (match ruleSetThenAttr b with Some _ => _ | None => _ end)
    as [[[wait severity] cgs1]|e]; [|discriminate].
  cbn [rbind]. destruct (ruleSetValueAttr b) as [[|v vs]|]; try discriminate.
  destruct (if String.eqb mt ruleSetMetricTypeNumeric then _ else _) as [cv|];
    [|discriminate].
  cbn [rbind].
  destruct (match ruleSetOverAttr v with Some _ => _ | None => _ end)
    as [[[fn dur] mind]|e]; [|discriminate].
  cbn [rbind Criteria]. destruct (String.eqb (fst cv) ""); [discriminate|].
  now intros [= <- <-].
Qed.

(** Every rule of the list comes from one of the [if] blocks. *)
Lemma parseIfList_rule mt ifList : forall cgs rules cgs' rule,
  parseIfList mt ifList cgs = Ok (rules, cgs') -> In rule rules ->
  exists b cgs0 cgs1, In b ifList /\ parseIf mt cgs0 b = Ok (Some rule, cgs1).
Proof.
  induction ifList as [|b ifList IH]; intros cgs rules cgs' rule H Hin.
  - injection H as <- _. destruct Hin.
  - cbn [parseIfList] in H.
    destruct (parseIf mt cgs b) as [[o cgs1]|e] eqn:E; [|discriminate].
    cbn [rbind snd fst] in H.
    destruct (parseIfList mt ifList cgs1) as [[rules1 cgs2]|e] eqn:E1; [|discriminate].
    cbn [rbind snd fst] in H. injection H as <- _.
    assert (Htail : In rule rules1 ->
              exists b' cgs0 cgs3, In b' (b :: ifList) /\
                parseIf mt cgs0 b' = Ok (Some rule, cgs3)).
    { intros Hr. destruct (IH _ _ _ _ E1 Hr) as (b' & c0 & c1 & Hb & Hp).
      exists b', c0, c1. split; [now right | exact Hp]. }
    destruct o as [r|]; [|now apply Htail].
    destruct Hin as [<-|Hr]; [|now apply Htail].
    exists b, cgs, cgs1. split; [now left | exact E].
Qed.

Lemma ParseConfig_rules rs0 d rs :
  ParseConfig rs0 d = Ok rs ->
  exists mt, parseIfList mt (ruleSetIfAttr d) (ContactGroups rs0)
             = Ok (Rules rs, ContactGroups rs).
Proof.
  unfold ParseConfig. intros H. eexists.
  destruct (ruleSetIfAttr d) as [|b l] eqn:El; cbn [GetOkList] in H.
  - cbn [rbind fst snd] in H. destruct (Validate _) as [[]|]; [|discriminate].
    cbn [rbind] in H. injection H as <-. reflexivity.
  - destruct (parseIfList _ (b :: l) _) as [[rules cgs]|] eqn:E; [|discriminate].
    cbn [rbind fst snd] in H. destruct (Validate _) as [[]|]; [|discriminate].
    cbn [rbind] in H. injection H as <-. exact E.
Qed.

Lemma thenToState_after cgs rule (w : Z) :
  0 <= w <= 153722867 -> Wait rule = w ->
  ruleSetAfterAttr (thenToState cgs rule) = Some (Go.FormatInt (60 * w)).
Proof.
  intros Hw E. unfold thenToState. cbn [ruleSetAfterAttr]. rewrite E.
  unfold Go.uint. rewrite Z.mod_small; [reflexivity|].
  replace (2 ^ 64) with 18446744073709551616 by reflexivity. lia.
Qed.

Lemma ParseConfig_example (s : string) :
  s <> "" -> Go.allDigits s = true -> Go.decimalValue s <= 9223372036 ->
  exists rs rule,
    ParseConfig newRuleSet (exampleRuleSet "numeric" s (withMinValue "5" emptyValue))
      = Ok rs /\
    Rules rs = [rule] /\ Wait rule = Go.decimalValue s / 60.
Proof.
  intros Hne Hs Hle. unfold ParseConfig, exampleRuleSet.
  cbn [ruleSetIfAttr GetOkList ruleSetMetricTypeAttr GetOkString String.eqb
       Ascii.eqb Bool.eqb orElse default].
  cbn -[parseAfter addContactGroups Validate newRuleSet numericCriteria].
  unfold parseIf.
  cbn -[parseAfter addContactGroups Validate newRuleSet numericCriteria].
  rewrite (parseAfter_seconds s 0 Hne Hs Hle).
  cbn -[addContactGroups Validate newRuleSet Z.div].
  eexists. eexists. split; [|split].
  - vm_compute. reflexivity.
  - reflexivity.
  - reflexivity.
Qed.

(** For 9223372037 seconds, more than a [time.Duration] holds,
    [time.ParseDuration] fails and with it [ParseConfig], although the
    schema admits every string of digits; and [060] seconds, a whole minute,
    are read back as [60]. *)
Lemma after_beyond_duration_or_padded :
  ParseConfig newRuleSet
    (exampleRuleSet "numeric" "9223372037" (withMinValue "5" emptyValue))
  = Err (ErrParseAfter "9223372037") /\
  exists rs rule,
    ParseConfig newRuleSet
      (exampleRuleSet "numeric" "060" (withMinValue "5" emptyValue)) = Ok rs /\
    Rules rs = [rule] /\ Wait rule = 1 /\
    ruleSetAfterAttr (thenToState (ContactGroups rs) rule) = Some "60".
Proof.
  split; [vm_compute; reflexivity|].
  eexists. eexists. split; [vm_compute; reflexivity|]. repeat split.
Qed.

(** C10, amended: for an [after] attribute that is a string of digits
    denoting [N] seconds, [N] at most 9223372036 (the most
    [time.ParseDuration] accepts), the rule [ParseConfig] builds from an
    [if] block whose last [then] block carries it waits [N / 60] minutes,
    rounded down, and [ruleSetRead] writes back the decimal numeral of
    [60 * (N / 60)]; such a rule is built. The text read back is the
    configured text exactly when [N] is a multiple of 60 written without
    leading zeros; when [N] is not a multiple of 60 the value read back is
    the next lower multiple of 60. *)
Theorem after_rounds_down_to_whole_minutes (s : string) :
  s <> "" -> Go.allDigits s = true -> Go.decimalValue s <= 9223372036 ->
  let N := Go.decimalValue s in
  (* the rule [ParseConfig] builds from one [if] block *)
  (forall metricType cgs ifAttrs thenList thenAttrs rule cgs',
     ruleSetThenAttr ifAttrs = Some (thenList ++ [thenAttrs])%list ->
     ruleSetAfterAttr thenAttrs = Some s ->
     parseIf metricType cgs ifAttrs = Ok (Some rule, cgs') ->
     Wait rule = N / 60 /\
     forall cgs'',
       ruleSetAfterAttr (thenToState cgs'' rule)
         = Some (Go.FormatInt (60 * (N / 60)))) /\
  (* the rules of the rule set [ParseConfig] returns *)
  (forall rs0 d rs,
     (forall ifAttrs, In ifAttrs (ruleSetIfAttr d) ->
        exists thenList thenAttrs,
          ruleSetThenAttr ifAttrs = Some (thenList ++ [thenAttrs])%list /\
          ruleSetAfterAttr thenAttrs = Some s) ->
     ParseConfig rs0 d = Ok rs ->
     forall rule, In rule (Rules rs) ->
       Wait rule = N / 60 /\
       ruleSetAfterAttr (thenToState (ContactGroups rs) rule)
         = Some (Go.FormatInt (60 * (N / 60)))) /\
  (* [ParseConfig] does build such a rule *)
  (exists rs rule,
     ParseConfig newRuleSet
       (exampleRuleSet "numeric" s (withMinValue "5" emptyValue)) = Ok rs /\
     Rules rs = [rule] /\ Wait rule = N / 60 /\
     ruleSetAfterAttr (thenToState (ContactGroups rs) rule)
       = Some (Go.FormatInt (60 * (N / 60)))) /\
  (* what is read back against what was configured *)
  Go.decimalValue (Go.FormatInt (60 * (N / 60))) = 60 * (N / 60) /\
  (Go.FormatInt (60 * (N / 60)) = s <-> N mod 60 = 0 /\ s = Go.FormatInt N) /\
  (N mod 60 <> 0 -> N - 60 < 60 * (N / 60) < N).
Proof.
  intros Hne Hs Hle N.
  assert (HN : 0 <= N) by (apply (decimalFrom_ge s 0 Hs); lia).
  pose proof (Z.div_mod N 60 ltac:(lia)) as Hdm.
  pose proof (Z.mod_pos_bound N 60 ltac:(lia)) as Hm.
  assert (Hq : 0 <= N / 60 <= 153722867).
  { split; [apply Z.div_pos; lia | lia]. }
  assert (Hif : forall metricType cgs ifAttrs thenList thenAttrs rule cgs',
            ruleSetThenAttr ifAttrs = Some (thenList ++ [thenAttrs])%list ->
            ruleSetAfterAttr thenAttrs = Some s ->
            parseIf metricType cgs ifAttrs = Ok (Some rule, cgs') ->
            Wait rule = N / 60 /\
            forall cgs'',
              ruleSetAfterAttr (thenToState cgs'' rule)
                = Some (Go.FormatInt (60 * (N / 60)))).
  { intros mt cgs b thenList t rule cgs' Hthen Hafter H.
    apply parseIf_then in H. rewrite Hthen in H.
    apply (parseThen_last_after s t Hne Hs Hle Hafter) in H.
    split; [exact H|]. intros cgs''. now apply thenToState_after. }
  split; [exact Hif|]. split; [|split; [|split; [|split]]].
  - intros rs0 d rs Hall H rule Hin.
    apply ParseConfig_rules in H as (mt & H).
    destruct (parseIfList_rule _ _ _ _ _ _ H Hin) as (b & c0 & c1 & Hb & Hp).
    destruct (Hall b Hb) as (thenList & t & Hthen & Hafter).
    destruct (Hif _ _ _ _ _ _ _ Hthen Hafter Hp) as [Hw Hst].
    split; [exact Hw | apply Hst].
  - destruct (ParseConfig_example s Hne Hs Hle) as (rs & rule & H & Hr & Hw).
    exists rs, rule. split; [exact H|]. split; [exact Hr|]. split; [exact Hw|].
    now apply thenToState_after.
  - apply decimalValue_FormatInt. lia.
  - split.
    + intros E. assert (E' : 60 * (N / 60) = N).
      { rewrite <- (decimalValue_FormatInt (60 * (N / 60))) by lia.
        now rewrite E. }
      split; [lia|].
      transitivity (Go.FormatInt (60 * (N / 60))); [now symmetry | now rewrite E'].
    + intros [Hz Es]. replace (60 * (N / 60)) with N by lia. now symmetry.
  - lia.
Qed.

(** C5: a criteria of the wrong type for the metric type of the rule set
    makes [ParseConfig] leave the rule out and succeed, for a text criteria
    on a numeric rule set and for a numeric criteria on a text rule set; no
    configuration makes [ParseConfig] end with one of the two criteria-type
    errors, although [Validate] returns them for a rule set that holds such
    a rule. *)
Theorem criteria_type_mismatch_is_not_reported :
  (exists rs,
     ParseConfig newRuleSet
       (exampleRuleSet "numeric" "0" (withContains "error" emptyValue)) = Ok rs /\
     Rules rs = []) /\
  (exists rs,
     ParseConfig newRuleSet
       (exampleRuleSet "text" "0" (withMinValue "5" emptyValue)) = Ok rs /\
     Rules rs = []) /\
  (forall rs0 d i cid crit,
     ParseConfig rs0 d <> Err (ErrTextCriteria i cid crit) /\
     ParseConfig rs0 d <> Err (ErrNumericCriteria i cid crit)) /\
  Validate (ruleSetOf "numeric" [containsRule])
    = Err (ErrTextCriteria 0 "/check/1" apiRuleSetContains) /\
  Validate (ruleSetOf "text" [windowRule 0 0])
    = Err (ErrNumericCriteria 0 "/check/1" apiRuleSetMinValue).
Proof.
  split; [|split; [|split; [|split]]].
  - eexists. split; vm_compute; reflexivity.
  - eexists. split; vm_compute; reflexivity.
  - exact ParseConfig_never_reports_criteria_type.
  - reflexivity.
  - reflexivity.
Qed.

Lemma validate_window_min_duration_witness :
  isErr (Validate (ruleSetOf "numeric" [windowRule 300 600])) = true /\
  (exists rule,
     nth_error (Rules (ruleSetOf "numeric" [windowRule 300 600])) 0 = Some rule /\
     WindowingDuration rule < WindowingMinDuration rule) /\
  match ParseConfig newRuleSet
          (exampleRuleSet "numeric" "0"
             (withOver (exampleOver "600" "300") (withMinValue "5" emptyValue))) with
  | Ok rs =>
      Forall (fun rule => WindowingMinDuration rule <= WindowingDuration rule)
        (Rules rs)
  | Err _ => False
  end.
Proof.
  pose proof validate_window_min_duration as (H1 & H2 & H3).
  split; [|split].
  - apply (H1 (ruleSetOf "numeric" [windowRule 300 600]) (windowRule 300 600)).
    + left. reflexivity.
    + cbn. lia.
  - apply (H2 (ruleSetOf "numeric" [windowRule 300 600]) 0%nat "/check/1").
    reflexivity.
  - destruct (ParseConfig newRuleSet _) as [rs|e] eqn:E.
    + apply (H3 _ _ _ E).
    + vm_compute in E. discriminate E.
Defined.

Lemma after_rounds_down_to_whole_minutes_witness :
  exists rs rule,
    ParseConfig newRuleSet
      (exampleRuleSet "numeric" "125" (withMinValue "5" emptyValue)) = Ok rs /\
    Rules rs = [rule] /\ Wait rule = 2 /\
    ruleSetAfterAttr (thenToState (ContactGroups rs) rule) = Some "120".
Proof.
  assert (H125 : "125" <> "") by discriminate.
  assert (Hle125 : Go.decimalValue "125" <= 9223372036)
    by (vm_compute; discriminate).
  destruct (after_rounds_down_to_whole_minutes "125" H125 eq_refl Hle125)
    as (_ & _ & (rs & rule & H & Hr & Hw & Hst) & _).
  exists rs, rule. split; [exact H|]. split; [exact Hr|].
  split; [exact Hw | exact Hst].
Defined.

End RuleSetFacts.

(** ** Deleting a resource *)

Module Lifecycle.
Import CheckSpec GraphSpec.

(** A delete call of the vendor client that reports the resource as gone:
    the check and the graph keep their IDs. *)
Lemma delete_keeps_id_on_vendor_error :
  Check.Id (fst (Check.checkDelete goneCheckClient createdCheck)) = "/check_bundle/1" /\
  Check.Id (fst (Check.checkDelete goneCheckClient createdCheck)) <> "" /\
  Graph.Id (fst (Graph.graphDelete goneGraphClient createdGraph)) = "/graph/1" /\
  Graph.Id (fst (Graph.graphDelete goneGraphClient createdGraph)) <> "".
Proof. repeat split; discriminate. Qed.

(** C8, amended: deleting a check or a graph clears the ID when the delete
    call of the vendor client returns no error; when the call returns an
    error, the error is returned and the resource data, the ID included, are
    left as they were. *)
Theorem delete_clears_id_when_vendor_call_succeeds :
  (forall ctxt d b, Check.Delete ctxt (Check.Id d) = Ok b ->
     Check.Id (fst (Check.checkDelete ctxt d)) = "" /\
     snd (Check.checkDelete ctxt d) = None) /\
  (forall ctxt d msg, Check.Delete ctxt (Check.Id d) = Err msg ->
     Check.checkDelete ctxt d = (d, Some (Check.ErrAPI msg))) /\
  (forall ctxt d b, Graph.DeleteGraphByCID ctxt (Graph.Id d) = Ok b ->
     Graph.Id (fst (Graph.graphDelete ctxt d)) = "" /\
     snd (Graph.graphDelete ctxt d) = None) /\
  (forall ctxt d msg, Graph.DeleteGraphByCID ctxt (Graph.Id d) = Err msg ->
     exists e, Graph.graphDelete ctxt d = (d, Some e)).
Proof.
  split; [|split; [|split]].
  - intros ctxt d b H. unfold Check.checkDelete. rewrite H. split; reflexivity.
  - intros ctxt d msg H. unfold Check.checkDelete. now rewrite H.
  - intros ctxt d b H. unfold Graph.graphDelete. rewrite H. split; reflexivity.
  - intros ctxt d msg H. unfold Graph.graphDelete. rewrite H. eauto.
Qed.

Lemma delete_clears_id_when_vendor_call_succeeds_witness :
  (Check.Id (fst (Check.checkDelete okCheckClient createdCheck)) = "" /\
   snd (Check.checkDelete okCheckClient createdCheck) = None) /\
  Check.checkDelete goneCheckClient createdCheck
    = (createdCheck, Some (Check.ErrAPI "404 Not Found")) /\
  (Graph.Id (fst (Graph.graphDelete okGraphClient createdGraph)) = "" /\
   snd (Graph.graphDelete okGraphClient createdGraph) = None) /\
  exists e, Graph.graphDelete goneGraphClient createdGraph = (createdGraph, Some e).
Proof.
  pose proof delete_clears_id_when_vendor_call_succeeds as (H1 & H2 & H3 & H4).
  split; [|split; [|split]].
  - apply (H1 okCheckClient createdCheck true). reflexivity.
  - apply (H2 goneCheckClient createdCheck). reflexivity.
  - apply (H3 okGraphClient createdGraph true). reflexivity.
  - apply (H4 goneGraphClient createdGraph "404 Not Found"). reflexivity.
Defined.

End Lifecycle.


(** * Further proofs *)

(** ** Whole seconds as durations, floats and decimal text *)

Module GoSeconds.
Import GoFacts.

Lemma Qplus_inject_Z_0 (n : Z) : (inject_Z n + inject_Z 0)%Q = inject_Z n.
Proof. unfold Qplus, inject_Z. cbn [Qnum Qden]. f_equal. lia. Qed.

Lemma quot_rem_whole_seconds (N : Z) :
  0 <= N ->
  Z.quot (N * 10 ^ 9) Go.Second = N /\ Z.rem (N * 10 ^ 9) Go.Second = 0.
Proof.
  intros HN. change Go.Second with (10 ^ 9).
  rewrite Z.quot_div_nonneg, Z.rem_mod_nonneg by lia.
  split; [apply Z.div_mul; lia | apply Z.mod_mul; lia].
Qed.

(** [d.Seconds()] of a whole number of seconds is that number. *)
Lemma Seconds_whole (N : Z) :
  0 <= N < 2 ^ 53 -> Go.Seconds (N * 10 ^ 9) = inject_Z N.
Proof.
  intros HN. unfold Go.Seconds.
  destruct (quot_rem_whole_seconds N ltac:(lia)) as [-> ->].
  rewrite (float64_int N HN).
  assert (Go.fdiv64 (Go.float64 (inject_Z 0)) (inject_Z Go.Second) = inject_Z 0)
    as -> by reflexivity.
  unfold Go.fadd64. rewrite Qplus_inject_Z_0. apply float64_int, HN.
Qed.

Lemma uintOfFloat_int (N : Z) :
  0 <= N < 2 ^ 64 -> Go.uintOfFloat (inject_Z N) = N.
Proof.
  intros HN. apply uintOfFloat_between; [assumption| |].
  - apply Qle_refl.
  - rewrite <- Zlt_Qlt. lia.
Qed.

(** An integer below [2^24] is its own [float32]. *)
Lemma float32_int (n : Z) :
  0 <= n < 2 ^ 24 -> Go.float32 (inject_Z n) = inject_Z n.
Proof.
  intros Hn. pose proof (float32_small_int n Hn) as Heq.
  unfold Go.float32, Go.round_ne in *. cbn [Qnum Qden inject_Z] in *.
  destruct n as [|p|p]; [reflexivity| |lia].
  unfold Go.round_pos in *.
  match goal with |- Qred ?X = _ =>
    rewrite (Qred_complete X (inject_Z (Zpos p)));
      [apply Qred_inject_Z | rewrite <- (Qred_correct X); exact Heq]
  end.
Qed.

Lemma fmtDigits_not_empty (fuel : nat) : forall n c acc,
  Go.fmtDigits fuel n (String c acc) <> "".
Proof.
  induction fuel as [|f IH]; intros n c acc; cbn [Go.fmtDigits].
  - discriminate.
  - destruct (n <? 10); [discriminate | apply IH].
Qed.

Lemma FormatInt_not_empty (n : Z) : Go.FormatInt n <> "".
Proof.
  unfold Go.FormatInt. destruct (n <? 0); [discriminate|].
  cbn [Go.fmtDigits]. destruct (n <? 10); [discriminate|].
  apply fmtDigits_not_empty.
Qed.
(** [fmt.Sprintf("%f", x)] of a whole number. *)
Lemma FormatFloat6_int (N : Z) :
  0 <= N -> Go.FormatFloat6 (inject_Z N) = Go.FormatInt N ++ ".000000".
Proof.
  intros HN. unfold Go.FormatFloat6.
  assert (Hq : (Qabs (inject_Z N) * inject_Z (10 ^ 6))%Q = inject_Z (N * 10 ^ 6)).
  { unfold Qabs, Qmult, inject_Z. cbn [Qnum Qden]. rewrite Z.abs_eq by lia.
    reflexivity. }
  rewrite Hq. unfold Go.roundHalfEven. rewrite Qfloor_Z.
  assert (Hlt : ((inject_Z (N * 10 ^ 6) - inject_Z (N * 10 ^ 6)) ?= 1 # 2)%Q = Lt).
  { rewrite <- Qlt_alt. unfold Qlt, Qminus, Qplus, Qopp, inject_Z. cbn [Qnum Qden].
    generalize (N * 10 ^ 6). intros M. lia. }
  rewrite Hlt. rewrite Z.div_mul, Z.mod_mul by lia.
  cbn [Qnum inject_Z]. destruct (Z.ltb_spec N 0); [lia|]. reflexivity.
Qed.

Lemma leadingInt_prefix (c0 : ascii) (t : string) (s : string) : forall x,
  Go.isDigit c0 = false -> Go.allDigits s = true -> 0 <= x <= 2 ^ 63 ->
  Go.leadingInt x (s ++ String c0 t) =
    if Go.decimalFrom x s <=? 2 ^ 63
    then Some (Go.decimalFrom x s, String c0 t) else None.
Proof.
  intros x Hc0. revert x.
  induction s as [|c r IH]; intros x Hs Hx.
  - change ("" ++ String c0 t) with (String c0 t).
    cbn [Go.leadingInt Go.decimalFrom]. rewrite Hc0.
    destruct (Z.leb_spec x (2 ^ 63)); [reflexivity | lia].
  - cbn [Go.allDigits] in Hs. apply andb_true_iff in Hs as [Hc Hr].
    pose proof (isDigit_digitVal c Hc) as Hd.
    change (String c r ++ String c0 t) with (String c (r ++ String c0 t)).
    cbn [Go.leadingInt Go.decimalFrom]. rewrite Hc.
    pose proof (decimalFrom_ge r (10 * x + Go.digitVal c) Hr ltac:(lia)) as Hge.
    replace (2 ^ 63 / 10) with 922337203685477580 by reflexivity.
    replace (2 ^ 63) with 9223372036854775808 in * by reflexivity.
    destruct (Z.ltb_spec 922337203685477580 x).
    + destruct (Z.leb_spec (Go.decimalFrom (10 * x + Go.digitVal c) r)
                           9223372036854775808); [lia | reflexivity].
    + destruct (Z.ltb_spec 9223372036854775808 (10 * x + Go.digitVal c)).
      * destruct (Z.leb_spec (Go.decimalFrom (10 * x + Go.digitVal c) r)
                             9223372036854775808); [lia | reflexivity].
      * replace 9223372036854775808 with (2 ^ 63) by reflexivity.
        apply IH; [assumption|].
        replace (2 ^ 63) with 9223372036854775808 by reflexivity. lia.
Qed.

Lemma length_append (a b : string) :
  String.length (a ++ b) = (String.length a + String.length b)%nat.
Proof.
  induction a as [|c a IH]; [reflexivity|].
  change (String c a ++ b) with (String c (a ++ b)).
  cbn [String.length]. now rewrite IH.
Qed.

Lemma parseComponent_zero_fraction (N : Z) :
  0 <= N ->
  Go.parseComponent N true ".000000s" =
    if N <=? 9223372036 then Some (N * 10 ^ 9, "") else None.
Proof.
  intros HN.
  assert (Go.parseComponent N true ".000000s" =
          if 9223372036 <? N then None else Some (N * 1000000000, "")) as ->
    by reflexivity.
  replace (10 ^ 9) with 1000000000 by reflexivity.
  destruct (Z.ltb_spec 9223372036 N), (Z.leb_spec N 9223372036); try lia; reflexivity.
Qed.

(** [time.ParseDuration] on a number of seconds written as [%f] writes a
    whole number. *)
Lemma ParseDuration_zero_fraction (s : string) :
  s <> "" -> Go.allDigits s = true ->
  Go.ParseDuration (s ++ ".000000s") =
    if Go.decimalValue s <=? 9223372036
    then Some (Go.decimalValue s * 10 ^ 9) else None.
Proof.
  intros Hne Hs. destruct s as [|c r]; [congruence|].
  pose proof Hs as Hs'. cbn [Go.allDigits] in Hs'.
  apply andb_true_iff in Hs' as [Hc Hr].
  unfold Go.ParseDuration.
  change (String c r ++ ".000000s") with (String c (r ++ ".000000s")).
  rewrite (stripSign_digit c _ Hc).
  assert (String.eqb (String c (r ++ ".000000s")) "0" = false) as ->.
  { cbn [String.eqb]. destruct (Ascii.eqb c "0"); [|reflexivity].
    destruct r; reflexivity. }
  cbn [Go.parseComponents String.length]. rewrite (isDigit_not_point c Hc).
  change (String c (r ++ ".000000s")) with (String c r ++ ".000000s").
  rewrite (leadingInt_prefix "." "000000s" (String c r) 0 eq_refl Hs)
    by (split; [lia | discriminate]).
  fold (Go.decimalValue (String c r)). set (N := Go.decimalValue (String c r)).
  assert (HN : 0 <= N) by (apply (decimalFrom_ge (String c r) 0 Hs); lia).
  destruct (Z.leb_spec N (2 ^ 63)) as [H63|H63].
  2:{ destruct (Z.leb_spec N 9223372036); [|reflexivity].
      replace (2 ^ 63) with 9223372036854775808 in H63 by reflexivity. lia. }
  assert (Go.lenEq (String c r ++ ".000000s") ".000000s" = false) as ->.
  { unfold Go.lenEq. rewrite length_append. cbn [String.length].
    apply Nat.eqb_neq. lia. }
  cbn [negb]. rewrite (parseComponent_zero_fraction N HN).
  destruct (Z.leb_spec N 9223372036) as [Hle|Hgt]; [|reflexivity].
  unfold Go.uint. rewrite Z.add_0_l.
  replace (10 ^ 9) with 1000000000 by reflexivity.
  replace (2 ^ 64) with 18446744073709551616 by reflexivity.
  replace (2 ^ 63) with 9223372036854775808 by reflexivity.
  rewrite Z.mod_small by lia.
  destruct (Z.ltb_spec 9223372036854775808 (N * 1000000000)); [lia|].
  destruct (Z.ltb_spec (9223372036854775808 - 1) (N * 1000000000)); [lia|].
  reflexivity.
Qed.

Lemma append_assoc (a b c : string) : (a ++ b) ++ c = a ++ (b ++ c).
Proof.
  induction a as [|x a IH]; [reflexivity|].
  change ((String x a ++ b) ++ c) with (String x ((a ++ b) ++ c)).
  now rewrite IH.
Qed.

(** A whole number of seconds written by [%f] and read by
    [time.ParseDuration]. *)
Lemma ParseDuration_FormatFloat6_int (N : Z) :
  0 <= N <= 9223372036 ->
  Go.ParseDuration (Go.FormatFloat6 (inject_Z N) ++ "s") = Some (N * 10 ^ 9).
Proof.
  intros HN. rewrite FormatFloat6_int by lia.
  rewrite append_assoc. change (".000000" ++ "s") with ".000000s".
  rewrite ParseDuration_zero_fraction
    by (first [apply FormatInt_not_empty | apply allDigits_FormatInt; lia]).
  rewrite decimalValue_FormatInt by lia.
  destruct (Z.leb_spec N 9223372036); [reflexivity | lia].
Qed.

Lemma fmtFracLoop_zeros (k : nat) : forall v,
  Go.fmtFracLoop k (v * 10 ^ Z.of_nat k) false "" = ("", v, false).
Proof.
  induction k as [|k IH]; intros v.
  - cbn [Go.fmtFracLoop]. now rewrite Z.mul_1_r.
  - cbn [Go.fmtFracLoop].
    replace (v * 10 ^ Z.of_nat (S k)) with ((v * 10 ^ Z.of_nat k) * 10)
      by (rewrite Nat2Z.inj_succ, Z.pow_succ_r by lia; ring).
    rewrite Z.mod_mul, Z.div_mul by lia. cbn [Z.eqb negb orb]. apply IH.
Qed.

(** [d.String()] of a whole number of seconds below a minute. *)
Lemma DurationString_seconds (N : Z) :
  1 <= N < 60 -> Go.DurationString (N * 10 ^ 9) = Go.FormatInt N ++ "s".
Proof.
  intros HN. unfold Go.DurationString.
  rewrite Z.abs_eq by lia. change Go.Second with (10 ^ 9).
  destruct (Z.ltb_spec (N * 10 ^ 9) (10 ^ 9)); [lia|].
  unfold Go.fmtFrac.
  pose proof (fmtFracLoop_zeros 9 N) as Hz.
  change (Z.of_nat 9) with 9 in Hz. rewrite Hz.
  rewrite (Z.div_small N 60), (Z.mod_small N 60) by lia. cbn [Z.ltb Z.compare].
  destruct (Z.ltb_spec (N * 10 ^ 9) 0); [lia|]. reflexivity.
Qed.
End GoSeconds.

(** ** Prefixes, reversal and [strings.TrimSpace] *)

Module GoStrings.
Import GoFacts GoSeconds.

Lemma stripPrefix_app (p s : string) : Go.stripPrefix p (p ++ s) = Some s.
Proof.
  induction p as [|a p IH]; [now destruct s|].
  change (String a p ++ s) with (String a (p ++ s)).
  cbn [Go.stripPrefix]. now rewrite Ascii.eqb_refl.
Qed.

Lemma stripPrefix_Some (p : string) : forall s r,
  Go.stripPrefix p s = Some r -> s = p ++ r.
Proof.
  induction p as [|a p IH]; intros s r H.
  - destruct s; injection H as <-; reflexivity.
  - destruct s as [|b s]; [discriminate|]. cbn [Go.stripPrefix] in H.
    destruct (Ascii.eqb_spec a b) as [->|]; [|discriminate].
    change (String b p ++ r) with (String b (p ++ r)). f_equal. now apply IH.
Qed.

Lemma stripPrefix_empty (p : string) : p <> "" -> Go.stripPrefix p "" = None.
Proof. destruct p; [congruence | reflexivity]. Qed.

Lemma stripAny_Some (ps : list string) : forall s r,
  Go.stripAny ps s = Some r -> exists p, In p ps /\ s = p ++ r.
Proof.
  induction ps as [|p ps IH]; intros s r H; [discriminate|].
  cbn [Go.stripAny] in H. destruct (Go.stripPrefix p s) as [r'|] eqn:E.
  - injection H as <-. exists p. split; [now left | now apply stripPrefix_Some].
  - destruct (IH s r H) as (q & Hq & Hs). exists q. split; [now right | exact Hs].
Qed.

Lemma stripPrefix_extend (p : string) : forall s t r,
  Go.stripPrefix p s = Some r -> Go.stripPrefix p (s ++ t) = Some (r ++ t).
Proof.
  intros s t r H. apply stripPrefix_Some in H. subst s.
  rewrite append_assoc. apply stripPrefix_app.
Qed.

Lemma stripAny_extend (ps : list string) : forall s t,
  Go.stripAny ps (s ++ t) = None -> Go.stripAny ps s = None.
Proof.
  induction ps as [|p ps IH]; intros s t H; [reflexivity|].
  cbn [Go.stripAny] in *. destruct (Go.stripPrefix p s) as [r|] eqn:E.
  - now rewrite (stripPrefix_extend p s t r E) in H.
  - destruct (Go.stripPrefix p (s ++ t)); [discriminate|]. now apply (IH s t).
Qed.

Lemma trimLeftWith_stable (ps : list string) (fuel : nat) (s : string) :
  Go.stripAny ps s = None -> Go.trimLeftWith ps fuel s = s.
Proof. intros H. destruct fuel; [reflexivity|]. cbn [Go.trimLeftWith]. now rewrite H. Qed.

Lemma trimLeftWith_done (ps : list string) :
  Forall (fun p => p <> "") ps ->
  forall fuel s, (String.length s <= fuel)%nat ->
    Go.stripAny ps (Go.trimLeftWith ps fuel s) = None.
Proof.
  intros Hps. induction fuel as [|f IH]; intros s Hs.
  - destruct s; [|cbn in Hs; lia]. cbn [Go.trimLeftWith].
    induction Hps as [|p ps Hp _ IHps]; [reflexivity|].
    cbn [Go.stripAny]. now rewrite (stripPrefix_empty p Hp).
  - cbn [Go.trimLeftWith]. destruct (Go.stripAny ps s) as [r|] eqn:E; [|exact E].
    apply IH. apply stripAny_Some in E as (p & Hp & ->).
    rewrite Forall_forall in Hps.
    specialize (Hps p (proj2 (list_elem_of_In _ _) Hp)).
    rewrite length_append in Hs. destruct p; [congruence|]. cbn in Hs. lia.
Qed.

Lemma trimLeftWith_suffix (ps : list string) : forall fuel s,
  exists a, s = a ++ Go.trimLeftWith ps fuel s.
Proof.
  induction fuel as [|f IH]; intros s; [now exists ""|].
  cbn [Go.trimLeftWith]. destruct (Go.stripAny ps s) as [r|] eqn:E; [|now exists ""].
  apply stripAny_Some in E as (p & _ & ->). destruct (IH r) as [a Ha].
  exists (p ++ a). rewrite append_assoc. now rewrite <- Ha.
Qed.

Lemma list_ascii_of_string_app (a b : string) :
  list_ascii_of_string (a ++ b) = app (list_ascii_of_string a) (list_ascii_of_string b).
Proof.
  induction a as [|c a IH]; [reflexivity|].
  change (String c a ++ b) with (String c (a ++ b)). cbn. now rewrite IH.
Qed.

Lemma string_of_list_ascii_app (a b : list ascii) :
  string_of_list_ascii (app a b) = string_of_list_ascii a ++ string_of_list_ascii b.
Proof.
  induction a as [|c a IH]; [reflexivity|]. cbn [app string_of_list_ascii].
  change (String c ?x ++ ?y) with (String c (x ++ y)). now rewrite IH.
Qed.

Lemma revString_involutive (s : string) : Go.revString (Go.revString s) = s.
Proof.
  unfold Go.revString.
  now rewrite list_ascii_of_string_of_list_ascii, rev_involutive,
    string_of_list_ascii_of_string.
Qed.

Lemma revString_app (a b : string) :
  Go.revString (a ++ b) = Go.revString b ++ Go.revString a.
Proof.
  unfold Go.revString.
  now rewrite list_ascii_of_string_app, rev_app_distr, string_of_list_ascii_app.
Qed.

Lemma revString_length (s : string) :
  String.length (Go.revString s) = String.length s.
Proof.
  unfold Go.revString.
  rewrite <- (string_of_list_ascii_of_string s) at 2.
  generalize (list_ascii_of_string s) as l. intros l.
  assert (H : forall l, String.length (string_of_list_ascii l) = length l).
  { induction l0 as [|c l0 IH]; [reflexivity|]. cbn. now rewrite IH. }
  now rewrite !H, length_rev.
Qed.

Lemma spaceRunes_not_empty : Forall (fun p => p <> "") Go.spaceRunes.
Proof. repeat (constructor; [discriminate|]). constructor. Qed.

Lemma revSpaceRunes_not_empty :
  Forall (fun p => p <> "") (map Go.revString Go.spaceRunes).
Proof. repeat (constructor; [discriminate|]). constructor. Qed.

(** Trimmed text has no white space at either end, and trimming it again
    changes nothing. *)
Lemma TrimSpace_trimmed (s : string) :
  Go.stripAny Go.spaceRunes (Go.TrimSpace s) = None /\
  Go.stripAny (map Go.revString Go.spaceRunes) (Go.revString (Go.TrimSpace s)) = None.
Proof.
  unfold Go.TrimSpace.
  set (l := Go.trimLeftWith Go.spaceRunes (String.length s) s).
  assert (Hl : Go.stripAny Go.spaceRunes l = None)
    by (apply trimLeftWith_done; [apply spaceRunes_not_empty | lia]).
  set (w := Go.trimLeftWith (map Go.revString Go.spaceRunes)
              (String.length (Go.revString l)) (Go.revString l)).
  assert (Hw : Go.stripAny (map Go.revString Go.spaceRunes) w = None)
    by (apply trimLeftWith_done; [apply revSpaceRunes_not_empty | lia]).
  split; [|now rewrite revString_involutive].
  destruct (trimLeftWith_suffix (map Go.revString Go.spaceRunes)
              (String.length (Go.revString l)) (Go.revString l)) as [a Ha].
  fold w in Ha.
  assert (El : l = Go.revString w ++ Go.revString a).
  { rewrite <- revString_app, <- Ha. now rewrite revString_involutive. }
  rewrite El in Hl. now apply stripAny_extend in Hl.
Qed.

Lemma TrimSpace_idempotent (s : string) :
  Go.TrimSpace (Go.TrimSpace s) = Go.TrimSpace s.
Proof.
  destruct (TrimSpace_trimmed s) as [H1 H2].
  generalize dependent (Go.TrimSpace s). intros u H1 H2.
  unfold Go.TrimSpace.
  rewrite (trimLeftWith_stable _ _ u H1), (trimLeftWith_stable _ _ _ H2).
  apply revString_involutive.
Qed.

Lemma TrimSpace_empty : Go.TrimSpace "" = "".
Proof. reflexivity. Qed.

(** *** Numbers written with [%d] and read with [strconv.ParseInt] *)

Lemma Atoi_FormatInt (n : Z) :
  Go.minInt64 <= n <= Go.maxInt64 -> Go.Atoi (Go.FormatInt n) = Some n.
Proof.
  intros Hn.
  assert (Hpos : forall m, 0 <= m <= Go.maxInt64 + 1 ->
            Go.FormatInt m <> "" /\ Go.allDigits (Go.FormatInt m) = true /\
            Go.decimalValue (Go.FormatInt m) = m).
  { intros m Hm. split; [apply FormatInt_not_empty|].
    split; [apply allDigits_FormatInt | apply decimalValue_FormatInt]; lia. }
  destruct (Z.ltb_spec n 0) as [Hneg|Hnn].
  - assert (E : Go.FormatInt n = String "-" (Go.FormatInt (- n))).
    { unfold Go.FormatInt. destruct (Z.ltb_spec n 0); [|lia].
      destruct (Z.ltb_spec (- n) 0); [lia | reflexivity]. }
    rewrite E. unfold Go.Atoi. cbn [Go.stripSign].
    destruct (Hpos (- n)) as (Hne & Hall & Hval).
    { unfold Go.minInt64, Go.maxInt64 in *. lia. }
    destruct (Go.FormatInt (- n)) as [|c r] eqn:Ef; [congruence|].
    rewrite Hall, Hval, Z.opp_involutive.
    destruct (Z.leb_spec Go.minInt64 n), (Z.leb_spec n Go.maxInt64);
      try lia; reflexivity.
  - destruct (Hpos n) as (Hne & Hall & Hval).
    { unfold Go.maxInt64 in *. lia. }
    unfold Go.Atoi. destruct (Go.FormatInt n) as [|c r] eqn:Ef; [congruence|].
    pose proof Hall as Hc. cbn [Go.allDigits] in Hc.
    apply andb_true_iff in Hc as [Hc _].
    rewrite (stripSign_digit c r Hc), Hall, Hval.
    destruct (Z.leb_spec Go.minInt64 n), (Z.leb_spec n Go.maxInt64);
      try lia; reflexivity.
Qed.

End GoStrings.


(** ** Checks: period and timeout *)

Module CheckDurations.
Import Check CheckSpec CheckExt GoFacts GoSeconds.

Lemma parseCheckTypeConfig_state c d c' d' :
  parseCheckTypeConfig c d = Ok (c', d') -> exists h, d' = setHTTP h d.
Proof.
  unfold parseCheckTypeConfig.
  destruct (String.eqb (Type_ c) apiCheckTypeHTTP).
  - destruct (checkAPIToStateHTTP c) as [[c1 h]|e]; [|discriminate].
    intros [= _ <-]. eauto.
  - destruct (existsb _ _); discriminate.
Qed.

(** What [checkRead] writes for the global attributes of a bundle. *)
Lemma checkAPIToState_global c d d' :
  checkAPIToState c d = Ok d' ->
  Id d' = Id d /\
  checkActiveAttr d' = checkAPIStatusToBool (Status c) /\
  checkCollectorAttr d' = Brokers c /\
  checkMetricLimitAttr d' = MetricLimit c /\
  checkNameAttr d' = DisplayName c /\
  checkNotesAttr d' = default "" (Notes c) /\
  checkPeriodAttr d' = Go.FormatInt (Period c) ++ "s" /\
  checkMetricAttr d' = map metricToState (Metrics c) /\
  mapM metricFilterToState (MetricFilters c) = Ok (checkMetricFilterAttr d') /\
  checkTagsAttr d' = Tags c /\
  checkTargetAttr d' = Target c /\
  Some (checkTimeoutAttr d') =
    Go.DurationString <$> Go.ParseDuration (Go.FormatFloat6 (Timeout c) ++ "s") /\
  checkTypeAttr d' = Type_ c.
Proof.
  unfold checkAPIToState.
  destruct (checkIDsByCollector _ _) as [byCollector|]; [|discriminate].
  cbn [rbind].
  destruct (mapM metricFilterToState (MetricFilters c)) as [filters|]; [|discriminate].
  cbn [rbind].
  destruct (Go.ParseDuration _) as [t|]; [|discriminate]. cbn [rbind].
  match goal with |- context [parseCheckTypeConfig c ?D] =>
    destruct (parseCheckTypeConfig c D) as [[c1 d1]|] eqn:E; [|discriminate]
  end.
  cbn [rbind]. apply parseCheckTypeConfig_state in E as [h ->].
  intros [= <-]. cbn. repeat split.
Qed.

(** The period and the timeout of an accepted bundle are those the two
    attributes parse to. *)
Lemma ParseConfig_durations c d c' :
  ParseConfig c d = Ok c' ->
  parsePeriod c d = Ok (Period c') /\ parseTimeout c d = Ok (Timeout c').
Proof.
  intros H.
  destruct (parsePeriod c d) as [period|e] eqn:Ep.
  2:{ unfold ParseConfig in H. rewrite Ep in H. discriminate. }
  destruct (parseTimeout c d) as [timeout|e] eqn:Et.
  2:{ unfold ParseConfig in H. rewrite Ep, Et in H. discriminate. }
  destruct (CheckFacts.ParseConfig_validated c d period timeout Ep Et)
    as (c1 & E & _ & _ & Hp & Ht & _).
  rewrite E in H. destruct (Validate c1); [|discriminate].
  cbn [rbind] in H. injection H as <-. now rewrite Hp, Ht.
Qed.

Lemma GetOkString_unit (s : string) : GetOkString (s ++ "s") = Some (s ++ "s").
Proof. unfold GetOkString. now rewrite append_unit_not_empty. Qed.

Lemma parsePeriod_whole_seconds (N : Z) c d :
  0 <= N <= 9223372036 -> checkPeriodAttr d = Go.FormatInt N ++ "s" ->
  parsePeriod c d = Ok N.
Proof.
  intros HN Hd. unfold parsePeriod. rewrite Hd, GetOkString_unit.
  rewrite ParseDuration_seconds
    by (first [apply FormatInt_not_empty | apply allDigits_FormatInt; lia]).
  rewrite decimalValue_FormatInt by lia.
  destruct (Z.leb_spec N 9223372036); [|lia].
  assert (H53 : 0 <= N < 2 ^ 53)
    by (replace (2 ^ 53) with 9007199254740992 by reflexivity; lia).
  rewrite (Seconds_whole N H53), uintOfFloat_int; [reflexivity|].
  replace (2 ^ 64) with 18446744073709551616 by reflexivity. lia.
Qed.

(** X1: a period written as a whole number of seconds, the digits of [N]
    followed by [s] with [N] at most 9223372036, parses to [N]; the bundle
    [ParseConfig] builds from it has the period [N], and [checkAPIToState]
    writes the configured text back for a bundle with that period. *)
Theorem period_whole_seconds_round_trip (N : Z) (c : CheckBundle)
    (d : ResourceData) :
  0 <= N <= 9223372036 ->
  checkPeriodAttr d = Go.FormatInt N ++ "s" ->
  parsePeriod c d = Ok N /\
  (forall c' c'' d0 d',
     ParseConfig c d = Ok c' -> Period c'' = Period c' ->
     checkAPIToState c'' d0 = Ok d' ->
     Period c' = N /\ checkPeriodAttr d' = checkPeriodAttr d).
Proof.
  intros HN Hd. pose proof (parsePeriod_whole_seconds N c d HN Hd) as Hp.
  split; [exact Hp|]. intros c' c'' d0 d' Hc Hsame Hr.
  apply ParseConfig_durations in Hc as [Hc _]. rewrite Hp in Hc.
  injection Hc as Hc.
  apply checkAPIToState_global in Hr
    as (_ & _ & _ & _ & _ & _ & Hr & _).
  split; [congruence|]. rewrite Hr, Hsame, <- Hc, Hd. reflexivity.
Qed.

Lemma period_whole_seconds_round_trip_witness :
  parsePeriod newCheck (exampleCheck true (-1)) = Ok 60 /\
  match roundTrip (exampleCheck true (-1)) with
  | Ok d' => checkPeriodAttr d' = "60s"
  | Err _ => False
  end.
Proof.
  assert (H60 : 0 <= 60 <= 9223372036) by lia.
  destruct (period_whole_seconds_round_trip 60 newCheck (exampleCheck true (-1))
              H60 eq_refl) as [H1 H2].
  split; [exact H1|].
  unfold roundTrip.
  destruct (ParseConfig newCheck (exampleCheck true (-1))) as [c|e] eqn:E.
  - cbn [rbind].
    destruct (checkAPIToState (stored c) _) as [d'|e] eqn:E'.
    + apply (H2 c (stored c) _ d' eq_refl eq_refl E').
    + vm_compute in E. injection E as <-. vm_compute in E'. discriminate E'.
  - vm_compute in E. discriminate E.
Defined.

Lemma parseTimeout_whole_seconds (N : Z) c d :
  0 <= N < 2 ^ 24 -> checkTimeoutAttr d = Go.FormatInt N ++ "s" ->
  parseTimeout c d = Ok (inject_Z N).
Proof.
  intros HN Hd. unfold parseTimeout. rewrite Hd, GetOkString_unit.
  replace (2 ^ 24) with 16777216 in HN by reflexivity.
  rewrite ParseDuration_seconds
    by (first [apply FormatInt_not_empty | apply allDigits_FormatInt; lia]).
  rewrite decimalValue_FormatInt by lia.
  destruct (Z.leb_spec N 9223372036); [|lia].
  assert (H53 : 0 <= N < 2 ^ 53)
    by (replace (2 ^ 53) with 9007199254740992 by reflexivity; lia).
  rewrite (Seconds_whole N H53), float32_int; [reflexivity|].
  replace (2 ^ 24) with 16777216 by reflexivity. lia.
Qed.

(** X2: a timeout written as a whole number of seconds [N] below [2^24]
    parses to the number [N]; for a bundle with that timeout
    [checkAPIToState] writes [N] seconds the way [Duration.String] prints
    them, which is the configured text when [N] is below 60. *)
Theorem timeout_whole_seconds_round_trip (N : Z) (c : CheckBundle)
    (d : ResourceData) :
  0 <= N < 2 ^ 24 ->
  checkTimeoutAttr d = Go.FormatInt N ++ "s" ->
  parseTimeout c d = Ok (inject_Z N) /\
  (forall c' c'' d0 d',
     ParseConfig c d = Ok c' -> Timeout c'' = Timeout c' ->
     checkAPIToState c'' d0 = Ok d' ->
     checkTimeoutAttr d' = Go.DurationString (N * 10 ^ 9)) /\
  (N < 60 -> Go.DurationString (N * 10 ^ 9) = checkTimeoutAttr d).
Proof.
  intros HN Hd. pose proof (parseTimeout_whole_seconds N c d HN Hd) as Hp.
  split; [exact Hp|]. split.
  - intros c' c'' d0 d' Hc Hsame Hr.
    apply ParseConfig_durations in Hc as [_ Hc]. rewrite Hp in Hc.
    injection Hc as Hc.
    apply checkAPIToState_global in Hr
      as (_ & _ & _ & _ & _ & _ & _ & _ & _ & _ & _ & Hr & _).
    rewrite Hsame, <- Hc in Hr.
    replace (2 ^ 24) with 16777216 in HN by reflexivity.
    rewrite ParseDuration_FormatFloat6_int in Hr by lia.
    cbn in Hr. now injection Hr.
  - intros H60. rewrite Hd. destruct (Z.eq_dec N 0) as [->|Hz]; [reflexivity|].
    apply DurationString_seconds. lia.
Qed.

Lemma timeout_whole_seconds_round_trip_witness :
  parseTimeout newCheck (exampleCheck true (-1)) = Ok (inject_Z 10) /\
  match roundTrip (exampleCheck true (-1)) with
  | Ok d' => checkTimeoutAttr d' = Go.DurationString (10 * 10 ^ 9)
  | Err _ => False
  end /\
  Go.DurationString (10 * 10 ^ 9) = "10s".
Proof.
  assert (H10 : 0 <= 10 < 2 ^ 24) by (split; [lia | reflexivity]).
  destruct (timeout_whole_seconds_round_trip 10 newCheck (exampleCheck true (-1))
              H10 eq_refl) as (H1 & H2 & H3).
  split; [exact H1|]. split.
  - unfold roundTrip.
    destruct (ParseConfig newCheck (exampleCheck true (-1))) as [c|e] eqn:E.
    + cbn [rbind].
      destruct (checkAPIToState (stored c) _) as [d'|e] eqn:E'.
      * apply (H2 c (stored c) _ d' eq_refl eq_refl E').
      * vm_compute in E. injection E as <-. vm_compute in E'. discriminate E'.
    + vm_compute in E. discriminate E.
  - apply H3. lia.
Defined.

End CheckDurations.


(** ** Checks: global attributes, metric filters, validation by type, reading *)

Module CheckAttributes.
Import Check CheckSpec CheckExt CheckDurations.

(** *** Metric filters *)

Lemma metricFilter_round_trip (b : metricFilterBlock) :
  completeFilter b = true -> metricFilterToState (metricFilterToAPI b) = Ok b.
Proof.
  destruct b as [[t|] [re|] [q|] [cm|]]; try discriminate. reflexivity.
Qed.

Lemma metricFilters_round_trip (l : list metricFilterBlock) :
  forallb completeFilter l = true ->
  mapM metricFilterToState (map metricFilterToAPI l) = Ok l.
Proof.
  induction l as [|b l IH]; [reflexivity|].
  cbn [forallb map mapM]. intros [Hb Hl]%andb_true_iff.
  rewrite (metricFilter_round_trip b Hb), (IH Hl). reflexivity.
Qed.

(** X3: a [metric_filter] block with its four keys is sent to the API and
    read back unchanged; an API filter of five elements with [tags] in
    third place is read and sent back unchanged; one of three elements is
    read with the third element as its comment and sent back with an empty
    tag query; and [metricFilterToState] fails exactly on a filter of fewer
    than three elements or, with [tags] in third place, fewer than five. *)
Theorem metric_filter_round_trip :
  (forall b, completeFilter b = true ->
     metricFilterToState (metricFilterToAPI b) = Ok b) /\
  (forall t re q cm,
     (let m := [t; re; "tags"; q; cm] in
      exists b, metricFilterToState m = Ok b /\ metricFilterToAPI b = m)) /\
  (forall t re cm, cm <> "tags" ->
     exists b, metricFilterToState [t; re; cm] = Ok b /\
               metricFilterToAPI b = [t; re; "tags"; ""; cm]) /\
  (forall m, isErr (metricFilterToState m) = true <->
     (length m < 3)%nat \/
     (nth_error m 2 = Some "tags" /\ (length m < 5)%nat)).
Proof.
  split; [exact metricFilter_round_trip|]. split; [|split].
  - intros t re q cm. eexists. split; reflexivity.
  - intros t re cm Hcm. eexists. unfold metricFilterToState.
    destruct (String.eqb_spec cm "tags"); [contradiction|].
    split; reflexivity.
  - intros m. unfold metricFilterToState.
    destruct m as [|t [|re [|m2 rest]]]; cbn [isErr length nth_error];
      try (split; [intros _; left; lia | reflexivity]).
    destruct (String.eqb_spec m2 "tags") as [->|Hne].
    + destruct rest as [|m3 [|m4 rest]]; cbn [isErr length].
      * split; [intros _; right; split; [reflexivity | lia] | reflexivity].
      * split; [intros _; right; split; [reflexivity | lia] | reflexivity].
      * split; [discriminate | intros [H|[_ H]]; lia].
    + cbn [isErr]. split; [discriminate|].
      intros [H|[H _]]; [lia | congruence].
Qed.

Lemma metric_filter_round_trip_witness :
  metricFilterToState
    (metricFilterToAPI
       {| filterTypeAttr := Some "allow"; filterRegexAttr := Some "^code$";
          filterTagQueryAttr := Some ""; filterCommentAttr := Some "status" |})
  = Ok {| filterTypeAttr := Some "allow"; filterRegexAttr := Some "^code$";
          filterTagQueryAttr := Some ""; filterCommentAttr := Some "status" |} /\
  (exists b, metricFilterToState ["deny"; "."; "rest"] = Ok b /\
             metricFilterToAPI b = ["deny"; "."; "tags"; ""; "rest"]) /\
  isErr (metricFilterToState ["deny"; "."]) = true.
Proof.
  pose proof metric_filter_round_trip as (H1 & _ & H3 & H4).
  split; [|split].
  - apply H1. reflexivity.
  - apply H3. discriminate.
  - apply H4. left. cbn. lia.
Defined.

(** *** Global attributes *)

Lemma default_GetOkString (s : string) : default "" (GetOkString s) = s.
Proof. unfold GetOkString. now destruct (String.eqb_spec s ""). Qed.

Lemma default_GetOkList {A} (l : list A) : default [] (GetOkList l) = l.
Proof. now destruct l. Qed.

Lemma checkConfigToAPI_globals c d c' :
  checkConfigToAPI c d = Ok c' ->
  Brokers c' = Brokers c /\ DisplayName c' = DisplayName c /\
  Notes c' = Notes c /\ Tags c' = Tags c /\
  MetricFilters c' = MetricFilters c /\
  (Target c <> "" -> Target c' = Target c).
Proof.
  unfold checkConfigToAPI. destruct (GetOkList (checkHTTPAttr d)) as [l|].
  - unfold checkConfigToAPIHTTP. destruct l as [|h l]; [discriminate|].
    destruct (checkHTTPURLAttr h) as [v|]; intros [= <-]; cbn; repeat split.
    intros Ht. destruct (Target c); [contradiction | reflexivity].
  - intros [= <-]. repeat split.
Qed.

Lemma Fixup_globals c :
  Brokers (Fixup c) = Brokers c /\ DisplayName (Fixup c) = DisplayName c /\
  Notes (Fixup c) = Notes c /\ Tags (Fixup c) = Tags c /\
  MetricFilters (Fixup c) = MetricFilters c /\ Target (Fixup c) = Target c.
Proof. unfold Fixup. repeat case_match; repeat split. Qed.

(** The global attributes of the bundle [ParseConfig] builds from a fresh
    one. *)
Lemma ParseConfig_globals d c :
  ParseConfig newCheck d = Ok c ->
  Brokers c = checkCollectorAttr d /\ DisplayName c = checkNameAttr d /\
  default "" (Notes c) = checkNotesAttr d /\ Tags c = checkTagsAttr d /\
  MetricFilters c = map metricFilterToAPI (checkMetricFilterAttr d) /\
  (checkTargetAttr d <> "" -> Target c = checkTargetAttr d).
Proof.
  unfold ParseConfig.
  destruct (parsePeriod newCheck d) as [period|]; [|discriminate].
  destruct (parseTimeout newCheck d) as [timeout|]; [|discriminate].
  cbn [rbind].
  match goal with |- context [checkConfigToAPI ?C d] =>
    destruct (checkConfigToAPI C d) as [c1|] eqn:E; [|discriminate]
  end.
  cbn [rbind]. destruct (Validate (Fixup c1)); [|discriminate].
  cbn [rbind]. intros [= <-].
  apply checkConfigToAPI_globals in E as (Eb & En & Eo & Et & Ef & Eg).
  destruct (Fixup_globals c1) as (-> & -> & -> & -> & -> & ->).
  rewrite Eb, En, Eo, Et, Ef.
  cbn [Brokers DisplayName Notes Tags MetricFilters Target newCheck NewCheckBundle] in *.
  rewrite !default_GetOkList, default_GetOkString.
  repeat split.
  - unfold GetOkString. now destruct (String.eqb_spec (checkNotesAttr d) "").
  - now destruct (checkMetricFilterAttr d).
  - intros Ht. rewrite Eg; rewrite default_GetOkString; [reflexivity | exact Ht].
Qed.

(** X4: when [ParseConfig] accepts a configuration for a new check and the
    API returns a bundle with the brokers, display name, notes, tags, target
    and metric filters that were sent, [checkAPIToState] writes back the
    configured collectors, name, notes and tags, the configured target when
    it is not empty, and the configured metric filters when each block has
    its four keys. *)
Theorem global_attributes_round_trip (d : ResourceData) (c c' : CheckBundle)
    (d0 d' : ResourceData) :
  ParseConfig newCheck d = Ok c ->
  Brokers c' = Brokers c -> DisplayName c' = DisplayName c ->
  Notes c' = Notes c -> Tags c' = Tags c -> Target c' = Target c ->
  MetricFilters c' = MetricFilters c ->
  checkAPIToState c' d0 = Ok d' ->
  checkCollectorAttr d' = checkCollectorAttr d /\
  checkNameAttr d' = checkNameAttr d /\
  checkNotesAttr d' = checkNotesAttr d /\
  checkTagsAttr d' = checkTagsAttr d /\
  (checkTargetAttr d <> "" -> checkTargetAttr d' = checkTargetAttr d) /\
  (forallb completeFilter (checkMetricFilterAttr d) = true ->
   checkMetricFilterAttr d' = checkMetricFilterAttr d).
Proof.
  intros Hc Eb En Eo Et Eg Ef Hr.
  apply ParseConfig_globals in Hc as (Hb & Hn & Ho & Ht & Hf & Hg).
  apply checkAPIToState_global in Hr
    as (_ & _ & Rb & _ & Rn & Ro & _ & _ & Rf & Rt & Rg & _).
  rewrite Rb, Rn, Ro, Rt, Rg, Eb, En, Eo, Et, Eg. repeat split; try assumption.
  intros Hall. rewrite Ef, Hf, (metricFilters_round_trip _ Hall) in Rf.
  now injection Rf.
Qed.

Lemma global_attributes_round_trip_witness :
  match roundTrip (exampleCheck true (-1)) with
  | Ok d' =>
      checkCollectorAttr d' = ["/broker/1"] /\
      checkNameAttr d' = "API health" /\
      checkNotesAttr d' = "" /\
      checkTagsAttr d' = ["app:api"] /\
      checkTargetAttr d' = "api.example.com" /\
      checkMetricFilterAttr d' = []
  | Err _ => False
  end.
Proof.
  unfold roundTrip.
  destruct (ParseConfig newCheck (exampleCheck true (-1))) as [c|e] eqn:E.
  - cbn [rbind].
    destruct (checkAPIToState (stored c) _) as [d'|e] eqn:E'.
    + destruct (global_attributes_round_trip _ c (stored c) _ d' E
                  eq_refl eq_refl eq_refl eq_refl eq_refl eq_refl E')
        as (H1 & H2 & H3 & H4 & H5 & H6).
      repeat split; try assumption.
      * apply H5. discriminate.
      * apply H6. reflexivity.
    + vm_compute in E. injection E as <-. vm_compute in E'. discriminate E'.
  - vm_compute in E. discriminate E.
Defined.

(** *** Validation by check type *)

Lemma Fixup_other c :
  Type_ c <> apiCheckTypeCloudWatchAttr -> Fixup c = c.
Proof.
  intros H. unfold Fixup.
  destruct (String.eqb_spec (Type_ c) apiCheckTypeCloudWatchAttr);
    [contradiction | reflexivity].
Qed.

Lemma Validate_by_type c :
  (Metrics c = [] <-> MetricFilters c <> []) -> timeoutExceedsPeriod c = false ->
  Validate c =
    if String.eqb (Type_ c) apiCheckTypeCloudWatchAttr then
      if negb ((Period c =? 60) || (Period c =? 300))
      then Err ErrCloudWatchPeriod else Ok tt
    else if String.eqb (Type_ c) apiCheckTypeConsulAttr then
      match Config c !! config.URL with
      | Some v => if String.eqb v "" then Err ErrConsulMode else Ok tt
      | None => Err ErrConsulMode
      end
    else Ok tt.
Proof.
  intros Hx Ht. rewrite CheckFacts.validate_cases, Ht.
  destruct (Metrics c), (MetricFilters c); try reflexivity.
  - exfalso. now apply Hx.
  - exfalso. destruct Hx as [_ Hx]. discriminate Hx. discriminate.
Qed.

(** X5: for a bundle that passes the two general rules of [Validate]
    (metrics or metric filters but not both, timeout not above the period):
    a cloudwatch check is valid after [Fixup] exactly when its period is 60
    or 300, the error otherwise being the period error, and [Fixup] sets the
    granularity to 1 or 5 minutes and changes nothing for another period; a
    consul check is valid exactly when its configuration has a non-empty
    URL; a check of any other type is left alone by [Fixup] and valid. *)
Theorem validation_by_check_type (c : CheckBundle) :
  (Metrics c = [] <-> MetricFilters c <> []) ->
  timeoutExceedsPeriod c = false ->
  (Type_ c = apiCheckTypeCloudWatchAttr ->
     (Validate (Fixup c) = Ok tt <-> Period c = 60 \/ Period c = 300) /\
     (Validate (Fixup c) <> Ok tt -> Validate (Fixup c) = Err ErrCloudWatchPeriod) /\
     (Period c = 60 -> Config (Fixup c) !! config.Granularity = Some "1") /\
     (Period c = 300 -> Config (Fixup c) !! config.Granularity = Some "5") /\
     (Period c <> 60 -> Period c <> 300 -> Fixup c = c)) /\
  (Type_ c = apiCheckTypeConsulAttr ->
     Fixup c = c /\
     (Validate c = Ok tt <->
      exists v, Config c !! config.URL = Some v /\ v <> "") /\
     (Validate c <> Ok tt -> Validate c = Err ErrConsulMode)) /\
  (Type_ c <> apiCheckTypeCloudWatchAttr -> Type_ c <> apiCheckTypeConsulAttr ->
     Fixup c = c /\ Validate c = Ok tt).
Proof.
  intros Hx Ht. split; [|split].
  - intros Hty.
    destruct (CheckFacts.Fixup_core c) as [(Hm & Hf & Hp & Hti) Hty'].
    assert (Hx' : Metrics (Fixup c) = [] <-> MetricFilters (Fixup c) <> [])
      by now rewrite Hm, Hf.
    assert (Ht' : timeoutExceedsPeriod (Fixup c) = false).
    { unfold timeoutExceedsPeriod in *. now rewrite Hp, Hti. }
    rewrite (Validate_by_type _ Hx' Ht'), Hty', Hty, Hp.
    change (String.eqb apiCheckTypeCloudWatchAttr apiCheckTypeCloudWatchAttr)
      with true. cbv iota.
    unfold Fixup. rewrite Hty.
    change (String.eqb apiCheckTypeCloudWatchAttr apiCheckTypeCloudWatchAttr)
      with true. cbv iota.
    destruct (Z.eqb_spec (Period c) 60) as [E60|N60];
      [|destruct (Z.eqb_spec (Period c) 300) as [E300|N300]]; cbn [orb negb].
    + split; [split; [intros _; now left | reflexivity]|].
      split; [intros H; now contradiction H|].
      split; [intros _; apply lookup_insert_eq|].
      split; [intros H; lia|]. intros H; contradiction.
    + split; [split; [intros _; now right | reflexivity]|].
      split; [intros H; now contradiction H|].
      split; [intros H; lia|].
      split; [intros _; apply lookup_insert_eq|]. intros _ H; contradiction.
    + split; [split; [discriminate | intros [H|H]; contradiction]|].
      split; [reflexivity|].
      split; [intros H; contradiction|].
      split; [intros H; contradiction|]. reflexivity.
  - intros Hty.
    assert (Hcw : Type_ c <> apiCheckTypeCloudWatchAttr)
      by (rewrite Hty; discriminate).
    split; [apply Fixup_other, Hcw|].
    rewrite (Validate_by_type _ Hx Ht), Hty.
    change (String.eqb apiCheckTypeConsulAttr apiCheckTypeCloudWatchAttr)
      with false.
    change (String.eqb apiCheckTypeConsulAttr apiCheckTypeConsulAttr) with true.
    cbv iota.
    destruct (Config c !! config.URL) as [v|].
    + destruct (String.eqb_spec v "") as [->|Hv].
      * split; [|reflexivity]. split; [discriminate|].
        intros (v & [= <-] & Hv). contradiction.
      * split; [|intros H; contradiction H; reflexivity].
        split; [eauto | reflexivity].
    + split; [|reflexivity]. split; [discriminate|].
      intros (v & Hv & _). discriminate.
  - intros Hcw Hco. split; [apply Fixup_other, Hcw|].
    rewrite (Validate_by_type _ Hx Ht).
    destruct (String.eqb_spec (Type_ c) apiCheckTypeCloudWatchAttr);
      [contradiction|].
    destruct (String.eqb_spec (Type_ c) apiCheckTypeConsulAttr);
      [contradiction|]. reflexivity.
Qed.

Lemma validation_by_check_type_witness :
  (Validate (Fixup (withType "cloudwatch" (exampleBundle [exampleMetric] [] 300 10)))
     = Ok tt <-> 300 = 60 \/ 300 = 300) /\
  Config (Fixup (withType "cloudwatch" (exampleBundle [exampleMetric] [] 300 10)))
    !! config.Granularity = Some "5" /\
  Validate (Fixup (withType "cloudwatch" (exampleBundle [exampleMetric] [] 120 10)))
    = Err ErrCloudWatchPeriod /\
  Validate (withType "consul" (exampleBundle [exampleMetric] [] 60 10))
    = Err ErrConsulMode /\
  Validate (withType "http" (exampleBundle [exampleMetric] [] 60 10)) = Ok tt.
Proof.
  assert (Hx : forall t p,
             Metrics (withType t (exampleBundle [exampleMetric] [] p 10)) = [] <->
             MetricFilters (withType t (exampleBundle [exampleMetric] [] p 10)) <> [])
    by (intros t p; split; [discriminate | intros H; now contradiction H]).
  pose proof (validation_by_check_type
                (withType "cloudwatch" (exampleBundle [exampleMetric] [] 300 10))
                (Hx _ _) eq_refl) as (A & _ & _).
  pose proof (validation_by_check_type
                (withType "cloudwatch" (exampleBundle [exampleMetric] [] 120 10))
                (Hx _ _) eq_refl) as (B & _ & _).
  pose proof (validation_by_check_type
                (withType "consul" (exampleBundle [exampleMetric] [] 60 10))
                (Hx _ _) eq_refl) as (_ & C & _).
  pose proof (validation_by_check_type
                (withType "http" (exampleBundle [exampleMetric] [] 60 10))
                (Hx _ _) eq_refl) as (_ & _ & D).
  destruct (A eq_refl) as (A1 & _ & _ & A4 & _).
  destruct (B eq_refl) as (_ & B2 & _).
  destruct (C eq_refl) as (_ & _ & C3).
  split; [exact A1|]. split; [apply A4; reflexivity|]. split; [|split].
  - apply B2. discriminate.
  - apply C3. discriminate.
  - apply D; discriminate.
Defined.

(** *** The checks of the collectors *)

Lemma checkIDsByCollectorLoop_lookup (brokers : list string) :
  forall checks m0 m,
    checkIDsByCollectorLoop brokers checks m0 = Ok m ->
    (forall b, ~ In b brokers -> m !! b = m0 !! b) /\
    (forall (i : nat) b, brokers !! i = Some b ->
       (forall j : nat, (i < j)%nat -> brokers !! j <> Some b) ->
       m !! b = checks !! i).
Proof.
  induction brokers as [|b0 brokers IH]; intros checks m0 m H.
  - injection H as <-. split; [reflexivity|]. intros i b Hb. discriminate.
  - destruct checks as [|c0 checks]; [discriminate|].
    cbn [checkIDsByCollectorLoop] in H. apply IH in H as [Hout Hin]. split.
    + intros b Hb. rewrite Hout by (intros ?; apply Hb; now right).
      apply lookup_insert_ne. intros ->. apply Hb. now left.
    + intros [|i] b Hb Hlast.
      * injection Hb as <-. rewrite Hout.
        { now rewrite lookup_insert_eq. }
        intros [j Hj]%list_elem_of_In%list_elem_of_lookup.
        apply (Hlast (S j)); [lia | exact Hj].
      * apply Hin; [exact Hb|]. intros j Hj. apply (Hlast (S j)). lia.
Qed.

Lemma checkIDsByCollectorLoop_error (brokers : list string) :
  forall checks m0,
    isErr (checkIDsByCollectorLoop brokers checks m0) = true <->
    (length checks < length brokers)%nat.
Proof.
  induction brokers as [|b0 brokers IH]; intros checks m0.
  - cbn. split; [discriminate | lia].
  - destruct checks as [|c0 checks]; cbn [checkIDsByCollectorLoop isErr length].
    + split; [lia | reflexivity].
    + rewrite IH. lia.
Qed.

Lemma checkIDsByCollector_outside (brokers : list string) :
  forall checks m b,
    checkIDsByCollector brokers checks = Ok m -> ~ In b brokers -> m !! b = None.
Proof.
  induction brokers as [|b0 brokers IH]; intros checks m b H Hb.
  - injection H as <-. apply lookup_empty.
  - destruct checks as [|c0 checks]; [discriminate|].
    cbn [checkIDsByCollector] in H.
    destruct (checkIDsByCollector brokers checks) as [m1|] eqn:E; [|discriminate].
    cbn [rbind] in H. injection H as <-.
    rewrite lookup_insert_ne by (intros ->; apply Hb; now left).
    eapply IH; [exact E|]. intros ?. apply Hb. now right.
Qed.

Lemma checkIDsByCollectorLoop_distinct (brokers : list string) :
  NoDup brokers ->
  forall checks m0,
    checkIDsByCollectorLoop brokers checks m0 =
      (let* m := checkIDsByCollector brokers checks in Ok (m ∪ m0)).
Proof.
  induction 1 as [|b0 brokers Hb0 Hnd IH]; intros checks m0.
  - cbn. now rewrite (left_id ∅ _).
  - destruct checks as [|c0 checks]; [reflexivity|].
    cbn [checkIDsByCollectorLoop checkIDsByCollector]. rewrite IH.
    destruct (checkIDsByCollector brokers checks) as [m1|] eqn:E; [|reflexivity].
    cbn [rbind]. f_equal.
    rewrite <- insert_union_l. symmetry. apply insert_union_r.
    eapply checkIDsByCollector_outside; [exact E|].
    now rewrite <- list_elem_of_In.
Qed.

(** X6: the loop of [checkRead] that maps brokers to check IDs fails
    exactly when there are fewer checks than brokers; when it succeeds, a
    broker that is not listed has no entry and a listed broker maps to the
    check at its last position in the list; and when no broker is listed
    twice the loop computes [checkIDsByCollector]. *)
Theorem check_ids_by_collector (brokers checks : list string) :
  (isErr (checkIDsByCollectorLoop brokers checks ∅) = true <->
   (length checks < length brokers)%nat) /\
  (forall m, checkIDsByCollectorLoop brokers checks ∅ = Ok m ->
     (forall b, ~ In b brokers -> m !! b = None) /\
     (forall (i : nat) b, brokers !! i = Some b ->
        (forall j : nat, (i < j)%nat -> brokers !! j <> Some b) ->
        m !! b = checks !! i)) /\
  (NoDup brokers ->
   checkIDsByCollectorLoop brokers checks ∅ = checkIDsByCollector brokers checks).
Proof.
  split; [apply checkIDsByCollectorLoop_error|]. split.
  - intros m H. apply checkIDsByCollectorLoop_lookup in H as [Hout Hin].
    split; [|exact Hin]. intros b Hb. rewrite Hout by exact Hb. apply lookup_empty.
  - intros Hnd. rewrite (checkIDsByCollectorLoop_distinct _ Hnd).
    destruct (checkIDsByCollector brokers checks) as [m|]; [|reflexivity].
    cbn [rbind]. now rewrite (right_id ∅ _).
Qed.

Lemma check_ids_by_collector_witness :
  isErr (checkIDsByCollectorLoop ["/broker/1"; "/broker/2"] ["/check/7"] ∅) = true /\
  match checkIDsByCollectorLoop ["/broker/1"; "/broker/2"; "/broker/1"]
          ["/check/7"; "/check/8"; "/check/9"] ∅ with
  | Ok m => m !! "/broker/1" = Some "/check/9" /\ m !! "/broker/3" = None
  | Err _ => False
  end /\
  checkIDsByCollectorLoop ["/broker/1"; "/broker/2"] ["/check/7"; "/check/8"] ∅
    = checkIDsByCollector ["/broker/1"; "/broker/2"] ["/check/7"; "/check/8"].
Proof.
  split; [|split].
  - apply (proj1 (check_ids_by_collector _ _)). cbn. lia.
  - destruct (checkIDsByCollectorLoop _ _ ∅) as [m|e] eqn:E.
    + destruct (proj1 (proj2 (check_ids_by_collector _ _)) m E) as [Hout Hin].
      split.
      * apply (Hin 2%nat "/broker/1"); [reflexivity|].
        intros [|[|[|j]]] Hj; try lia; discriminate.
      * apply Hout. intros [H|[H|[H|[]]]]; discriminate H.
    + vm_compute in E. discriminate E.
  - apply (proj2 (proj2 (check_ids_by_collector _ _))).
    apply NoDup_cons. split; [|apply NoDup_singleton].
    intros H%list_elem_of_singleton. discriminate H.
Defined.

(** *** Reading a check *)

(** X7: [checkRead] returns the API error when the bundle cannot be
    fetched; a bundle fetched with an empty CID clears the resource ID and
    yields the warning that the check bundle does not exist; and whenever
    [checkRead] succeeds the ID is the CID of the fetched bundle, with no
    diagnostic exactly when that CID is not empty. *)
Theorem check_read_outcomes (ctxt : Client) (d : ResourceData) :
  (forall msg, FetchCheckBundle ctxt (Id d) = Err msg ->
     checkRead ctxt d = Err (ErrAPI msg)) /\
  (forall c, FetchCheckBundle ctxt (Id d) = Ok c -> CID c = "" ->
     checkRead ctxt d
       = Ok (SetId "" d, [Warning "Check Bundle does not exist" (Id d)])) /\
  (forall d' diags, checkRead ctxt d = Ok (d', diags) ->
     exists c, FetchCheckBundle ctxt (Id d) = Ok c /\ Id d' = CID c /\
               (diags = [] <-> CID c <> "")).
Proof.
  unfold checkRead, loadCheck. split; [|split].
  - intros msg ->. reflexivity.
  - intros c Hc Hcid. rewrite Hc. cbn [rbind]. rewrite Hcid. reflexivity.
  - intros d' diags. destruct (FetchCheckBundle ctxt (Id d)) as [c|msg];
      [|discriminate].
    cbn [rbind]. destruct (String.eqb_spec (CID c) "") as [E|E].
    + intros [= <- <-]. exists c. rewrite E. repeat split; try discriminate.
      intros H. now contradiction H.
    + destruct (checkAPIToState c (SetId (CID c) d)) as [d1|] eqn:E1;
        [|discriminate].
      cbn [rbind]. intros [= <- <-]. exists c.
      apply checkAPIToState_global in E1 as (-> & _).
      split; [reflexivity|]. split; [reflexivity|]. split; [intros _; exact E | reflexivity].
Qed.

Lemma check_read_outcomes_witness :
  checkRead goneCheckClient createdCheck = Err (ErrAPI "404 Not Found") /\
  checkRead
    {| FetchCheckBundle := fun _ => Ok NewCheckBundle;
       Delete := fun _ => Ok true |} createdCheck
  = Ok (SetId "" createdCheck,
        [Warning "Check Bundle does not exist" "/check_bundle/1"]).
Proof.
  split.
  - apply (proj1 (check_read_outcomes goneCheckClient createdCheck)). reflexivity.
  - apply (proj1 (proj2 (check_read_outcomes _ createdCheck)) NewCheckBundle);
      reflexivity.
Defined.

End CheckAttributes.


(** ** Checks: the [http] block, from the configuration to the API and back *)

Module CheckHTTP.
Import Check CheckSpec CheckExt GoFacts GoSeconds GoStrings.

(** *** Prefixes of keys *)

Lemma substring_all (s : string) : substring 0 (String.length s) s = s.
Proof. induction s as [|c s IH]; [reflexivity|]. cbn. now rewrite IH. Qed.

Lemma substring_split (n : nat) : forall s,
  (n <= String.length s)%nat ->
  s = substring 0 n s ++ substring n (String.length s - n) s.
Proof.
  induction n as [|n IH]; intros s Hn.
  - rewrite Nat.sub_0_r, substring_all. now destruct s.
  - destruct s as [|c s]; [cbn in Hn; lia|].
    cbn [substring String.length Nat.sub].
    change (String c ?a ++ ?b) with (String c (a ++ b)).
    f_equal. apply IH. cbn in Hn. lia.
Qed.

Lemma long_header_key (k : string) :
  long k = true -> hasHeaderPrefix k = true ->
  k = config.HeaderPrefix ++ headerName k.
Proof.
  unfold long, hasHeaderPrefix, headerName.
  intros Hl%Nat.ltb_lt Hp%String.eqb_eq.
  rewrite <- Hp at 1. apply substring_split. lia.
Qed.

Lemma headerName_app (name : string) :
  headerName (config.HeaderPrefix ++ name) = name.
Proof.
  unfold headerName.
  change (substring 0 (String.length name - 0) name = name).
  rewrite Nat.sub_0_r. apply substring_all.
Qed.

Lemma long_app (name : string) :
  long (config.HeaderPrefix ++ name) = negb (String.eqb name "").
Proof. now destruct name. Qed.

Lemma no_prefix_ne (k name : string) :
  hasHeaderPrefix k = false -> k <> config.HeaderPrefix ++ name.
Proof.
  intros H ->.
  assert (hasHeaderPrefix (config.HeaderPrefix ++ name) = true)
    by (destruct name; reflexivity).
  congruence.
Qed.

(** *** The headers [checkAPIToStateHTTP] collects *)

Lemma collectHeaders_headers (cfg swamp : gmap string string) :
  forall name,
    fst (collectHeaders cfg swamp) !! name =
      if String.eqb name "" then None
      else cfg !! (config.HeaderPrefix ++ name).
Proof.
  unfold collectHeaders.
  apply (map_fold_weak_ind
    (fun (r : gmap string string * gmap string string) (m : gmap string string) =>
       forall name, fst r !! name =
         if String.eqb name "" then None
         else m !! (config.HeaderPrefix ++ name))).
  - intros name. cbn [fst]. rewrite !lookup_empty. now destruct (String.eqb name "").
  - intros i x m r Hi IH name.
    destruct (Nat.leb_spec (String.length i) headerPrefixLen) as [Hshort|Hlong].
    + rewrite IH. destruct (String.eqb_spec name "") as [->|Hname]; [reflexivity|].
      rewrite lookup_insert_ne; [reflexivity|]. intros ->.
      pose proof (long_app name) as Hl. unfold long in Hl.
      destruct (String.eqb_spec name ""); [contradiction|].
      apply Nat.ltb_lt in Hl. lia.
    + assert (Hl : long i = true) by (apply Nat.ltb_lt; exact Hlong).
      cbn [fst]. destruct (hasHeaderPrefix i) eqn:Ep.
      * pose proof (long_header_key i Hl Ep) as Ei.
        assert (Hhn : headerName i <> "").
        { intros E. rewrite Ei, long_app, E in Hl. discriminate. }
        destruct (decide (name = headerName i)) as [->|Hne].
        -- rewrite lookup_insert_eq. destruct (String.eqb_spec (headerName i) "");
             [contradiction|].
           now rewrite <- Ei, lookup_insert_eq.
        -- rewrite lookup_insert_ne by congruence. rewrite IH.
           destruct (String.eqb_spec name ""); [reflexivity|].
           rewrite lookup_insert_ne; [reflexivity|]. intros E. apply Hne.
           now rewrite E, headerName_app.
      * rewrite IH. destruct (String.eqb_spec name ""); [reflexivity|].
        rewrite lookup_insert_ne; [reflexivity|]. now apply no_prefix_ne.
Qed.

(** *** The configuration map of an [http] block *)

Lemma lookup_setFound_eq k v (cfg : gmap string string) :
  setFound k v cfg !! k = match v with Some s => Some s | None => cfg !! k end.
Proof. destruct v; [apply lookup_insert_eq | reflexivity]. Qed.

Lemma lookup_setFound_ne k k' v (cfg : gmap string string) :
  k <> k' -> setFound k v cfg !! k' = cfg !! k'.
Proof. intros H. destruct v; [now apply lookup_insert_ne | reflexivity]. Qed.

Lemma lookup_addHeaders (hs cfg : gmap string string) :
  forall key,
    map_fold (fun k v acc => <[config.HeaderPrefix ++ k := v]> acc) cfg hs !! key =
      match Go.stripPrefix config.HeaderPrefix key with
      | Some name =>
          match hs !! name with
          | Some v => Some v
          | None => cfg !! key
          end
      | None => cfg !! key
      end.
Proof.
  apply (map_fold_weak_ind
    (fun (r m : gmap string string) =>
       forall key, r !! key =
         match Go.stripPrefix config.HeaderPrefix key with
         | Some name =>
             match m !! name with
             | Some v => Some v
             | None => cfg !! key
             end
         | None => cfg !! key
         end)).
  - intros key. destruct (Go.stripPrefix _ key); [now rewrite lookup_empty|].
    reflexivity.
  - intros i x m r Hi IH key.
    destruct (decide (key = config.HeaderPrefix ++ i)) as [->|Hne].
    + now rewrite lookup_insert_eq, stripPrefix_app, lookup_insert_eq.
    + rewrite lookup_insert_ne by congruence. rewrite IH.
      destruct (Go.stripPrefix config.HeaderPrefix key) as [name|] eqn:E;
        [|reflexivity].
      apply stripPrefix_Some in E.
      rewrite lookup_insert_ne; [reflexivity|]. intros ->. contradiction.
Qed.

Lemma lookup_addHeaders_ne (hs cfg : gmap string string) key :
  Go.stripPrefix config.HeaderPrefix key = None ->
  map_fold (fun k v acc => <[config.HeaderPrefix ++ k := v]> acc) cfg hs !! key
    = cfg !! key.
Proof. intros H. now rewrite lookup_addHeaders, H. Qed.

Ltac key_ne := first [assumption | congruence | (vm_compute; discriminate)].

Ltac look :=
  repeat first
    [ rewrite lookup_setFound_eq
    | rewrite lookup_setFound_ne by key_ne
    | rewrite lookup_insert_eq
    | rewrite lookup_insert_ne by key_ne
    | rewrite lookup_addHeaders_ne by reflexivity
    | rewrite lookup_empty ].

Ltac named_key k K :=
  destruct (String.eqb_spec k K) as [->|?];
    [look; repeat case_match; try reflexivity; try congruence|].

Ltac all_named_keys k :=
  named_key k config.AuthMethod;
  named_key k config.AuthPassword;
  named_key k config.AuthUser;
  named_key k config.Body;
  named_key k config.CAChain;
  named_key k config.CertFile;
  named_key k config.Ciphers;
  named_key k config.Code;
  named_key k config.Extract;
  named_key k config.KeyFile;
  named_key k config.Method;
  named_key k config.Payload;
  named_key k config.ReadLimit;
  named_key k config.URL;
  named_key k config.HTTPVersion;
  named_key k config.Redirects;
  named_key k config.Port.

(** [checkConfigToAPIHTTP] on a bundle without configuration: it accepts
    any non-empty list of blocks, and the map it leaves holds exactly the
    attributes of the first block, its headers under the header prefix and
    the port of its URL. *)
Lemma checkConfigToAPIHTTP_lookup c h l :
  Config c = ∅ ->
  exists c',
    checkConfigToAPIHTTP c (h :: l) = Ok c' /\
    forall k, Config c' !! k = httpConfigLookup h k.
Proof.
  intros Hc. unfold checkConfigToAPIHTTP. cbn [Config withType].
  rewrite Hc. unfold httpConfigLookup, urlPort, headersOf.
  destruct (checkHTTPURLAttr h) as [v|] eqn:Eu.
  - cbn [mbind option_bind].
    destruct (cut ":" (urlHost v)) as [host [port|]] eqn:Ecut; cbn [fst snd].
    + look. change (String.eqb (default "" None) "") with true. cbv iota.
      eexists. split; [reflexivity|]. intros k. cbn [Config withConfig mbind option_bind].
      all_named_keys k.
      look. rewrite lookup_addHeaders. look.
      repeat case_match; try reflexivity; congruence.
    + eexists. split; [reflexivity|]. intros k. cbn [Config withConfig mbind option_bind].
      all_named_keys k.
      look. rewrite lookup_addHeaders. look.
      repeat case_match; try reflexivity; congruence.
  - eexists. split; [reflexivity|]. intros k. cbn [Config withConfig mbind option_bind].
    all_named_keys k.
    look. rewrite lookup_addHeaders. look.
    repeat case_match; try reflexivity; congruence.
Qed.
(** *** What [checkAPIToStateHTTP] returns *)

Lemma collectHeaders_any_swamp (cfg swamp : gmap string string) :
  fst (collectHeaders cfg swamp) = fst (collectHeaders cfg ∅).
Proof. apply map_eq. intros name. now rewrite !collectHeaders_headers. Qed.

Lemma saveIntConfigToState_value cfg apiKey (swamp : gmap string string) :
  fst (saveIntConfigToState cfg apiKey swamp) = cfg !! apiKey ≫= Go.Atoi.
Proof.
  unfold saveIntConfigToState. destruct (cfg !! apiKey) as [v|]; [|reflexivity].
  cbn [mbind option_bind]. now destruct (Go.Atoi v).
Qed.

Lemma checkAPIToStateHTTP_block (c : CheckBundle) :
  checkAPIToStateHTTP c =
    if decide (swampHTTP (Config c) = ∅)
    then Ok (c, httpConfigOf (Config c))
    else Err (ErrProviderBugConfigNotEmpty (swampHTTP (Config c))).
Proof.
  assert (checkAPIToStateHTTP c =
          let* cfg' := drainSwamp (Config c) (swampHTTP (Config c)) in
          Ok (withConfig cfg' c, httpConfigOf (Config c))) as ->.
  { unfold checkAPIToStateHTTP, swampHTTP, httpConfigOf.
    match goal with |- context [collectHeaders ?C ?S] =>
      pose proof (collectHeaders_any_swamp C S) as Eh;
      destruct (collectHeaders C S) as [headers swamp1]
    end.
    match goal with |- context [saveIntConfigToState ?C ?K ?S] =>
      pose proof (saveIntConfigToState_value C K S) as Er;
      destruct (saveIntConfigToState C K S) as [readLimit swamp2]
    end.
    cbn [fst] in Eh, Er. now rewrite Eh, Er. }
  rewrite (CheckFacts.drainSwamp_cases (Config c))
    by apply CheckFacts.swampHTTP_not_whitelisted.
  destruct (decide _); cbn [rbind]; [|reflexivity].
  now rewrite CheckFacts.withConfig_same.
Qed.

Lemma checkAPIToStateHTTP_error (c : CheckBundle) :
  isErr (checkAPIToStateHTTP c) = true <->
  exists k, is_Some (Config c !! k) /\ consumed k = false.
Proof.
  rewrite checkAPIToStateHTTP_block.
  destruct (decide (swampHTTP (Config c) = ∅)) as [He|Hne]; cbn [isErr].
  - split; [discriminate|]. intros (k & Hk & Hc).
    pose proof (CheckFacts.swampHTTP_lookup (Config c) k) as H.
    rewrite He, lookup_empty, Hc in H. destruct Hk as [v Hk]. congruence.
  - split; [intros _|reflexivity].
    apply map_choose in Hne as (k & v & Hk). exists k.
    rewrite CheckFacts.swampHTTP_lookup in Hk.
    destruct (consumed k); [discriminate|]. eauto.
Qed.

(** *** The round trip of a block *)

Lemma httpConfigLookup_headers h name :
  name <> "" ->
  httpConfigLookup h (config.HeaderPrefix ++ name) = headersOf h !! name.
Proof.
  intros Hname. destruct name as [|a name]; [congruence|].
  unfold httpConfigLookup.
  change (Go.stripPrefix config.HeaderPrefix (config.HeaderPrefix ++ String a name))
    with (Some (String a name)).
  reflexivity.
Qed.

(** X8: an [http] block whose URL names no port, whose headers have no
    empty name and whose read limit fits an [int] is written into the
    configuration of a bundle that has none, and [checkAPIToStateHTTP] reads
    from that configuration the same block, with the headers present. *)
Theorem http_block_round_trip (c : CheckBundle) (h : httpBlock)
    (l : list httpBlock) :
  Config c = ∅ ->
  namesPort h = false -> hasEmptyHeaderName h = false ->
  readLimitInRange h = true ->
  exists c',
    checkConfigToAPIHTTP c (h :: l) = Ok c' /\
    checkAPIToStateHTTP c' = Ok (c', withHeaders (headersOf h) h).
Proof.
  intros Hc Hport Hempty Hrange.
  destruct (checkConfigToAPIHTTP_lookup c h l Hc) as (c' & E & Hk).
  exists c'. split; [exact E|]. rewrite checkAPIToStateHTTP_block.
  assert (Hswamp : swampHTTP (Config c') = ∅).
  { apply map_eq. intros k. rewrite CheckFacts.swampHTTP_lookup, lookup_empty.
    destruct (consumed k) eqn:Ek; [reflexivity|]. rewrite Hk.
    unfold consumed in Ek. apply orb_false_iff in Ek as [Esaved Elong].
    unfold savedKeys in Esaved. cbn [existsb] in Esaved.
    repeat (apply orb_false_iff in Esaved as [?E Esaved]).
    unfold httpConfigLookup.
    repeat match goal with
           | H : String.eqb k ?K = false |- context [String.eqb k ?K] =>
               rewrite H
           end.
    destruct (String.eqb_spec k config.Port) as [->|_].
    - unfold namesPort in Hport. destruct (checkHTTPURLAttr h) as [v|];
        [|reflexivity].
      cbn [mbind option_bind]. now destruct (urlPort v).
    - destruct (Go.stripPrefix config.HeaderPrefix k) as [name|] eqn:Ep;
        [|reflexivity].
      apply stripPrefix_Some in Ep. subst k.
      fold (long (config.HeaderPrefix ++ name)) in Elong.
      rewrite long_app in Elong. destruct (String.eqb_spec name "") as [->|];
        [|discriminate].
      unfold hasEmptyHeaderName in Hempty.
      now destruct (headersOf h !! ""). }
  rewrite decide_True by exact Hswamp. f_equal. f_equal.
  unfold httpConfigOf, withHeaders. rewrite !Hk.
  assert (Hh : fst (collectHeaders (Config c') ∅) = headersOf h).
  { apply map_eq. intros name. rewrite collectHeaders_headers.
    destruct (String.eqb_spec name "") as [->|Hname].
    - unfold hasEmptyHeaderName in Hempty. now destruct (headersOf h !! "").
    - rewrite Hk. now apply httpConfigLookup_headers. }
  rewrite Hh.
  assert (Hr : httpConfigLookup h config.ReadLimit ≫= Go.Atoi
               = checkHTTPReadLimitAttr h).
  { change (httpConfigLookup h config.ReadLimit)
      with (Go.FormatInt <$> checkHTTPReadLimitAttr h).
    unfold readLimitInRange in Hrange.
    destruct (checkHTTPReadLimitAttr h) as [n|]; [|reflexivity].
    cbn. apply andb_true_iff in Hrange as [H1%Z.leb_le H2%Z.leb_le].
    now apply Atoi_FormatInt. }
  rewrite Hr. reflexivity.
Qed.

Lemma http_block_round_trip_witness :
  exists c',
    checkConfigToAPIHTTP newCheck [exampleHTTP] = Ok c' /\
    checkAPIToStateHTTP c' = Ok (c', withHeaders (headersOf exampleHTTP) exampleHTTP).
Proof.
  apply (http_block_round_trip newCheck exampleHTTP []); reflexivity.
Defined.

(** X9: when [checkConfigToAPIHTTP] has written an [http] block into a
    bundle that had no configuration, [checkAPIToStateHTTP] fails on the
    configuration exactly when it holds a port or a header of the block has
    the empty name; and it holds a port exactly when the host of the URL of
    the block has a colon. *)
Theorem http_block_unreadable (c : CheckBundle) (h : httpBlock)
    (l : list httpBlock) (c' : CheckBundle) :
  Config c = ∅ ->
  checkConfigToAPIHTTP c (h :: l) = Ok c' ->
  (isErr (checkAPIToStateHTTP c') = true <->
   Config c' !! config.Port <> None \/ hasEmptyHeaderName h = true) /\
  (Config c' !! config.Port <> None <-> namesPort h = true).
Proof.
  intros Hc E.
  destruct (checkConfigToAPIHTTP_lookup c h l Hc) as (c'' & E' & Hk).
  rewrite E in E'. injection E' as <-.
  assert (Hp : Config c' !! config.Port <> None <-> namesPort h = true).
  { rewrite Hk.
    change (httpConfigLookup h config.Port) with (checkHTTPURLAttr h ≫= urlPort).
    unfold namesPort. destruct (checkHTTPURLAttr h) as [v|];
      cbn [mbind option_bind]; [|split; [congruence | discriminate]].
    destruct (urlPort v); split; congruence. }
  split; [|exact Hp]. rewrite Hp.
  rewrite checkAPIToStateHTTP_error. split.
  - intros (k & [x Hx] & Hcons). rewrite Hk in Hx.
    unfold consumed in Hcons. apply orb_false_iff in Hcons as [Esaved Elong].
    unfold savedKeys in Esaved. cbn [existsb] in Esaved.
    repeat (apply orb_false_iff in Esaved as [?E Esaved]).
    unfold httpConfigLookup in Hx.
    repeat match goal with
           | H : String.eqb k ?K = false, H' : context [String.eqb k ?K] |- _ =>
               rewrite H in H'
           end.
    destruct (String.eqb_spec k config.Port) as [->|_].
    + left. unfold namesPort. destruct (checkHTTPURLAttr h) as [v|];
        [|discriminate].
      cbn [mbind option_bind] in Hx. now rewrite Hx.
    + right. destruct (Go.stripPrefix config.HeaderPrefix k) as [name|] eqn:Ep;
        [|discriminate].
      apply stripPrefix_Some in Ep. subst k.
      fold (long (config.HeaderPrefix ++ name)) in Elong.
      rewrite long_app in Elong. destruct (String.eqb_spec name "") as [->|];
        [|discriminate].
      unfold hasEmptyHeaderName. now rewrite Hx.
  - intros [Hport|Hempty].
    + exists config.Port. split; [|reflexivity]. rewrite Hk.
      change (httpConfigLookup h config.Port)
        with (checkHTTPURLAttr h ≫= urlPort).
      unfold namesPort in Hport. destruct (checkHTTPURLAttr h) as [v|];
        [|discriminate].
      cbn [mbind option_bind]. destruct (urlPort v); [eauto | discriminate].
    + exists config.HeaderPrefix. split; [|reflexivity]. rewrite Hk.
      change (httpConfigLookup h config.HeaderPrefix) with (headersOf h !! "").
      unfold hasEmptyHeaderName in Hempty.
      destruct (headersOf h !! ""); [eauto | discriminate].
Qed.

Lemma http_block_unreadable_witness :
  match checkConfigToAPIHTTP newCheck [httpWithPort] with
  | Ok c' =>
      isErr (checkAPIToStateHTTP c') = true /\
      Config c' !! config.Port = Some "8443"
  | Err _ => False
  end.
Proof.
  destruct (checkConfigToAPIHTTP newCheck [httpWithPort]) as [c'|e] eqn:E.
  - destruct (http_block_unreadable newCheck httpWithPort [] c' eq_refl E)
      as [Herr Hport].
    split.
    + apply Herr. left. apply Hport. reflexivity.
    + vm_compute in E. injection E as <-. reflexivity.
  - vm_compute in E. discriminate E.
Defined.

End CheckHTTP.


(** ** Graphs: reading back what [ParseConfig] built *)

Module GraphReadBack.
Import Graph GraphSpec Range GraphExt GoFacts GraphFacts GoSeconds GoStrings.

Lemma uint_range (z : Z) : 0 <= Go.uint z < 2 ^ 64.
Proof. unfold Go.uint. apply Z.mod_pos_bound. reflexivity. Qed.

Lemma locatorCheck_range m : 0 <= locatorCheck m < 2 ^ 64.
Proof.
  unfold locatorCheck. repeat case_match; try apply uint_range;
    (split; [lia | reflexivity]).
Qed.

Lemma ParseUint_FormatInt (u : Z) :
  0 <= u < 2 ^ 64 -> Go.ParseUint (Go.FormatInt u) = (u, true).
Proof.
  intros Hu. unfold Go.ParseUint.
  pose proof (FormatInt_not_empty u) as Hne.
  destruct (Go.FormatInt u) as [|c r] eqn:E; [congruence|].
  rewrite <- E. rewrite allDigits_FormatInt, decimalValue_FormatInt by lia.
  destruct (Z.ltb_spec u (2 ^ 64)); [reflexivity | lia].
Qed.

Lemma matchCheckCID_canonical (n : Z) :
  0 <= n ->
  matchCheckCID (config.CheckPrefix ++ "/" ++ Go.FormatInt n)
    = Some (Go.FormatInt n).
Proof.
  intros Hn. unfold matchCheckCID.
  change (Go.stripPrefix (config.CheckPrefix ++ "/")
            (config.CheckPrefix ++ "/" ++ Go.FormatInt n))
    with (Some (Go.FormatInt n)).
  pose proof (FormatInt_not_empty n) as Hne.
  destruct (Go.FormatInt n) as [|c r] eqn:E; [congruence|].
  rewrite <- E. now rewrite allDigits_FormatInt.
Qed.

Lemma nonEmpty_default (o : option string) :
  o <> Some "" -> nonEmpty (default "" o) = o.
Proof.
  intros H. destruct o as [s|]; [|reflexivity]. cbn. unfold nonEmpty.
  destruct (String.eqb_spec s ""); [congruence | reflexivity].
Qed.

Lemma nonEmpty_not_empty (s : string) : nonEmpty s <> Some "".
Proof. unfold nonEmpty. destruct (String.eqb_spec s ""); congruence. Qed.

Lemma default_nonEmpty (s : string) : default "" (nonEmpty s) = s.
Proof. unfold nonEmpty. now destruct (String.eqb_spec s ""). Qed.

Lemma mapM_length {A B} (f : A -> result error B) l l' :
  mapM f l = Ok l' -> length l' = length l.
Proof.
  revert l'. induction l as [|x l IH]; intros l'; cbn [mapM].
  - now intros [= <-].
  - destruct (f x) as [y|]; [|discriminate]. cbn [rbind].
    destruct (mapM f l) as [ys|]; [|discriminate]. cbn [rbind].
    intros [= <-]. cbn [length]. now rewrite (IH ys eq_refl).
Qed.

Lemma mapM_isOk {A B} (f : A -> result error B) (p : A -> bool) l :
  (forall x, isOk (f x) = p x) -> isOk (mapM f l) = forallb p l.
Proof.
  intros Hp. induction l as [|x l IH]; cbn [mapM forallb]; [reflexivity|].
  rewrite <- Hp, <- IH. destruct (f x) as [y|]; cbn [rbind]; [|reflexivity].
  destruct (mapM f l); reflexivity.
Qed.

Lemma datapointToState_isOk datapoint :
  isOk (datapointToState datapoint) = readableDatapoint datapoint.
Proof.
  unfold datapointToState, readableDatapoint, readableAxis, axisToState.
  destruct (String.eqb (Axis datapoint) "l"), (String.eqb (Axis datapoint) ""),
    (String.eqb (Axis datapoint) "r"), (Derive_ datapoint); reflexivity.
Qed.

Lemma metricClusterToState_isOk mc :
  isOk (metricClusterToState mc) = readableMetricCluster mc.
Proof.
  unfold metricClusterToState, readableMetricCluster, readableAxis, axisToState.
  destruct (String.eqb (ClusterAxis mc) "l"), (String.eqb (ClusterAxis mc) ""),
    (String.eqb (ClusterAxis mc) "r"); reflexivity.
Qed.

Lemma axisToAPI_readable attr v axis :
  axisToAPI attr v = Ok axis -> readableAxis axis = true.
Proof. unfold axisToAPI. repeat case_match; intros [= <-]; reflexivity. Qed.

Lemma parseDatapoint_readable idx m datapoint :
  parseDatapoint idx m = Ok datapoint -> readableDatapoint datapoint = true.
Proof.
  intros H. unfold readableDatapoint.
  pose proof (parseDatapoint_axis _ _ _ H) as Ha.
  destruct (parseDatapoint_fields _ _ _ H) as [_ ->].
  assert (readableAxis (Axis datapoint) = true) as ->.
  { destruct (graphMetricAxisAttr m); [eapply axisToAPI_readable; eassumption|].
    now rewrite Ha. }
  now destruct (nonEmpty _).
Qed.

Lemma parseMetricCluster_readable b mc :
  parseMetricCluster b = Ok mc -> readableMetricCluster mc = true.
Proof.
  intros H. unfold readableMetricCluster.
  pose proof (parseMetricCluster_axis _ _ H) as Ha.
  destruct (graphMetricClusterAxisAttr b); [eapply axisToAPI_readable; eassumption|].
  now rewrite Ha.
Qed.

Lemma parseDatapoints_readable l : forall idx dps,
  parseDatapoints idx l = Ok dps -> forallb readableDatapoint dps = true.
Proof.
  induction l as [|m l IH]; intros idx dps; cbn [parseDatapoints].
  - now intros [= <-].
  - destruct (parseDatapoint idx m) as [dp|] eqn:E; [|discriminate]. cbn [rbind].
    destruct (parseDatapoints (S idx) l) as [r|] eqn:El; [|discriminate].
    cbn [rbind]. intros [= <-]. cbn [forallb].
    now rewrite (parseDatapoint_readable _ _ _ E), (IH _ _ El).
Qed.

Lemma parseMetricClusters_readable l : forall mcs,
  parseMetricClusters l = Ok mcs -> forallb readableMetricCluster mcs = true.
Proof.
  induction l as [|b l IH]; intros mcs; cbn [parseMetricClusters].
  - now intros [= <-].
  - destruct (parseMetricCluster b) as [mc|] eqn:E; [|discriminate]. cbn [rbind].
    destruct (parseMetricClusters l) as [r|] eqn:El; [|discriminate].
    cbn [rbind]. intros [= <-]. cbn [forallb].
    now rewrite (parseMetricCluster_readable _ _ E), (IH _ eq_refl).
Qed.

Lemma ParseConfig_parts g d g' :
  ParseConfig g d = Ok g' ->
  parseDatapoints 0 (graphMetricAttr d) = Ok (Datapoints g') /\
  (exists l, parseMetricClusters (graphMetricClusterAttr d) = Ok l /\
             MetricClusters g' = app (MetricClusters g) l) /\
  CID g' = CID g /\ Validate g' = Ok tt.
Proof.
  unfold ParseConfig.
  assert (match GetOkList (graphMetricAttr d) with
          | Some metricList => parseDatapoints 0 metricList
          | None => Ok []
          end = parseDatapoints 0 (graphMetricAttr d)) as ->
    by (destruct (graphMetricAttr d); reflexivity).
  destruct (parseDatapoints 0 (graphMetricAttr d)) as [dps|]; [|discriminate].
  cbn [rbind].
  assert (match GetOkList (graphMetricClusterAttr d) with
          | Some metricClusterList =>
              let* l := parseMetricClusters metricClusterList in
              Ok (app (MetricClusters g) l)
          | None => Ok (MetricClusters g)
          end = let* l := parseMetricClusters (graphMetricClusterAttr d) in
                Ok (app (MetricClusters g) l)) as ->.
  { destruct (graphMetricClusterAttr d); [|reflexivity].
    cbn [GetOkList parseMetricClusters rbind]. now rewrite app_nil_r. }
  destruct (parseMetricClusters (graphMetricClusterAttr d)) as [l|]; [|discriminate].
  cbn [rbind].
  destruct (Validate _) as [[]|] eqn:Ev; [|discriminate]. cbn [rbind].
  intros [= <-]. cbn [Datapoints MetricClusters CID]. eauto 10.
Qed.

Lemma mapM_metricClusterToState_inSchema l : forall bs,
  mapM metricClusterToState l = Ok bs ->
  forallb metricClusterInSchema bs = forallb plainMetricCluster l.
Proof.
  induction l as [|mc l IH]; intros bs; cbn [mapM].
  - now intros [= <-].
  - destruct (metricClusterToState mc) as [b|] eqn:E; [|discriminate].
    cbn [rbind].
    destruct (mapM metricClusterToState l) as [bs'|]; [|discriminate].
    cbn [rbind]. intros [= <-]. cbn [forallb]. rewrite (IH bs' eq_refl).
    f_equal. unfold metricClusterToState in E.
    destruct (axisToState (ClusterAxis mc)); [|discriminate].
    cbn [rbind] in E. injection E as <-.
    unfold metricClusterInSchema, plainMetricCluster.
    cbn [graphMetricClusterFormulaAttr graphMetricClusterFormulaLegendAttr
         graphMetricClusterStackAttr].
    now destruct (ClusterDataFormula mc), (ClusterLegendFormula mc),
      (ClusterStack mc).
Qed.

Lemma parseMetricCluster_plain b mc :
  metricClusterInSchema b = true ->
  parseMetricCluster b = Ok mc -> plainMetricCluster mc = true.
Proof.
  unfold metricClusterInSchema, parseMetricCluster. intros Hb.
  destruct (graphMetricClusterFormulaAttr b); [discriminate|].
  destruct (graphMetricClusterFormulaLegendAttr b); [discriminate|].
  destruct (graphMetricClusterStackAttr b); [discriminate|].
  destruct (match graphMetricClusterAxisAttr b with Some _ => _ | None => _ end);
    [|discriminate].
  cbn [rbind]. now intros [= <-].
Qed.

Lemma parseMetricClusters_plain l : forall mcs,
  forallb metricClusterInSchema l = true ->
  parseMetricClusters l = Ok mcs -> forallb plainMetricCluster mcs = true.
Proof.
  induction l as [|b l IH]; intros mcs; cbn [parseMetricClusters forallb].
  - now intros _ [= <-].
  - intros [Hb Hl]%andb_true_iff.
    destruct (parseMetricCluster b) as [mc|] eqn:E; [|discriminate]. cbn [rbind].
    destruct (parseMetricClusters l) as [r|] eqn:El; [|discriminate].
    cbn [rbind]. intros [= <-]. cbn [forallb].
    now rewrite (parseMetricCluster_plain _ _ Hb E), (IH _ Hl eq_refl).
Qed.

(** X10: [graphRead] returns the API error when the graph cannot be
    fetched. For a fetched graph it succeeds exactly when every datapoint
    has an axis [l], [r] or empty and a [Derive] that is a [bool] or a
    [string], every metric cluster has such an axis, and no metric cluster
    carries a data formula, a legend formula or a stack, for which the
    [metric_cluster] schema has no key: with such a metric cluster and
    nothing else in the way it fails with the unable-to-store error. On
    success it sets the ID to the CID of the graph and writes one block per
    datapoint and per metric cluster. Every graph [ParseConfig] builds has
    datapoints and metric clusters with a case, and from metric cluster
    blocks of the schema it builds metric clusters without the three. *)
Theorem graph_read_outcomes (ctxt : Client) (d0 : ResourceData) :
  (forall msg, FetchGraph ctxt (Id d0) = Err msg ->
     graphRead ctxt d0 = Err (ErrAPI "" msg)) /\
  (forall g, FetchGraph ctxt (Id d0) = Ok g ->
     (isOk (graphRead ctxt d0) = true <->
        forallb readableDatapoint (Datapoints g) = true /\
        forallb readableMetricCluster (MetricClusters g) = true /\
        forallb plainMetricCluster (MetricClusters g) = true) /\
     (forallb readableDatapoint (Datapoints g) = true ->
      forallb readableMetricCluster (MetricClusters g) = true ->
      forallb plainMetricCluster (MetricClusters g) = false ->
      graphRead ctxt d0 = Err (ErrUnableToStore "metric_cluster")) /\
     (forall d', graphRead ctxt d0 = Ok d' ->
        Id d' = CID g /\
        length (graphMetricAttr d') = length (Datapoints g) /\
        length (graphMetricClusterAttr d') = length (MetricClusters g))) /\
  (forall d g, ParseConfig newGraph d = Ok g ->
     forallb readableDatapoint (Datapoints g) = true /\
     forallb readableMetricCluster (MetricClusters g) = true /\
     (forallb metricClusterInSchema (graphMetricClusterAttr d) = true ->
      forallb plainMetricCluster (MetricClusters g) = true)).
Proof.
  split; [|split].
  - intros msg H. unfold graphRead, loadGraph. now rewrite H.
  - intros g H. unfold graphRead, loadGraph. rewrite H. cbn [rbind].
    pose proof (mapM_isOk _ _ (Datapoints g) datapointToState_isOk) as Hd.
    pose proof (mapM_isOk _ _ (MetricClusters g) metricClusterToState_isOk) as Hc.
    rewrite <- Hd, <- Hc.
    pose proof (mapM_length datapointToState (Datapoints g)) as Ld.
    pose proof (mapM_length metricClusterToState (MetricClusters g)) as Lc.
    pose proof (mapM_metricClusterToState_inSchema (MetricClusters g)) as Hs.
    destruct (mapM datapointToState (Datapoints g)) as [ms|]; cbn [rbind].
    + destruct (mapM metricClusterToState (MetricClusters g)) as [cs|]; cbn [rbind].
      * rewrite (Hs cs eq_refl).
        destruct (forallb plainMetricCluster (MetricClusters g)).
        -- split; [split; [intros _; repeat split | reflexivity]|].
           split; [discriminate|].
           intros d' [= <-]. cbn [Id graphMetricAttr graphMetricClusterAttr].
           rewrite (Ld ms eq_refl), (Lc cs eq_refl). repeat split.
        -- split; [split; [discriminate | intros (_ & _ & [=])]|].
           split; [reflexivity | discriminate].
      * split; [split; [discriminate | intros (_ & [=] & _)]|].
        split; [discriminate | discriminate].
    + split; [split; [discriminate | intros ([=] & _)]|].
      split; [discriminate | discriminate].
  - intros d g H. apply ParseConfig_parts in H as (Hd & (l & Hl & Hm) & _).
    split; [eapply parseDatapoints_readable; eassumption|].
    rewrite Hm. cbn [newGraph MetricClusters app]. split.
    + eapply parseMetricClusters_readable; eassumption.
    + intros Hb. eapply parseMetricClusters_plain; eassumption.
Qed.

Lemma graph_read_outcomes_witness :
  graphRead (graphClient (fetchedGraph (Some 1))) createdGraph
    = Err (ErrUnableToStore "metric_cluster") /\
  isOk (graphRead (graphClient (fetchedGraph None)) createdGraph) = true.
Proof.
  split.
  - destruct (proj1 (proj2 (graph_read_outcomes
                              (graphClient (fetchedGraph (Some 1))) createdGraph))
                (fetchedGraph (Some 1)) eq_refl) as (_ & H & _).
    apply H; reflexivity.
  - destruct (proj1 (proj2 (graph_read_outcomes
                              (graphClient (fetchedGraph None)) createdGraph))
                (fetchedGraph None) eq_refl) as (H & _).
    apply H. repeat split.
Defined.

Lemma locatorCheck_state (check : Z) m :
  0 <= check < 2 ^ 64 ->
  graphMetricCheckAttr m =
    (if check =? 0 then None
     else Some (config.CheckPrefix ++ "/" ++ Go.FormatInt check)) ->
  locatorCheck m = check.
Proof.
  intros Hc Hm. unfold locatorCheck. rewrite Hm.
  destruct (Z.eqb_spec check 0) as [->|Hz]; [reflexivity|].
  rewrite matchCheckCID_canonical by lia.
  rewrite ParseUint_FormatInt by exact Hc. cbn [fst].
  unfold Go.uint. apply Z.mod_small. exact Hc.
Qed.

Lemma humanName_trimmed (o : option string) :
  match o with
  | Some s => if String.eqb s "" then "" else Go.TrimSpace s
  | None => ""
  end = trimmed o.
Proof.
  destruct o as [s|]; [|reflexivity]. cbn [trimmed].
  destruct (String.eqb_spec s "") as [->|]; [|reflexivity].
  symmetry. apply TrimSpace_empty.
Qed.

(** X11: for the datapoint [ParseConfig] builds from a [metric] block,
    [graphRead] writes a block in which [active] defaults to true, an alpha
    that is empty or [0] is left out, the axis is [right] for [right] and
    [left] otherwise, the check is the check prefix followed by the number
    of the check, names and queries are trimmed, and empty texts are left
    out; a check already written with the prefix and its number, and a
    stack written as a number, are read back as configured. *)
Theorem metric_read_back (idx : nat) (m : metricBlock) (datapoint : GraphDatapoint) :
  parseDatapoint idx m = Ok datapoint ->
  exists m', datapointToState datapoint = Ok m' /\
    graphMetricActiveAttr m' = Some (default true (graphMetricActiveAttr m)) /\
    graphMetricAlphaAttr m' =
      (let f := default "" (graphMetricAlphaAttr m) in
       if String.eqb f "" || String.eqb f "0" then None else Some f) /\
    graphMetricAxisAttr m' =
      Some (if String.eqb (default "" (graphMetricAxisAttr m)) "right"
            then "right" else "left") /\
    graphMetricCheckAttr m' =
      (if locatorCheck m =? 0 then None
       else Some (config.CheckPrefix ++ "/" ++ Go.FormatInt (locatorCheck m))) /\
    graphMetricNameAttr m' = nonEmpty (locatorName m) /\
    graphMetricCAQLAttr m' = nonEmpty (locatorCAQL m) /\
    graphMetricSearchAttr m' = nonEmpty (locatorSearch m) /\
    graphMetricColorAttr m' = graphMetricColorAttr m /\
    graphMetricFormulaAttr m' = nonEmpty (default "" (graphMetricFormulaAttr m)) /\
    graphMetricFormulaLegendAttr m' =
      nonEmpty (default "" (graphMetricFormulaLegendAttr m)) /\
    graphMetricFunctionAttr m' = nonEmpty (default "" (graphMetricFunctionAttr m)) /\
    graphMetricHumanNameAttr m' = nonEmpty (trimmed (graphMetricHumanNameAttr m)) /\
    graphMetricMetricTypeAttr m' =
      nonEmpty (default "" (graphMetricMetricTypeAttr m)) /\
    graphMetricStackAttr m' =
      match nonEmpty (default "" (graphMetricStackAttr m)) with
      | Some s => Some (Go.FormatInt (Go.uint (fst (Go.ParseUint s))))
      | None => None
      end /\
    (forall n, 0 < n < 2 ^ 64 ->
       graphMetricCheckAttr m = Some (config.CheckPrefix ++ "/" ++ Go.FormatInt n) ->
       graphMetricCheckAttr m' = graphMetricCheckAttr m) /\
    (forall u, 0 <= u < 2 ^ 64 ->
       graphMetricStackAttr m = Some (Go.FormatInt u) ->
       graphMetricStackAttr m' = graphMetricStackAttr m).
Proof.
  intros H.
  assert (Hcheck : forall n, 0 < n < 2 ^ 64 ->
            graphMetricCheckAttr m = Some (config.CheckPrefix ++ "/" ++ Go.FormatInt n) ->
            locatorCheck m = n).
  { intros n Hn E. apply locatorCheck_state; [lia|]. rewrite E.
    destruct (Z.eqb_spec n 0); [lia | reflexivity]. }
  assert (Hstack : forall u, 0 <= u < 2 ^ 64 ->
            graphMetricStackAttr m = Some (Go.FormatInt u) ->
            match nonEmpty (default "" (graphMetricStackAttr m)) with
            | Some s => Some (Go.FormatInt (Go.uint (fst (Go.ParseUint s))))
            | None => None
            end = graphMetricStackAttr m).
  { intros u Hu E. rewrite E.
    change (default "" (Some (Go.FormatInt u))) with (Go.FormatInt u).
    unfold nonEmpty. destruct (String.eqb_spec (Go.FormatInt u) "") as [E0|_].
    - now apply FormatInt_not_empty in E0.
    - rewrite ParseUint_FormatInt by exact Hu. cbn [fst]. unfold Go.uint.
      now rewrite Z.mod_small. }
  revert H. unfold parseDatapoint.
  rewrite (humanName_trimmed (graphMetricHumanNameAttr m)).
  assert (Hax : forall axis,
            match graphMetricAxisAttr m with
            | Some v => axisToAPI "axis" v
            | None => Ok ""
            end = Ok axis ->
            axisToState axis =
              Ok (if String.eqb (default "" (graphMetricAxisAttr m)) "right"
                  then "right" else "left")).
  { intros axis. destruct (graphMetricAxisAttr m) as [v|]; [|now intros [= <-]].
    unfold axisToAPI. cbn.
    destruct (String.eqb_spec v "left") as [->|]; [now intros [= <-]|].
    destruct (String.eqb_spec v "") as [->|]; [now intros [= <-]|].
    destruct (String.eqb_spec v "right") as [->|]; [now intros [= <-]|].
    discriminate. }
  destruct (match graphMetricAxisAttr m with Some _ => _ | None => _ end)
    as [axis|]; [|discriminate].
  specialize (Hax axis eq_refl). cbn [rbind].
  pose proof (locatorCheck_range m) as Hc.
  assert (Halpha :
            match
              match graphMetricAlphaAttr m with
              | Some f => if String.eqb f "" then Some "0" else Some f
              | None => Some "0"
              end
            with
            | Some a => if String.eqb a "0" then None else Some a
            | None => None
            end =
            (let f := default "" (graphMetricAlphaAttr m) in
             if String.eqb f "" || String.eqb f "0" then None else Some f)).
  { destruct (graphMetricAlphaAttr m) as [f|]; [|reflexivity]. cbn.
    destruct (String.eqb_spec f "") as [->|]; [reflexivity|]. reflexivity. }
  assert (Hactive :
            Some (negb match graphMetricActiveAttr m with
                       | Some v => negb v
                       | None => false
                       end) = Some (default true (graphMetricActiveAttr m))).
  { destruct (graphMetricActiveAttr m) as [[]|]; reflexivity. }
  assert (Hfn :
            match
              match nonEmpty (default "" (graphMetricFunctionAttr m)) with
              | Some s => DeriveString s
              | None => DeriveBool false
              end
            with
            | DeriveBool _ => Ok None
            | DeriveString u => Ok (Some u)
            | _ => Err ErrUnsupportedDeriveType
            end = Ok (nonEmpty (default "" (graphMetricFunctionAttr m)))).
  { unfold nonEmpty. now destruct (String.eqb _ ""). }
  destruct (Z.eqb_spec (locatorCheck m) 0) as [Hz|Hz];
    destruct (Z.ltb_spec 0 (locatorCheck m)) as [Hp|Hp]; try lia;
    destruct (String.eqb_spec (locatorName m) "") as [En|En];
    destruct (String.eqb_spec (locatorCAQL m) "") as [Eq|Eq];
    destruct (String.eqb_spec (locatorSearch m) "") as [Es|Es];
    cbn [negb andb orb]; try discriminate; intros [= <-];
    unfold datapointToState;
    cbn [Alpha Axis CAQL Search CheckID Color DataFormula Derive_ Hidden
         LegendFormula MetricName MetricType Name Stack];
    rewrite Hax, Hfn; cbn [rbind]; eexists; (split; [reflexivity|]);
    cbn [graphMetricActiveAttr graphMetricAlphaAttr graphMetricAxisAttr
         graphMetricCAQLAttr graphMetricSearchAttr graphMetricCheckAttr
         graphMetricColorAttr graphMetricFormulaAttr graphMetricFormulaLegendAttr
         graphMetricFunctionAttr graphMetricHumanNameAttr
         graphMetricMetricTypeAttr graphMetricNameAttr graphMetricStackAttr];
    rewrite ?Hz, ?En, ?Eq, ?Es, ?default_nonEmpty.
  all: (split; [exact Hactive|]); (split; [exact Halpha|]);
    (split; [reflexivity|]).
  all: try (destruct (Z.eqb_spec (locatorCheck m) 0) as [?|_]; [lia|]).
  all: repeat (split; [reflexivity|]).
  all: assert (Hst : Go.FormatInt <$>
                 match nonEmpty (default "" (graphMetricStackAttr m)) with
                 | Some s => Some (Go.uint (fst (Go.ParseUint s)))
                 | None => None
                 end =
                 match nonEmpty (default "" (graphMetricStackAttr m)) with
                 | Some s => Some (Go.FormatInt (Go.uint (fst (Go.ParseUint s))))
                 | None => None
                 end)
         by (destruct (nonEmpty (default "" (graphMetricStackAttr m))); reflexivity).
  all: (split; [exact Hst|]).
  all: (split; [|intros u Hu E; rewrite Hst; exact (Hstack u Hu E)]).
  all: intros n Hn E; pose proof (Hcheck n Hn E) as En'; try lia.
  all: rewrite En'; destruct (Z.eqb_spec n 0); [lia|]; symmetry; exact E.
Qed.

Lemma metric_read_back_witness :
  match parseDatapoint 0 metricByCheck with
  | Ok datapoint =>
      exists m', datapointToState datapoint = Ok m' /\
                 graphMetricCheckAttr m' = Some "/check/1234" /\
                 graphMetricNameAttr m' = Some "duration" /\
                 graphMetricAlphaAttr m' = None
  | Err _ => False
  end.
Proof.
  destruct (parseDatapoint 0 metricByCheck) as [datapoint|e] eqn:E.
  - destruct (metric_read_back 0 metricByCheck datapoint E)
      as (m' & H & _ & Ha & _ & _ & Hn & _ & _ & _ & _ & _ & _ & _ & _ & _ & Hc & _).
    exists m'. split; [exact H|]. split; [|split].
    + apply (Hc 1234); [lia | reflexivity].
    + exact Hn.
    + exact Ha.
  - vm_compute in E. discriminate E.
Defined.

Lemma validateDatapoint_parsed idx i m datapoint :
  parseDatapoint idx m = Ok datapoint ->
  validateDatapoint i datapoint =
    if functionOnText m
    then Err (ErrFunctionWithText i (trimmed (graphMetricHumanNameAttr m)))
    else Ok tt.
Proof.
  intros H. destruct (parseDatapoint_fields _ _ _ H) as [Ht Hd].
  unfold validateDatapoint, functionOnText. rewrite Ht, Hd. clear Ht Hd.
  revert H. unfold parseDatapoint.
  rewrite (humanName_trimmed (graphMetricHumanNameAttr m)).
  destruct (match graphMetricAxisAttr m with Some _ => _ | None => _ end)
    as [axis|]; [|discriminate].
  cbn [rbind]. pose proof (locatorCheck_range m) as Hc.
  destruct (Z.eqb_spec (locatorCheck m) 0) as [Hz|Hz];
    destruct (Z.ltb_spec 0 (locatorCheck m)) as [Hp|Hp]; try lia;
    destruct (String.eqb_spec (locatorName m) "") as [En|En];
    destruct (String.eqb_spec (locatorCAQL m) "") as [Eq|Eq];
    destruct (String.eqb_spec (locatorSearch m) "") as [Es|Es];
    cbn [negb andb orb]; try discriminate; intros [= <-];
    cbn [CheckID MetricName Name Z.eqb String.eqb negb andb];
    try (destruct (Z.eqb_spec (locatorCheck m) 0) as [?|_]; [lia|]);
    try (destruct (String.eqb_spec (locatorName m) "") as [?|_]; [contradiction|]);
    cbn [negb andb];
    unfold nonEmpty;
    destruct (String.eqb (default "" (graphMetricMetricTypeAttr m)) "text");
    destruct (String.eqb (default "" (graphMetricFunctionAttr m)) "");
    reflexivity.
Qed.

Lemma validateMetricCluster_parsed i b mc :
  parseMetricCluster b = Ok mc ->
  validateMetricCluster i mc =
    if aggregateWithoutColor b
    then Err (ErrClusterColorRequired i
                (default "" (graphMetricClusterHumanNameAttr b)))
    else Ok tt.
Proof.
  unfold parseMetricCluster.
  destruct (match graphMetricClusterAxisAttr b with Some _ => _ | None => _ end)
    as [axis|]; [|discriminate].
  cbn [rbind]. intros [= <-].
  unfold validateMetricCluster, aggregateWithoutColor.
  cbn [ClusterAggregateFunc ClusterColor ClusterName].
  now rewrite default_nonEmpty.
Qed.

Lemma forEach_validateDatapoint ms : forall i dps,
  parseDatapoints i ms = Ok dps ->
  forEach validateDatapoint i dps =
    match firstAt functionOnText i ms with
    | Some (k, m) =>
        Err (ErrFunctionWithText k (trimmed (graphMetricHumanNameAttr m)))
    | None => Ok tt
    end.
Proof.
  induction ms as [|m ms IH]; intros i dps; cbn [parseDatapoints firstAt].
  - now intros [= <-].
  - destruct (parseDatapoint i m) as [dp|] eqn:E; [|discriminate]. cbn [rbind].
    destruct (parseDatapoints (S i) ms) as [r|] eqn:El; [|discriminate].
    cbn [rbind]. intros [= <-]. cbn [forEach].
    rewrite (validateDatapoint_parsed i i m dp E).
    destruct (functionOnText m); cbn [rbind]; [reflexivity|].
    now apply IH.
Qed.

Lemma forEach_validateMetricCluster bs : forall i mcs,
  parseMetricClusters bs = Ok mcs ->
  forEach validateMetricCluster i mcs =
    match firstAt aggregateWithoutColor i bs with
    | Some (k, b) =>
        Err (ErrClusterColorRequired k
               (default "" (graphMetricClusterHumanNameAttr b)))
    | None => Ok tt
    end.
Proof.
  induction bs as [|b bs IH]; intros i mcs; cbn [parseMetricClusters firstAt].
  - now intros [= <-].
  - destruct (parseMetricCluster b) as [mc|] eqn:E; [|discriminate]. cbn [rbind].
    destruct (parseMetricClusters bs) as [r|] eqn:El; [|discriminate].
    cbn [rbind]. intros [= <-]. cbn [forEach].
    rewrite (validateMetricCluster_parsed i b mc E).
    destruct (aggregateWithoutColor b); cbn [rbind]; [reflexivity|].
    now apply IH.
Qed.

(** X12: when the [metric] and [metric_cluster] blocks parse,
    [ParseConfig] on a new graph fails with the function-on-text error at
    the first block of type text that has a function, else with the
    colour-required error at the first metric cluster that has an aggregate
    function and no colour, and else succeeds with the parsed datapoints and
    metric clusters; the missing-attribute errors of [Validate] do not
    occur for blocks that parse. *)
Theorem graph_validation_after_parse (d : ResourceData)
    (datapoints : list GraphDatapoint) (metricClusters : list GraphMetricCluster) :
  parseDatapoints 0 (graphMetricAttr d) = Ok datapoints ->
  parseMetricClusters (graphMetricClusterAttr d) = Ok metricClusters ->
  ParseConfig newGraph d =
    match firstAt functionOnText 0 (graphMetricAttr d) with
    | Some (i, m) =>
        Err (ErrFunctionWithText i (trimmed (graphMetricHumanNameAttr m)))
    | None =>
        match firstAt aggregateWithoutColor 0 (graphMetricClusterAttr d) with
        | Some (i, b) =>
            Err (ErrClusterColorRequired i
                   (default "" (graphMetricClusterHumanNameAttr b)))
        | None =>
            Ok {| CID := ""; Datapoints := datapoints;
                  MetricClusters := metricClusters |}
        end
    end.
Proof.
  intros Hd Hc. unfold ParseConfig.
  assert (match GetOkList (graphMetricAttr d) with
          | Some metricList => parseDatapoints 0 metricList
          | None => Ok []
          end = parseDatapoints 0 (graphMetricAttr d)) as ->
    by (destruct (graphMetricAttr d); reflexivity).
  rewrite Hd. cbn [rbind].
  assert (match GetOkList (graphMetricClusterAttr d) with
          | Some metricClusterList =>
              let* l := parseMetricClusters metricClusterList in
              Ok (app (MetricClusters newGraph) l)
          | None => Ok (MetricClusters newGraph)
          end = parseMetricClusters (graphMetricClusterAttr d)) as ->.
  { destruct (graphMetricClusterAttr d); [reflexivity|].
    cbn [GetOkList]. destruct (parseMetricClusters _); reflexivity. }
  rewrite Hc. cbn [rbind newGraph CID]. unfold Validate.
  cbn [Datapoints MetricClusters].
  rewrite (forEach_validateDatapoint _ _ _ Hd).
  destruct (firstAt functionOnText 0 (graphMetricAttr d)) as [[i m]|];
    cbn [rbind]; [reflexivity|].
  rewrite (forEach_validateMetricCluster _ 0%nat _ Hc).
  destruct (firstAt aggregateWithoutColor 0 (graphMetricClusterAttr d)) as [[i b]|];
    reflexivity.
Qed.

Lemma graph_validation_after_parse_witness :
  ParseConfig newGraph
    (graphOf [metricByCheck; textMetricWithFunction] [clusterWithoutColor])
    = Err (ErrFunctionWithText 1 "Version") /\
  ParseConfig newGraph (graphOf [metricByCheck] [clusterWithoutColor])
    = Err (ErrClusterColorRequired 0 "Requests") /\
  isOk (ParseConfig newGraph (graphOf [metricByCheck] [exampleClusterBlock "left"]))
    = true.
Proof.
  split; [|split].
  - destruct (parseDatapoints 0 [metricByCheck; textMetricWithFunction])
      as [dps|e] eqn:Ed; [|vm_compute in Ed; discriminate Ed].
    destruct (parseMetricClusters [clusterWithoutColor])
      as [mcs|e] eqn:Ec; [|vm_compute in Ec; discriminate Ec].
    rewrite (graph_validation_after_parse (graphOf _ _) dps mcs Ed Ec).
    vm_compute. reflexivity.
  - destruct (parseDatapoints 0 [metricByCheck])
      as [dps|e] eqn:Ed; [|vm_compute in Ed; discriminate Ed].
    destruct (parseMetricClusters [clusterWithoutColor])
      as [mcs|e] eqn:Ec; [|vm_compute in Ec; discriminate Ec].
    rewrite (graph_validation_after_parse (graphOf _ _) dps mcs Ed Ec).
    reflexivity.
  - destruct (parseDatapoints 0 [metricByCheck])
      as [dps|e] eqn:Ed; [|vm_compute in Ed; discriminate Ed].
    destruct (parseMetricClusters [exampleClusterBlock "left"])
      as [mcs|e] eqn:Ec; [|vm_compute in Ec; discriminate Ec].
    rewrite (graph_validation_after_parse (graphOf _ _) dps mcs Ed Ec).
    reflexivity.
Defined.

End GraphReadBack.


(** ** Rule sets: what [ParseConfig] builds and what [ruleSetRead] writes *)

Module RuleSetReadBack.
Import RuleSet RuleSetSpec Range RuleSetExt GoFacts RuleSetFacts GoSeconds GoStrings.

(** The rule [parseIf] builds from an [if] block. *)
Lemma parseIf_rule mt cgs b rule cgs' :
  parseIf mt cgs b = Ok (Some rule, cgs') ->
  Criteria rule <> "" /\
  exists v vs, ruleSetValueAttr b = Some (v :: vs) /\
    ((mt = "numeric" /\ (Criteria rule, Value rule) = numericCriteria v) \/
     (mt = "text" /\ (Criteria rule, Value rule) = textCriteria v)) /\
    match ruleSetOverAttr v with
    | Some overList => parseOver overList (None, 0, 0)
    | None => Ok (None, 0, 0)
    end = Ok (WindowingFunction rule, WindowingDuration rule,
              WindowingMinDuration rule).
Proof.
  unfold parseIf.
  destruct (match ruleSetThenAttr b with Some _ => _ | None => _ end)
    as [[[wait severity] cgs1]|e]; [|discriminate].
  cbn [rbind]. destruct (ruleSetValueAttr b) as [[|v vs]|]; try discriminate.
  destruct (String.eqb_spec mt ruleSetMetricTypeNumeric) as [En|En].
  - cbn [rbind].
    destruct (match ruleSetOverAttr v with Some _ => _ | None => _ end)
      as [[[fn dur] mind]|e] eqn:Eo; [|discriminate].
    cbn [rbind Criteria].
    destruct (String.eqb_spec (fst (numericCriteria v)) "") as [|Hne]; [discriminate|].
    intros [= <- _]. cbn [Criteria Value WindowingFunction WindowingDuration
                          WindowingMinDuration].
    split; [exact Hne|]. exists v, vs. split; [reflexivity|]. split; [|exact Eo].
    left. split; [exact En|]. now destruct (numericCriteria v).
  - destruct (String.eqb_spec mt ruleSetMetricTypeText) as [Et|Et]; [|discriminate].
    cbn [rbind].
    destruct (match ruleSetOverAttr v with Some _ => _ | None => _ end)
      as [[[fn dur] mind]|e] eqn:Eo; [|discriminate].
    cbn [rbind Criteria].
    destruct (String.eqb_spec (fst (textCriteria v)) "") as [|Hne]; [discriminate|].
    intros [= <- _]. cbn [Criteria Value WindowingFunction WindowingDuration
                          WindowingMinDuration].
    split; [exact Hne|]. exists v, vs. split; [reflexivity|]. split; [|exact Eo].
    right. split; [exact Et|]. now destruct (textCriteria v).
Qed.

Lemma parseIfList_criteria mt ifList : forall cgs rules cgs',
  parseIfList mt ifList cgs = Ok (rules, cgs') ->
  Forall (fun rule => Criteria rule <> "") rules.
Proof.
  induction ifList as [|b ifList IH]; intros cgs rules cgs' H.
  - injection H as <- _. constructor.
  - cbn [parseIfList] in H.
    destruct (parseIf mt cgs b) as [[o cgs1]|e] eqn:E; [|discriminate].
    cbn [rbind snd fst] in H.
    destruct (parseIfList mt ifList cgs1) as [[rules1 cgs2]|e] eqn:E1; [|discriminate].
    cbn [rbind snd fst] in H. injection H as <- _.
    specialize (IH _ _ _ E1). destruct o as [rule|]; [|exact IH].
    constructor; [|exact IH]. now apply parseIf_rule in E.
Qed.

Lemma validateRule_parsed rs i rule :
  Criteria rule <> "" -> criteriaFits (MetricType rs) rule ->
  validateRule rs i rule =
    if windowTooShortb rule then Err (ErrWindowMinDuration i (CheckCID rs))
    else Ok tt.
Proof.
  intros Hne [Ht Hn]. unfold validateRule, windowTooShortb.
  fold textOnlyCriteria numericOnlyCriteria.
  destruct (String.eqb_spec (Criteria rule) ""); [contradiction|].
  destruct (WindowingDuration rule <? WindowingMinDuration rule); [reflexivity|].
  destruct (stringInSlice (Criteria rule) textOnlyCriteria) eqn:E1.
  { rewrite (Ht eq_refl). cbn [String.eqb Ascii.eqb Bool.eqb andb negb].
    destruct (stringInSlice (Criteria rule) numericOnlyCriteria) eqn:E2;
      [|reflexivity].
    specialize (Hn eq_refl). rewrite Ht in Hn by reflexivity. discriminate. }
  cbn [andb].
  destruct (stringInSlice (Criteria rule) numericOnlyCriteria) eqn:E2;
    [|reflexivity].
  rewrite (Hn eq_refl). reflexivity.
Qed.

Lemma validateRules_parsed rs rules :
  Forall (fun rule => Criteria rule <> "") rules ->
  Forall (criteriaFits (MetricType rs)) rules ->
  forall i,
    validateRules rs i rules =
      match firstAt windowTooShortb i rules with
      | Some (k, _) => Err (ErrWindowMinDuration k (CheckCID rs))
      | None => Ok tt
      end.
Proof.
  induction rules as [|r rules IH]; intros Hc Hf i; [reflexivity|].
  inversion Hc as [|? ? Hc1 Hc2]; subst. inversion Hf as [|? ? Hf1 Hf2]; subst.
  cbn [validateRules firstAt]. rewrite (validateRule_parsed rs i r Hc1 Hf1).
  destruct (windowTooShortb r); cbn [rbind]; [reflexivity|]. now apply IH.
Qed.

Lemma orElse_GetOkString (s : string) : orElse (GetOkString s) "" = s.
Proof. unfold orElse, GetOkString. now destruct (String.eqb_spec s "") as [->|]. Qed.

Lemma length_pos_nonempty (s : string) :
  Nat.ltb 0 (String.length s) = negb (String.eqb s "").
Proof. now destruct s. Qed.

Lemma length_zero_empty (s : string) :
  Nat.eqb (String.length s) 0 = String.eqb s "".
Proof. now destruct s. Qed.

(** X13: when the [if] blocks parse, [ParseConfig] on a new rule set fails
    with the both-name-and-pattern error when [metric_name] and
    [metric_pattern] are both set, with the neither error when both are
    empty, else with the window error at the first rule whose minimum
    window duration exceeds its window duration, and else succeeds with the
    attributes of the configuration; the empty-criteria error of [Validate]
    does not occur for blocks that parse. *)
Theorem rule_set_validation_after_parse (d : ResourceData)
    (rules : list RuleSetRule) (cgs : gmap Z (list string)) :
  parseIfList (ruleSetMetricTypeAttr d) (ruleSetIfAttr d)
    (ContactGroups newRuleSet) = Ok (rules, cgs) ->
  ParseConfig newRuleSet d =
    if negb (String.eqb (ruleSetMetricNameAttr d) "")
       && negb (String.eqb (ruleSetMetricPatternAttr d) "")
    then Err (ErrBothNameAndPattern (ruleSetCheckAttr d))
    else if String.eqb (ruleSetMetricNameAttr d) ""
            && String.eqb (ruleSetMetricPatternAttr d) ""
    then Err (ErrNeitherNameNorPattern (ruleSetCheckAttr d))
    else
      match firstAt windowTooShortb 0 rules with
      | Some (i, _) => Err (ErrWindowMinDuration i (ruleSetCheckAttr d))
      | None =>
          Ok {| CID := ""; CheckCID := ruleSetCheckAttr d; ContactGroups := cgs;
                Filter := ruleSetMetricFilterAttr d;
                Link := GetOkString (ruleSetLinkAttr d);
                MetricName := ruleSetMetricNameAttr d;
                MetricPattern := ruleSetMetricPatternAttr d;
                MetricType := ruleSetMetricTypeAttr d;
                Name := ruleSetNameAttr d;
                Notes := GetOkString (ruleSetNotesAttr d);
                Parent := GetOkString (ruleSetParentAttr d);
                Rules := rules;
                UserJSON := ruleSetUserJSONAttr d |}
      end.
Proof.
  intros H. unfold ParseConfig.
  cbn [newRuleSet CID CheckCID Filter Link MetricName MetricPattern MetricType
       Name Notes Parent UserJSON].
  rewrite !orElse_GetOkString.
  assert (match GetOkList (ruleSetIfAttr d) with
          | Some ifList =>
              parseIfList (ruleSetMetricTypeAttr d) ifList (ContactGroups newRuleSet)
          | None => Ok ([], ContactGroups newRuleSet)
          end = Ok (rules, cgs)) as ->
    by (rewrite <- H; destruct (ruleSetIfAttr d); reflexivity).
  cbn [rbind fst snd].
  assert (forall o : option string,
            match o with Some s => Some s | None => None end = o) as Ho
    by (now intros []).
  rewrite !Ho. unfold Validate.
  cbn [CheckCID MetricName MetricPattern MetricType Rules].
  rewrite !length_pos_nonempty, !length_zero_empty.
  destruct (negb (String.eqb (ruleSetMetricNameAttr d) "")
            && negb (String.eqb (ruleSetMetricPatternAttr d) "")); [reflexivity|].
  destruct (String.eqb (ruleSetMetricNameAttr d) ""
            && String.eqb (ruleSetMetricPatternAttr d) ""); [reflexivity|].
  match goal with |- context [validateRules ?R 0 rules] =>
    rewrite (validateRules_parsed R rules
               (parseIfList_criteria _ _ _ _ _ H) (parseIfList_fits _ _ _ _ _ H) 0%nat)
  end.
  cbn [CheckCID].
  destruct (firstAt windowTooShortb 0 rules) as [[i r]|]; reflexivity.
Qed.

Lemma rule_set_validation_after_parse_witness :
  ParseConfig newRuleSet
    (exampleRuleSet "numeric" "0"
       (withOver (exampleOver "60" "120") (withMinValue "5" emptyValue)))
  = Err (ErrWindowMinDuration 0 "/check/1") /\
  isOk (ParseConfig newRuleSet
          (exampleRuleSet "numeric" "0"
             (withOver (exampleOver "300" "120") (withMinValue "5" emptyValue))))
  = true.
Proof.
  split.
  - destruct (parseIfList "numeric"
                (ruleSetIfAttr
                   (exampleRuleSet "numeric" "0"
                      (withOver (exampleOver "60" "120")
                         (withMinValue "5" emptyValue))))
                (ContactGroups newRuleSet)) as [[rules cgs]|e] eqn:E;
      [|vm_compute in E; discriminate E].
    pose proof E as E'. vm_compute in E'. injection E' as <- <-.
    rewrite (rule_set_validation_after_parse (exampleRuleSet _ _ _) _ _ E).
    reflexivity.
  - destruct (parseIfList "numeric"
                (ruleSetIfAttr
                   (exampleRuleSet "numeric" "0"
                      (withOver (exampleOver "300" "120")
                         (withMinValue "5" emptyValue))))
                (ContactGroups newRuleSet)) as [[rules cgs]|e] eqn:E;
      [|vm_compute in E; discriminate E].
    pose proof E as E'. vm_compute in E'. injection E' as <- <-.
    rewrite (rule_set_validation_after_parse (exampleRuleSet _ _ _) _ _ E).
    reflexivity.
Defined.

Lemma foundNonEmpty_Some (o : option string) (s : string) :
  foundNonEmpty o = Some s -> o = Some s /\ s <> "".
Proof.
  destruct o as [t|]; [|discriminate]. cbn [foundNonEmpty].
  destruct (String.eqb_spec t ""); [discriminate|]. now intros [= <-].
Qed.

(** An absence of whole seconds is stored as that number and read back as
    the text it was given as. *)
Lemma absent_whole_seconds (N : Z) :
  0 <= N <= 9223372036 ->
  absentValue (Go.FormatInt N) = ValueFloat (inject_Z N) /\
  Go.FormatInt
    (Go.int (Go.Qtrunc (Go.Seconds
       (default 0 (Go.ParseDuration (Go.FormatFloat6 (inject_Z N) ++ "s"))))))
  = Go.FormatInt N.
Proof.
  intros HN.
  assert (H53 : 0 <= N < 2 ^ 53)
    by (replace (2 ^ 53) with 9007199254740992 by reflexivity; lia).
  split.
  - unfold absentValue.
    rewrite ParseDuration_seconds
      by (try apply FormatInt_not_empty; apply allDigits_FormatInt; lia).
    rewrite decimalValue_FormatInt by lia.
    destruct (Z.leb_spec N 9223372036); [|lia].
    change (default 0 (Some (N * 10 ^ 9))) with (N * 10 ^ 9).
    now rewrite Seconds_whole.
  - rewrite ParseDuration_FormatFloat6_int by lia.
    change (default 0 (Some (N * 10 ^ 9))) with (N * 10 ^ 9).
    rewrite Seconds_whole by exact H53.
    assert (Go.Qtrunc (inject_Z N) = N) as ->.
    { unfold Go.Qtrunc. cbn [Qnum inject_Z].
      destruct (Z.ltb_spec N 0); [lia|]. apply Qfloor_Z. }
    assert (Go.int N = N) as ->; [|reflexivity].
    unfold Go.int, Go.maxInt64.
    rewrite Z.mod_small
      by (replace (2 ^ 64) with 18446744073709551616 by reflexivity; lia).
    destruct (Z.leb_spec N (2 ^ 63 - 1)); [reflexivity|].
    replace (2 ^ 63) with 9223372036854775808 in * by reflexivity. lia.
Qed.

(** X14: for every rule [ParseConfig] builds from an [if] block, the
    criteria switch of [ruleSetRead] has a case: it writes a text under a
    key that is set and not empty in the [value] block of the configuration,
    the same text for every key but [absent], and for [absent] the same
    text when that is a whole number of seconds up to 9223372036. *)
Theorem value_criteria_read_back (metricType : string)
    (cgs : gmap Z (list string)) (ifAttrs : ifBlock) (rule : RuleSetRule)
    (cgs' : gmap Z (list string)) :
  parseIf metricType cgs ifAttrs = Ok (Some rule, cgs') ->
  exists valueAttrs rest k s s0,
    ruleSetValueAttr ifAttrs = Some (valueAttrs :: rest) /\
    criteriaToState rule = Some (k, ValueString s) /\
    valueAttr k valueAttrs = Some s0 /\ s0 <> "" /\
    (k <> key.ruleSetAbsentAttr -> s = s0) /\
    (k = key.ruleSetAbsentAttr ->
       forall N, 0 <= N <= 9223372036 -> s0 = Go.FormatInt N -> s = s0).
Proof.
  intros H. apply parseIf_rule in H as (Hcrit & v & vs & Hv & Hcv & _).
  exists v, vs.
  cut (exists k s s0,
         criteriaToState rule = Some (k, ValueString s) /\
         valueAttr k v = Some s0 /\ s0 <> "" /\
         (k <> key.ruleSetAbsentAttr -> s = s0) /\
         (k = key.ruleSetAbsentAttr ->
            forall N, 0 <= N <= 9223372036 -> s0 = Go.FormatInt N -> s = s0)).
  { intros (k & s & s0 & ?). exists k, s, s0. split; assumption. }
  assert (Habs : forall s0, Criteria rule = apiRuleSetAbsent ->
            Value rule = absentValue s0 -> ruleSetAbsentAttr v = Some s0 ->
            s0 <> "" ->
            exists k s s1,
              criteriaToState rule = Some (k, ValueString s) /\
              valueAttr k v = Some s1 /\ s1 <> "" /\
              (k <> key.ruleSetAbsentAttr -> s = s1) /\
              (k = key.ruleSetAbsentAttr ->
                 forall N, 0 <= N <= 9223372036 -> s1 = Go.FormatInt N -> s = s1)).
  { intros s0 Hc Hval Ha Hne. unfold criteriaToState. rewrite Hc, Hval.
    cbn [String.eqb Ascii.eqb Bool.eqb apiRuleSetAbsent absentValue].
    eexists _, _, s0. split; [reflexivity|]. split; [exact Ha|].
    split; [exact Hne|]. split; [intros Hk; now contradiction Hk|].
    intros _ N HN ->. destruct (absent_whole_seconds N HN) as [E1 E2].
    unfold absentValue in E1. injection E1 as E1. rewrite E1. exact E2. }
  assert (Hstr : forall c k s0,
            Criteria rule = c -> Value rule = ValueString s0 ->
            criteriaToState {| Criteria := c; Severity := 0; Value := ValueString s0;
                               Wait := 0; WindowingDuration := 0;
                               WindowingFunction := None;
                               WindowingMinDuration := 0 |}
              = Some (k, ValueString s0) ->
            k <> key.ruleSetAbsentAttr ->
            valueAttr k v = Some s0 -> s0 <> "" ->
            exists k s s1,
              criteriaToState rule = Some (k, ValueString s) /\
              valueAttr k v = Some s1 /\ s1 <> "" /\
              (k <> key.ruleSetAbsentAttr -> s = s1) /\
              (k = key.ruleSetAbsentAttr ->
                 forall N, 0 <= N <= 9223372036 -> s1 = Go.FormatInt N -> s = s1)).
  { intros c k s0 Hc Hval Hst Hk Ha Hne. exists k, s0, s0.
    split; [|split; [exact Ha|split; [exact Hne|split; [reflexivity|]]]].
    - unfold criteriaToState in *. cbn [Criteria Value] in Hst.
      now rewrite Hc, Hval.
    - intros E. now contradiction Hk. }
  destruct Hcv as [[_ E]|[_ E]]; revert E.
  - unfold numericCriteria.
    destruct (foundNonEmpty (ruleSetAbsentAttr v)) as [s0|] eqn:E0.
    { apply foundNonEmpty_Some in E0 as [E0 Hne]. intros [= Hc Hval]. eauto. }
    destruct (foundNonEmpty (ruleSetChangedAttr v)) as [s0|] eqn:E1.
    { apply foundNonEmpty_Some in E1 as [E1 Hne].
      destruct (String.eqb_spec s0 "true") as [->|]; intros [= Hc Hval].
      - exists key.ruleSetChangedAttr, "true", "true".
        unfold criteriaToState. rewrite Hc.
        repeat split; try assumption; try reflexivity; discriminate.
      - now contradiction Hcrit. }
    destruct (foundNonEmpty (ruleSetMinValueAttr v)) as [s0|] eqn:E2.
    { apply foundNonEmpty_Some in E2 as [E2 Hne]. intros [= Hc Hval].
      apply (Hstr _ key.ruleSetMinValueAttr s0 Hc Hval);
        [reflexivity | discriminate | exact E2 | exact Hne]. }
    destruct (foundNonEmpty (ruleSetMaxValueAttr v)) as [s0|] eqn:E3.
    { apply foundNonEmpty_Some in E3 as [E3 Hne]. intros [= Hc Hval].
      apply (Hstr _ key.ruleSetMaxValueAttr s0 Hc Hval);
        [reflexivity | discriminate | exact E3 | exact Hne]. }
    destruct (foundNonEmpty (ruleSetEqValueAttr v)) as [s0|] eqn:E4.
    { apply foundNonEmpty_Some in E4 as [E4 Hne]. intros [= Hc Hval].
      apply (Hstr _ key.ruleSetEqValueAttr s0 Hc Hval);
        [reflexivity | discriminate | exact E4 | exact Hne]. }
    destruct (foundNonEmpty (ruleSetNotEqValueAttr v)) as [s0|] eqn:E5.
    { apply foundNonEmpty_Some in E5 as [E5 Hne]. intros [= Hc Hval].
      apply (Hstr _ key.ruleSetNotEqValueAttr s0 Hc Hval);
        [reflexivity | discriminate | exact E5 | exact Hne]. }
    intros [= Hc _]. now contradiction Hcrit.
  - unfold textCriteria.
    destruct (foundNonEmpty (ruleSetAbsentAttr v)) as [s0|] eqn:E0.
    { apply foundNonEmpty_Some in E0 as [E0 Hne]. intros [= Hc Hval]. eauto. }
    destruct (foundNonEmpty (ruleSetChangedAttr v)) as [s0|] eqn:E1.
    { apply foundNonEmpty_Some in E1 as [E1 Hne].
      destruct (String.eqb_spec s0 "true") as [->|]; intros [= Hc Hval].
      - exists key.ruleSetChangedAttr, "true", "true".
        unfold criteriaToState. rewrite Hc.
        repeat split; try assumption; try reflexivity; discriminate.
      - now contradiction Hcrit. }
    destruct (foundNonEmpty (ruleSetContainsAttr v)) as [s0|] eqn:E2.
    { apply foundNonEmpty_Some in E2 as [E2 Hne]. intros [= Hc Hval].
      apply (Hstr _ key.ruleSetContainsAttr s0 Hc Hval);
        [reflexivity | discriminate | exact E2 | exact Hne]. }
    destruct (foundNonEmpty (ruleSetMatchAttr v)) as [s0|] eqn:E3.
    { apply foundNonEmpty_Some in E3 as [E3 Hne]. intros [= Hc Hval].
      apply (Hstr _ key.ruleSetMatchAttr s0 Hc Hval);
        [reflexivity | discriminate | exact E3 | exact Hne]. }
    destruct (foundNonEmpty (ruleSetNotMatchAttr v)) as [s0|] eqn:E4.
    { apply foundNonEmpty_Some in E4 as [E4 Hne]. intros [= Hc Hval].
      apply (Hstr _ key.ruleSetNotMatchAttr s0 Hc Hval);
        [reflexivity | discriminate | exact E4 | exact Hne]. }
    destruct (foundNonEmpty (ruleSetNotContainAttr v)) as [s0|] eqn:E5.
    { apply foundNonEmpty_Some in E5 as [E5 Hne]. intros [= Hc Hval].
      apply (Hstr _ key.ruleSetNotContainAttr s0 Hc Hval);
        [reflexivity | discriminate | exact E5 | exact Hne]. }
    intros [= Hc _]. now contradiction Hcrit.
Qed.

Lemma value_criteria_read_back_witness :
  match parseIf "numeric" (ContactGroups newRuleSet)
          (ifOf (withMinValue "5" emptyValue)) with
  | Ok (Some rule, _) =>
      exists k s, criteriaToState rule = Some (k, ValueString s)
  | _ => False
  end.
Proof.
  destruct (parseIf "numeric" (ContactGroups newRuleSet)
              (ifOf (withMinValue "5" emptyValue)))
    as [[[rule|] cgs']|e] eqn:E.
  - destruct (value_criteria_read_back _ _ _ _ _ E)
      as (v & vs & k & s & s0 & _ & H & _).
    exists k, s. exact H.
  - vm_compute in E. discriminate E.
  - vm_compute in E. discriminate E.
Defined.

Lemma parseWindow_range mk v u :
  parseWindow mk v = Ok u -> 0 <= u < 2 ^ 64.
Proof.
  unfold parseWindow. destruct (foundNonEmpty v) as [s|].
  - destruct (Go.Atoi s) as [i|]; [|discriminate]. intros [= <-].
    unfold Go.uint. apply Z.mod_pos_bound. reflexivity.
  - intros [= <-]. split; [lia | reflexivity].
Qed.

Lemma parseOver_window overList : forall fn d m fn' d' m',
  validWindow fn d m ->
  parseOver overList (fn, d, m) = Ok (fn', d', m') -> validWindow fn' d' m'.
Proof.
  induction overList as [|o overList IH]; intros fn d m fn' d' m' Hw.
  - now intros [= <- <- <-].
  - cbn [parseOver].
    destruct (parseWindow ErrParseLast (ruleSetLastAttr o)) as [wd|] eqn:Ed;
      [|discriminate].
    cbn [rbind].
    destruct (parseWindow ErrParseAtLeast (ruleSetAtLeastAttr o)) as [wm|] eqn:Em;
      [|discriminate].
    cbn [rbind]. apply parseWindow_range in Ed, Em.
    destruct (String.eqb_spec (default "" (ruleSetUsingAttr o)) "") as [|Hf];
      cbn [negb andb]; [now apply IH|].
    destruct (Z.ltb_spec 0 wd); [|now apply IH].
    apply IH. cbn [validWindow]. split; [exact Hf|]. split; [lia|].
    destruct (Z.ltb_spec 0 wm); [lia|].
    destruct fn; cbn [validWindow] in Hw; lia.
Qed.

Lemma parseWindow_FormatInt mk (n : Z) :
  0 <= n <= Go.maxInt64 -> parseWindow mk (Some (Go.FormatInt n)) = Ok n.
Proof.
  intros Hn. unfold parseWindow, foundNonEmpty.
  destruct (String.eqb_spec (Go.FormatInt n) "") as [E|_];
    [now apply FormatInt_not_empty in E|].
  rewrite Atoi_FormatInt by (unfold Go.minInt64, Go.maxInt64 in *; lia).
  unfold Go.uint. rewrite Z.mod_small; [reflexivity|].
  unfold Go.maxInt64 in Hn.
  replace (2 ^ 64) with 18446744073709551616 by reflexivity.
  replace (2 ^ 63) with 9223372036854775808 in Hn by reflexivity. lia.
Qed.

(** X15: a rule [ParseConfig] builds has either no windowing function and
    no window durations, or a named function, a positive window duration
    and a minimum duration, all within a [uint]; [ruleSetRead] writes an
    [over] block only in the second case, and when the durations fit an
    [int] that block parses to the same window. *)
Theorem window_read_back (metricType : string) (cgs : gmap Z (list string))
    (ifAttrs : ifBlock) (rule : RuleSetRule) (cgs' : gmap Z (list string)) :
  parseIf metricType cgs ifAttrs = Ok (Some rule, cgs') ->
  validWindow (WindowingFunction rule) (WindowingDuration rule)
    (WindowingMinDuration rule) /\
  (WindowingFunction rule = None -> overToState rule = None) /\
  (forall f, WindowingFunction rule = Some f ->
     exists o, overToState rule = Some o /\
       (WindowingDuration rule <= Go.maxInt64 ->
        WindowingMinDuration rule <= Go.maxInt64 ->
        parseOver [o] (None, 0, 0)
          = Ok (Some f, WindowingDuration rule, WindowingMinDuration rule))).
Proof.
  intros H. apply parseIf_rule in H as (_ & v & vs & _ & _ & Ho).
  assert (Hw : validWindow (WindowingFunction rule) (WindowingDuration rule)
                 (WindowingMinDuration rule)).
  { destruct (ruleSetOverAttr v) as [l|].
    - eapply parseOver_window; [|exact Ho]. now split.
    - injection Ho as <- <- <-. now split. }
  split; [exact Hw|]. unfold overToState. split; [now intros ->|].
  intros f Hf. rewrite Hf in *. cbn [validWindow] in Hw.
  destruct Hw as (Hne & Hd & Hm). eexists. split; [reflexivity|].
  intros Hdmax Hmmax. cbn [parseOver ruleSetLastAttr ruleSetAtLeastAttr ruleSetUsingAttr].
  rewrite !parseWindow_FormatInt by lia. cbn [rbind].
  change (default "" (Some f)) with f.
  destruct (String.eqb_spec f ""); [contradiction|]. cbn [negb andb].
  destruct (Z.ltb_spec 0 (WindowingDuration rule)); [|lia].
  destruct (Z.ltb_spec 0 (WindowingMinDuration rule)); [reflexivity|].
  replace (WindowingMinDuration rule) with 0 by lia. reflexivity.
Qed.

Lemma window_read_back_witness :
  match parseIf "numeric" (ContactGroups newRuleSet)
          (ifOf (withOver (exampleOver "300" "120") (withMinValue "5" emptyValue)))
  with
  | Ok (Some rule, _) =>
      validWindow (WindowingFunction rule) (WindowingDuration rule)
        (WindowingMinDuration rule)
  | _ => False
  end.
Proof.
  destruct (parseIf "numeric" (ContactGroups newRuleSet)
              (ifOf (withOver (exampleOver "300" "120")
                       (withMinValue "5" emptyValue))))
    as [[[rule|] cgs']|e] eqn:E.
  - exact (proj1 (window_read_back _ _ _ _ _ E)).
  - vm_compute in E. discriminate E.
  - vm_compute in E. discriminate E.
Defined.

(** *** Contact groups *)

Lemma groupsAt_insert cgs sev l k :
  groupsAt (<[sev := l]> cgs) k = if decide (k = sev) then l else groupsAt cgs k.
Proof.
  unfold groupsAt. destruct (decide (k = sev)) as [->|Hne].
  - now rewrite lookup_insert_eq.
  - now rewrite lookup_insert_ne by congruence.
Qed.

Lemma existsb_eqb_In (c : string) (l : list string) :
  existsb (String.eqb c) l = true <-> In c l.
Proof.
  rewrite existsb_exists. split.
  - intros (x & Hx & E). apply String.eqb_eq in E. now subst.
  - intros H. exists c. split; [exact H | apply String.eqb_refl].
Qed.

Lemma addContactGroups_In sev notifyList : forall cgs k g,
  In g (groupsAt (addContactGroups sev notifyList cgs) k) <->
  In g (groupsAt cgs k) \/ (k = sev /\ In g notifyList).
Proof.
  unfold addContactGroups.
  induction notifyList as [|c l IH]; intros cgs k g; cbn [fold_left].
  - cbn [In]. tauto.
  - rewrite IH. fold (groupsAt cgs sev).
    destruct (existsb (String.eqb c) (groupsAt cgs sev)) eqn:E.
    + apply existsb_eqb_In in E. cbn [In]. split; [tauto|].
      intros [H|[-> [<-|H]]]; auto.
    + rewrite groupsAt_insert. destruct (decide (k = sev)) as [->|Hne].
      * rewrite in_app_iff. cbn [In]. tauto.
      * cbn [In]. tauto.
Qed.

Lemma addContactGroups_NoDup sev notifyList : forall cgs,
  (forall k, NoDup (groupsAt cgs k)) ->
  forall k, NoDup (groupsAt (addContactGroups sev notifyList cgs) k).
Proof.
  unfold addContactGroups.
  induction notifyList as [|c l IH]; intros cgs H; cbn [fold_left]; [exact H|].
  apply IH. fold (groupsAt cgs sev).
  destruct (existsb (String.eqb c) (groupsAt cgs sev)) eqn:E; [exact H|].
  intros k. rewrite groupsAt_insert. destruct (decide (k = sev)); [|apply H].
  apply NoDup_app. split; [apply H|]. split.
  - intros x Hx Hc. apply list_elem_of_In in Hx, Hc. cbn [In] in Hc.
    destruct Hc as [<-|[]]. apply existsb_eqb_In in Hx. congruence.
  - apply NoDup_singleton.
Qed.

Lemma parseThen_groups thenList : forall wait severity cgs wait' severity' cgs',
  parseThen thenList (wait, severity, cgs) = Ok (wait', severity', cgs') ->
  (forall k g, In g (groupsAt cgs k) -> In g (groupsAt cgs' k)) /\
  ((forall k, NoDup (groupsAt cgs k)) -> forall k, NoDup (groupsAt cgs' k)) /\
  (forall t i l g, In t thenList -> ruleSetSeverityAttr t = Some i ->
     ruleSetNotifyAttr t = Some l -> In g l ->
     In g (groupsAt cgs' (Go.uint8 (Go.uint i)))).
Proof.
  induction thenList as [|t thenList IH];
    intros wait severity cgs wait' severity' cgs'.
  - intros [= <- <- <-]. split; [auto|]. split; [auto|]. intros ? ? ? ? [].
  - cbn [parseThen].
    destruct (match ruleSetAfterAttr t with Some _ => _ | None => _ end)
      as [w|]; [|discriminate].
    cbn [rbind]. intros H. apply IH in H as (Hmono & Hnd & Hin).
    split; [|split].
    + intros k g Hg. apply Hmono.
      destruct (ruleSetNotifyAttr t); [|exact Hg].
      apply addContactGroups_In. now left.
    + intros H0. apply Hnd.
      destruct (ruleSetNotifyAttr t); [|exact H0].
      now apply addContactGroups_NoDup.
    + intros t' i l g [<-|Ht'] Hs Hn Hg; [|eapply Hin; eassumption].
      apply Hmono. rewrite Hs, Hn. apply addContactGroups_In. right. now split.
Qed.

Lemma parseIf_groups mt cgs b o cgs' :
  parseIf mt cgs b = Ok (o, cgs') ->
  (forall k g, In g (groupsAt cgs k) -> In g (groupsAt cgs' k)) /\
  ((forall k, NoDup (groupsAt cgs k)) -> forall k, NoDup (groupsAt cgs' k)) /\
  (forall thenList t i l g, ruleSetThenAttr b = Some thenList ->
     In t thenList -> ruleSetSeverityAttr t = Some i ->
     ruleSetNotifyAttr t = Some l -> In g l ->
     In g (groupsAt cgs' (Go.uint8 (Go.uint i)))).
Proof.
  unfold parseIf.
  destruct (match ruleSetThenAttr b with Some _ => _ | None => _ end)
    as [[[wait severity] cgs1]|e] eqn:Et; [|discriminate].
  cbn [rbind].
  destruct (match ruleSetValueAttr b with Some _ => _ | None => _ end)
    as [rule|]; [|discriminate].
  cbn [rbind]. intros [= _ <-].
  destruct (ruleSetThenAttr b) as [thenList|].
  - apply parseThen_groups in Et as (H1 & H2 & H3).
    split; [exact H1|]. split; [exact H2|].
    intros tl t i l g [= <-]. apply H3.
  - injection Et as _ _ <-. split; [auto|]. split; [auto|]. discriminate.
Qed.

Lemma parseIfList_groups mt ifList : forall cgs rules cgs',
  parseIfList mt ifList cgs = Ok (rules, cgs') ->
  (forall k g, In g (groupsAt cgs k) -> In g (groupsAt cgs' k)) /\
  ((forall k, NoDup (groupsAt cgs k)) -> forall k, NoDup (groupsAt cgs' k)) /\
  (forall b thenList t i l g, In b ifList -> ruleSetThenAttr b = Some thenList ->
     In t thenList -> ruleSetSeverityAttr t = Some i ->
     ruleSetNotifyAttr t = Some l -> In g l ->
     In g (groupsAt cgs' (Go.uint8 (Go.uint i)))).
Proof.
  induction ifList as [|b ifList IH]; intros cgs rules cgs'.
  - intros [= _ <-]. split; [auto|]. split; [auto|]. intros ? ? ? ? ? ? [].
  - cbn [parseIfList].
    destruct (parseIf mt cgs b) as [[o cgs1]|e] eqn:E; [|discriminate].
    cbn [rbind snd fst].
    destruct (parseIfList mt ifList cgs1) as [[rules1 cgs2]|e] eqn:E1; [|discriminate].
    cbn [rbind snd fst]. intros [= _ <-].
    apply parseIf_groups in E as (H1 & H2 & H3).
    apply IH in E1 as (G1 & G2 & G3).
    split; [auto|]. split; [auto|].
    intros b' tl t i l g [<-|Hb] Htl Ht Hs Hn Hg.
    + apply G1. eapply H3; eassumption.
    + eapply G3; eassumption.
Qed.

Lemma newRuleSet_groups (k : Z) : groupsAt (ContactGroups newRuleSet) k = [].
Proof.
  unfold groupsAt. destruct (ContactGroups newRuleSet !! k) as [l|] eqn:E;
    [|reflexivity].
  cbn [newRuleSet ContactGroups] in E.
  apply elem_of_list_to_map_2, list_elem_of_In, in_map_iff in E
    as (i & [= _ <-] & _).
  reflexivity.
Qed.

Lemma ParseConfig_parsed rs0 d rs :
  ParseConfig rs0 d = Ok rs ->
  parseIfList (orElse (GetOkString (ruleSetMetricTypeAttr d)) (MetricType rs0))
    (ruleSetIfAttr d) (ContactGroups rs0) = Ok (Rules rs, ContactGroups rs).
Proof.
  unfold ParseConfig.
  assert (match GetOkList (ruleSetIfAttr d) with
          | Some ifList =>
              parseIfList (orElse (GetOkString (ruleSetMetricTypeAttr d)) (MetricType rs0))
                ifList (ContactGroups rs0)
          | None => Ok ([], ContactGroups rs0)
          end = parseIfList (orElse (GetOkString (ruleSetMetricTypeAttr d)) (MetricType rs0))
                  (ruleSetIfAttr d) (ContactGroups rs0)) as ->
    by (destruct (ruleSetIfAttr d); reflexivity).
  destruct (parseIfList _ _ _) as [[rules cgs]|]; [|discriminate].
  cbn [rbind fst snd]. destruct (Validate _) as [[]|]; [|discriminate].
  cbn [rbind]. now intros [= <-].
Qed.

Lemma insertSorted_In x l g : In g (insertSorted x l) <-> g = x \/ In g l.
Proof.
  induction l as [|y l IH]; cbn [insertSorted In]; [split; intros [H|H]; auto|].
  destruct (String.leb x y); cbn [In]; [split; intros [H|H]; auto|].
  rewrite IH. tauto.
Qed.

Lemma insertSorted_Permutation x l : Permutation (insertSorted x l) (x :: l).
Proof.
  induction l as [|y l IH]; cbn [insertSorted]; [reflexivity|].
  destruct (String.leb x y); [reflexivity|].
  rewrite IH. apply perm_swap.
Qed.

Lemma insertSorted_Sorted x l :
  Sorted stringLe l -> Sorted stringLe (insertSorted x l).
Proof.
  induction 1 as [|y l Hl IH Hy]; cbn [insertSorted].
  - repeat constructor.
  - destruct (String.leb x y) eqn:E.
    + constructor; [now constructor | now constructor].
    + constructor; [exact IH|].
      assert (Hyx : stringLe y x).
      { destruct (String.leb_total x y) as [H|H]; [congruence | exact H]. }
      destruct l as [|z l]; cbn [insertSorted]; [now constructor|].
      destruct (String.leb x z); constructor; [exact Hyx|].
      now inversion Hy.
Qed.

Lemma sortStrings_sorted l :
  Sorted stringLe (sortStrings l) /\ Permutation (sortStrings l) l.
Proof.
  unfold sortStrings. induction l as [|x l [IH1 IH2]]; cbn [fold_right].
  - split; constructor.
  - split; [now apply insertSorted_Sorted|].
    rewrite insertSorted_Permutation. now constructor.
Qed.

(** X16: in the rule set [ParseConfig] builds from a new one, no severity
    level lists a contact group twice and every group a [then] block
    notifies is listed at the severity of that block; for a rule of positive
    severity [ruleSetRead] writes as [notify] the groups of its severity
    level, sorted and without duplicates, and for any other rule it writes
    no [notify]. *)
Theorem contact_groups_read_back (d : ResourceData) (rs : RuleSet) :
  ParseConfig newRuleSet d = Ok rs ->
  (forall k, NoDup (groupsAt (ContactGroups rs) k)) /\
  (forall ifAttrs thenList thenAttrs i notifyList g,
     In ifAttrs (ruleSetIfAttr d) -> ruleSetThenAttr ifAttrs = Some thenList ->
     In thenAttrs thenList -> ruleSetSeverityAttr thenAttrs = Some i ->
     ruleSetNotifyAttr thenAttrs = Some notifyList -> In g notifyList ->
     In g (groupsAt (ContactGroups rs) (Go.uint8 (Go.uint i)))) /\
  (forall rule, 0 < Go.int (Severity rule) ->
     exists l,
       ruleSetNotifyAttr (thenToState (ContactGroups rs) rule) = Some l /\
       Sorted stringLe l /\ NoDup l /\
       Permutation l (groupsAt (ContactGroups rs) (Go.uint8 (Severity rule)))) /\
  (forall rule, Go.int (Severity rule) <= 0 ->
     ruleSetNotifyAttr (thenToState (ContactGroups rs) rule) = None).
Proof.
  intros H. apply ParseConfig_parsed, parseIfList_groups in H as (_ & Hnd & Hin).
  assert (Hnd' : forall k, NoDup (groupsAt (ContactGroups rs) k)).
  { apply Hnd. intros k. rewrite newRuleSet_groups. constructor. }
  split; [exact Hnd'|]. split; [exact Hin|]. split.
  - intros rule Hs. unfold thenToState. cbn [ruleSetNotifyAttr].
    destruct (Z.ltb_spec 0 (Go.int (Severity rule))); [|lia].
    specialize (Hnd' (Go.uint8 (Severity rule))). unfold groupsAt in *.
    destruct (ContactGroups rs !! Go.uint8 (Severity rule)) as [l|].
    + cbn [default] in *. destruct (sortStrings_sorted l) as [S P].
      exists (sortStrings l). split; [reflexivity|]. split; [exact S|].
      split; [|exact P]. now rewrite P.
    + exists []. repeat split; constructor.
  - intros rule Hs. unfold thenToState. cbn [ruleSetNotifyAttr].
    destruct (Z.ltb_spec 0 (Go.int (Severity rule))); [lia | reflexivity].
Qed.

Lemma contact_groups_read_back_witness :
  match ParseConfig newRuleSet
          (exampleRuleSet "numeric" "120" (withMinValue "5" emptyValue)) with
  | Ok rs => In "/contact_group/1" (groupsAt (ContactGroups rs) 1)
  | Err _ => False
  end.
Proof.
  destruct (ParseConfig newRuleSet
              (exampleRuleSet "numeric" "120" (withMinValue "5" emptyValue)))
    as [rs|e] eqn:E.
  - destruct (contact_groups_read_back _ rs E) as (_ & H & _).
    apply (H {| ruleSetThenAttr := Some [exampleThen "120"];
                  ruleSetValueAttr := Some [withMinValue "5" emptyValue] |}
             [exampleThen "120"]
             (exampleThen "120") 1 ["/contact_group/1"]);
      try reflexivity; left; reflexivity.
  - vm_compute in E. discriminate E.
Defined.

End RuleSetReadBack.
